(** * A shallow embedding of the polite SUUMO crawl controller

    The development follows the Python sources module by module:

    - [rate_limiter.py]: [RateLimitConfig], [RateLimiter], [RetryManager],
      [UserAgentRotator], [RequestMonitor], [PoliteRequestManager];
    - [station_mapping.py]: the station table and [get_station_url];
    - [models.py]: [RoomInfo], [PropertyInfo], [ScrapingResult] with their
      validators;
    - [polite_scraper.py]: [PoliteSuumoScraper].

    Coroutines become state-passing functions in a small monad whose
    outcomes are: a returned value, a raised exception, or a coroutine that
    is suspended for ever.  Wall-clock time, sleeping, randomness and the
    browser are capabilities of an abstract world [W]. *)

From Stdlib Require Import ZArith QArith Lqa Lia List String Ascii Bool.
From stdpp Require Import gmap strings sorting pretty.
Import ListNotations.

Set Implicit Arguments.
Local Open Scope string_scope.
Local Open Scope Z_scope.

(** ** Exceptions and outcomes *)

(** The exception classes the sources raise or catch, and the
    [OverflowError] of float arithmetic with an integer.  Every one of
    them derives from [Exception]; pydantic's [ValidationError] derives
    from [ValueError]. *)
Inductive exn : Type :=
| Exception (msg : string)
| ValueError (msg : string)
| TypeError (msg : string)
| KeyError (key : string)
| ValidationError (msg : string)
| OverflowError (msg : string).

Definition is_ValidationError (e : exn) : bool :=
  match e with ValidationError _ => true | _ => false end.

Definition is_ValueError (e : exn) : bool :=
  match e with ValueError _ | ValidationError _ => true | _ => false end.

(** What awaiting a coroutine can lead to.  [Blocked] is a coroutine that
    never resumes (an [acquire] on a semaphore nobody will release). *)
Inductive result (A : Type) : Type :=
| Return (a : A)
| Raise (e : exn)
| Blocked.
Arguments Raise {A} e.
Arguments Blocked {A}.

Definition M (S A : Type) : Type := S -> result A * S.

Definition ret {S A : Type} (a : A) : M S A := fun s => (Return a, s).

Definition raise {S A : Type} (e : exn) : M S A := fun s => (Raise e, s).

Definition bind {S A B : Type} (m : M S A) (k : A -> M S B) : M S B :=
  fun s =>
    match m s with
    | (Return a, s') => k a s'
    | (Raise e, s') => (Raise e, s')
    | (Blocked, s') => (Blocked, s')
    end.

Declare Scope py_scope.
Delimit Scope py_scope with py.
Notation "x <- m ;; k" := (bind m (fun x => k))
  (at level 100, m at next level, k at level 200, right associativity) : py_scope.
Notation "m ;; k" := (bind m (fun _ => k))
  (at level 100, k at level 200, right associativity) : py_scope.
Local Open Scope py_scope.

(** [try: m / except Exception as e: h e].  A blocked coroutine is not an
    exception and is not caught. *)
Definition try_except {S A : Type} (m : M S A) (h : exn -> M S A) : M S A :=
  fun s =>
    match m s with
    | (Return a, s') => (Return a, s')
    | (Raise e, s') => h e s'
    | (Blocked, s') => (Blocked, s')
    end.

(** [try: m / finally: f].  The finaliser runs after a return and after an
    exception; an exception of the finaliser replaces the pending outcome. *)
Definition try_finally {S A : Type} (m : M S A) (f : M S unit) : M S A :=
  fun s =>
    match m s with
    | (Return a, s') =>
        match f s' with
        | (Return _, s'') => (Return a, s'')
        | (Raise e, s'') => (Raise e, s'')
        | (Blocked, s'') => (Blocked, s'')
        end
    | (Raise e, s') =>
        match f s' with
        | (Return _, s'') => (Raise e, s'')
        | (Raise e', s'') => (Raise e', s'')
        | (Blocked, s'') => (Blocked, s'')
        end
    | (Blocked, s') => (Blocked, s')
    end.

(** Reifies the outcome of a [try] block so that the handler can see the
    local variables as they are at the point of the exception. *)
Definition attempt {S A : Type} (m : M S A) : M S (exn + A) :=
  fun s =>
    match m s with
    | (Return a, s') => (Return (inr a), s')
    | (Raise e, s') => (Return (inl e), s')
    | (Blocked, s') => (Blocked, s')
    end.

(** An external call that either raises or returns. *)
Definition of_sum {A : Type} (r : exn + A) : result A :=
  match r with inl e => Raise e | inr a => Return a end.

(** Methods run on a pair of the receiver [self] and an environment. *)
Definition get_self {O E : Type} : M (O * E) O := fun s => (Return (fst s), s).

Definition put_self {O E : Type} (o : O) : M (O * E) unit :=
  fun s => (Return tt, (o, snd s)).

Definition in_env {O E A : Type} (m : M E A) : M (O * E) A :=
  fun s => let '(r, e') := m (snd s) in (r, (fst s, e')).

(** Calling a method of the attribute selected by [get]/[set]. *)
Definition on_attr {O P E A : Type} (get : O -> P) (set : P -> O -> O)
    (m : M (P * E) A) : M (O * E) A :=
  fun s =>
    let '(r, (p', e')) := m (get (fst s), snd s) in
    (r, (set p' (fst s), e')).

(** ** Time, sleeping and randomness *)

Definition Qltb (x y : Q) : bool := negb (Qle_bool y x).

Lemma Qltb_lt (x y : Q) : Qltb x y = true <-> (x < y)%Q.
Proof.
  unfold Qltb. rewrite negb_true_iff. split; intros Hxy.
  - apply Qnot_le_lt. intros Hle. apply Qle_bool_iff in Hle. congruence.
  - destruct (Qle_bool y x) eqn:Hb; [|reflexivity].
    apply Qle_bool_iff in Hb. apply Qlt_not_le in Hxy. contradiction.
Qed.

Lemma Qltb_ge (x y : Q) : Qltb x y = false <-> (y <= x)%Q.
Proof.
  unfold Qltb. rewrite negb_false_iff. apply Qle_bool_iff.
Qed.

(** Floats are rationals here: rounding and infinities are not
    represented.  What is represented is the conversion of a Python
    integer to a float, which the arithmetic of a float with an integer
    performs first: an integer that rounds to a magnitude beyond the
    largest double, [2 ** 1024 - 2 ** 970] or more, raises
    [OverflowError]. *)
Definition float_of_int (n : Z) : exn + Q :=
  if 2 ^ 1024 - 2 ^ 970 <=? Z.abs n
  then inl (OverflowError "int too large to convert to float")
  else inr (inject_Z n).
Arguments float_of_int : simpl never.

(** The capabilities of the Python runtime the crawler relies on:
    [time.time()], [asyncio.sleep], [random.random()] and the integer
    source behind [random.choice]. *)
Class Runtime (W : Type) : Type := {
  time_time : W -> Q;
  asyncio_sleep : Q -> W -> W;
  random_random : W -> Q * W;
  random_randbelow : nat -> W -> nat * W
}.

(** What the pacing guarantee needs of the clock: sleeping for [d] seconds
    lets at least [d] seconds pass, drawing a random number does not turn
    the clock back, and [random.random()] lies in the unit interval. *)
Class RuntimeLaws (W : Type) `{Runtime W} : Prop := {
  sleep_elapses : forall d w, (time_time w + d <= time_time (asyncio_sleep d w))%Q;
  random_keeps_time : forall w, (time_time w <= time_time (snd (random_random w)))%Q;
  random_unit : forall w, (0 <= fst (random_random w) <= 1)%Q
}.

(** Synchronisation and request events, in the order they happen.  The
    history is specification state: no definition below reads it. *)
Inductive Event : Type :=
| EvAcquire
| EvRelease
| EvSleep (d : Q)
| EvAttempt (attempt : Z)
| EvRecord (success : bool).

Definition Event_eqb (a b : Event) : bool :=
  match a, b with
  | EvAcquire, EvAcquire => true
  | EvRelease, EvRelease => true
  | EvSleep d, EvSleep d' => Qeq_bool d d'
  | EvAttempt k, EvAttempt k' => (k =? k')%Z
  | EvRecord x, EvRecord y => Bool.eqb x y
  | _, _ => false
  end.

Definition is_attempt (e : Event) : bool :=
  match e with EvAttempt _ => true | _ => false end.

Definition is_record (e : Event) : bool :=
  match e with EvRecord _ => true | _ => false end.

Definition is_sleep (e : Event) : bool :=
  match e with EvSleep _ => true | _ => false end.

(** ** rate_limiter.py *)

Record RateLimitConfig : Type := {
  min_delay : Q;
  max_delay : Q;
  page_delay : Q;
  station_delay : Q;
  max_retries : Z;
  retry_delay : Q;
  concurrent_limit : Z
}.

(** [RateLimitConfig()] with the dataclass defaults. *)
Definition RateLimitConfig_default : RateLimitConfig :=
  {| min_delay := 3; max_delay := 8; page_delay := 5; station_delay := 10;
     max_retries := 3; retry_delay := 5; concurrent_limit := 1 |}.

(** The data model's side conditions on a configuration. *)
Definition valid_config (c : RateLimitConfig) : Prop :=
  (0 <= min_delay c)%Q /\ (min_delay c <= max_delay c)%Q /\
  (0 <= page_delay c)%Q /\ (0 <= station_delay c)%Q /\
  (0 <= retry_delay c)%Q /\ 0 <= max_retries c /\ 1 <= concurrent_limit c.

Record RateLimiter : Type := {
  rl_config : RateLimitConfig;
  last_request_time : Q;
  request_count : Z;
  session_start_time : Q;
  _semaphore : Z
}.

Record RetryManager : Type := { rm_config : RateLimitConfig }.

Record UserAgentRotator : Type := {
  user_agents : list string;
  current_index : Z
}.

Record RequestMonitor : Type := {
  start_time : Q;
  request_times : list Q;
  error_count : Z;
  success_count : Z
}.

Record PoliteRequestManager : Type := {
  rate_limiter : RateLimiter;
  retry_manager : RetryManager;
  user_agent_rotator : UserAgentRotator;
  monitor : RequestMonitor
}.

Definition set_rate_limiter (rl : RateLimiter) (m : PoliteRequestManager) :=
  {| rate_limiter := rl; retry_manager := retry_manager m;
     user_agent_rotator := user_agent_rotator m; monitor := monitor m |}.

Definition set_monitor (mo : RequestMonitor) (m : PoliteRequestManager) :=
  {| rate_limiter := rate_limiter m; retry_manager := retry_manager m;
     user_agent_rotator := user_agent_rotator m; monitor := mo |}.

Definition set_user_agent_rotator (u : UserAgentRotator) (m : PoliteRequestManager) :=
  {| rate_limiter := rate_limiter m; retry_manager := retry_manager m;
     user_agent_rotator := u; monitor := monitor m |}.

(** [range(n)] *)
Definition range (n : Z) : list Z := map Z.of_nat (seq 0 (Z.to_nat n)).

Section RateLimiterModule.
Context {W : Type} `{Runtime W}.

Record Env : Type := { world : W; history : list Event }.

Definition emit (e : Event) : M Env unit :=
  fun env => (Return tt, {| world := world env; history := (history env ++ [e])%list |}).

Definition time : M Env Q := fun env => (Return (time_time (world env)), env).

Definition sleep (d : Q) : M Env unit :=
  fun env =>
    (Return tt, {| world := asyncio_sleep d (world env);
                   history := (history env ++ [EvSleep d])%list |}).

Definition in_world {A : Type} (m : M W A) : M Env A :=
  fun env =>
    let '(r, w') := m (world env) in
    (r, {| world := w'; history := history env |}).

(** [random.uniform(a, b)] is [a + (b - a) * random()]. *)
Definition random_uniform (a b : Q) : M Env Q :=
  in_world (fun w => let '(u, w') := random_random w in
                     (Return (a + (b - a) * u)%Q, w')).

(** [random.choice(seq)] indexes the sequence with [_randbelow(len(seq))].
    The only sequence it is called on is the list of eight user agents
    that [UserAgentRotator.__init__] builds and nothing changes; the
    [IndexError] of an empty sequence is not represented. *)
Definition random_choice (l : list string) : M W string :=
  fun w => let '(i, w') := random_randbelow (length l) w in
           (Return (nth i l ""), w').

(** *** asyncio.Semaphore *)

(** [asyncio.Semaphore(value)] refuses a negative initial value. *)
Definition asyncio_Semaphore (value : Z) : exn + Z :=
  if value <? 0 then inl (ValueError "Semaphore initial value must be >= 0")
  else inr value.

(** [acquire] takes a slot when one is free and otherwise waits for a
    [release]; in a single flow of control nobody will release. *)
Definition semaphore_acquire : M (RateLimiter * Env) unit :=
  self <- get_self ;;
  if 0 <? _semaphore self then
    put_self {| rl_config := rl_config self;
                last_request_time := last_request_time self;
                request_count := request_count self;
                session_start_time := session_start_time self;
                _semaphore := _semaphore self - 1 |} ;;
    in_env (emit EvAcquire)
  else fun s => (Blocked, s).

Definition semaphore_release : M (RateLimiter * Env) unit :=
  self <- get_self ;;
  put_self {| rl_config := rl_config self;
              last_request_time := last_request_time self;
              request_count := request_count self;
              session_start_time := session_start_time self;
              _semaphore := _semaphore self + 1 |} ;;
  in_env (emit EvRelease).

(** [async with self._semaphore: body] *)
Definition async_with_semaphore {A : Type} (body : M (RateLimiter * Env) A)
  : M (RateLimiter * Env) A :=
  semaphore_acquire ;; try_finally body semaphore_release.

(** *** RateLimiter *)

Definition RateLimiter_init (config : RateLimitConfig) : M Env RateLimiter :=
  now <- time ;;
  match asyncio_Semaphore (concurrent_limit config) with
  | inl e => raise e
  | inr sem =>
      ret {| rl_config := config; last_request_time := 0;
             request_count := 0; session_start_time := now;
             _semaphore := sem |}
  end.

(** The delay a request type asks for: fixed for ["page"] and
    ["station"], drawn uniformly for every other type. *)
Definition required_delay_for (config : RateLimitConfig) (request_type : string)
  : M Env Q :=
  if String.eqb request_type "page" then ret (page_delay config)
  else if String.eqb request_type "station" then ret (station_delay config)
  else random_uniform (min_delay config) (max_delay config).

Definition wait_for_request (request_type : string) : M (RateLimiter * Env) unit :=
  async_with_semaphore (
    self <- get_self ;;
    current_time <- in_env time ;;
    let elapsed := (current_time - last_request_time self)%Q in
    required_delay <- in_env (required_delay_for (rl_config self) request_type) ;;
    (if Qltb elapsed required_delay
     then in_env (sleep (required_delay - elapsed)%Q)
     else ret tt) ;;
    now <- in_env time ;;
    put_self {| rl_config := rl_config self;
                last_request_time := now;
                request_count := request_count self + 1;
                session_start_time := session_start_time self;
                _semaphore := _semaphore self |}).

(** *** RetryManager *)

(** The body of [for attempt in range(max_retries + 1)], with the
    attempts still to run; falling out of the loop reaches
    [raise last_exception].  The product [retry_delay * (2 ** attempt)]
    converts the power to a float inside the [except] clause, so that
    its [OverflowError] leaves the loop. *)
Fixpoint retry_loop {A : Type} (self : RetryManager) (func : M W A)
    (attempts : list Z) (last_exception : option exn) : M Env A :=
  match attempts with
  | [] =>
      match last_exception with
      | Some e => raise e
      | None => raise (TypeError "exceptions must derive from BaseException")
      end
  | attempt_no :: rest =>
      r <- attempt (emit (EvAttempt attempt_no) ;; in_world func) ;;
      match r with
      | inr v => ret v
      | inl e =>
          if attempt_no =? max_retries (rm_config self) then raise e
          else
            match float_of_int (2 ^ attempt_no) with
            | inl overflow => raise overflow
            | inr power =>
                let wait_time := (retry_delay (rm_config self) * power)%Q in
                jitter <- random_uniform (1 # 2) (3 # 2) ;;
                let actual_wait := (wait_time * jitter)%Q in
                sleep actual_wait ;;
                retry_loop self func rest (Some e)
            end
      end
  end.

Definition execute_with_retry {A : Type} (self : RetryManager) (func : M W A)
  : M Env A :=
  retry_loop self func (range (max_retries (rm_config self) + 1)) None.

(** *** UserAgentRotator *)

Definition UserAgentRotator_init : UserAgentRotator :=
  {| user_agents := [
       "Mozilla/5.0 (Windows NT 10.0; Win64; x64) AppleWebKit/537.36 (KHTML, like Gecko) Chrome/91.0.4472.124 Safari/537.36";
       "Mozilla/5.0 (Windows NT 10.0; Win64; x64) AppleWebKit/537.36 (KHTML, like Gecko) Chrome/92.0.4515.107 Safari/537.36";
       "Mozilla/5.0 (Macintosh; Intel Mac OS X 10_15_7) AppleWebKit/537.36 (KHTML, like Gecko) Chrome/91.0.4472.124 Safari/537.36";
       "Mozilla/5.0 (Macintosh; Intel Mac OS X 10_15_7) AppleWebKit/605.1.15 (KHTML, like Gecko) Version/14.1.1 Safari/605.1.15";
       "Mozilla/5.0 (Windows NT 10.0; Win64; x64; rv:89.0) Gecko/20100101 Firefox/89.0";
       "Mozilla/5.0 (Macintosh; Intel Mac OS X 10.15; rv:89.0) Gecko/20100101 Firefox/89.0";
       "Mozilla/5.0 (X11; Linux x86_64) AppleWebKit/537.36 (KHTML, like Gecko) Chrome/91.0.4472.124 Safari/537.36";
       "Mozilla/5.0 (X11; Ubuntu; Linux x86_64; rv:89.0) Gecko/20100101 Firefox/89.0" ];
     current_index := 0 |}.

Definition get_random_user_agent (self : UserAgentRotator) : M W string :=
  random_choice (user_agents self).

(** *** RequestMonitor *)

Definition RequestMonitor_init : M Env RequestMonitor :=
  now <- time ;;
  ret {| start_time := now; request_times := []; error_count := 0;
         success_count := 0 |}.

Definition record_request (success : bool) (response_time : option Q)
  : M (RequestMonitor * Env) unit :=
  self <- get_self ;;
  current_time <- in_env time ;;
  let appended := (request_times self ++ [current_time])%list in
  let cutoff_time := (current_time - 3600)%Q in
  in_env (emit (EvRecord success)) ;;
  put_self {| start_time := start_time self;
              request_times := List.filter (fun t => Qltb cutoff_time t) appended;
              error_count := if success then error_count self
                             else error_count self + 1;
              success_count := if success then success_count self + 1
                               else success_count self |}.

(** *** PoliteRequestManager *)

Definition PoliteRequestManager_init (config : RateLimitConfig)
  : M Env PoliteRequestManager :=
  rl <- RateLimiter_init config ;;
  mo <- RequestMonitor_init ;;
  ret {| rate_limiter := rl; retry_manager := {| rm_config := config |};
         user_agent_rotator := UserAgentRotator_init; monitor := mo |}.

Definition make_request {A : Type} (func : M W A) (request_type : string)
  : M (PoliteRequestManager * Env) A :=
  on_attr rate_limiter set_rate_limiter (wait_for_request request_type) ;;
  t0 <- in_env time ;;
  try_except
    (self <- get_self ;;
     r <- in_env (execute_with_retry (retry_manager self) func) ;;
     t1 <- in_env time ;;
     let response_time := (t1 - t0)%Q in
     on_attr monitor set_monitor (record_request true (Some response_time)) ;;
     ret r)
    (fun e =>
       t1 <- in_env time ;;
       let response_time := (t1 - t0)%Q in
       on_attr monitor set_monitor (record_request false (Some response_time)) ;;
       raise e).

Definition get_current_user_agent (self : PoliteRequestManager) : M W string :=
  get_random_user_agent (user_agent_rotator self).

End RateLimiterModule.

(** ** station_mapping.py *)

(** A dict display [{k1: v1, k2: v2, ...}] inserts its items from left to
    right, so a repeated key keeps the value written last; [**d] inside a
    display contributes the items of [d] in the same way. *)
Definition dict_update (d : gmap string string) (items : list (string * string))
  : gmap string string :=
  fold_left (fun m kv => <[fst kv := snd kv]> m) items d.

Definition YAMANOTE_STATIONS : gmap string string :=
  dict_update ∅ [
    ("渋谷", "ek_17640"); ("新宿", "ek_19670"); ("池袋", "ek_02060");
    ("上野", "ek_04530"); ("東京", "ek_30140"); ("有楽町", "ek_41680");
    ("新橋", "ek_20370"); ("浜松町", "ek_33030"); ("田町", "ek_22790");
    ("品川", "ek_17630"); ("大崎", "ek_06280"); ("五反田", "ek_14840");
    ("目黒", "ek_39210"); ("恵比寿", "ek_04150"); ("原宿", "ek_33060");
    ("代々木", "ek_40960"); ("新大久保", "ek_20220"); ("高田馬場", "ek_22470");
    ("目白", "ek_39220"); ("大塚", "ek_06380"); ("巣鴨", "ek_18120");
    ("駒込", "ek_14990"); ("田端", "ek_22870"); ("西日暮里", "ek_29230");
    ("日暮里", "ek_33330"); ("鶯谷", "ek_04590"); ("御徒町", "ek_39070");
    ("秋葉原", "ek_01090"); ("神田", "ek_09950") ].

Definition MAJOR_STATIONS : gmap string string :=
  dict_update YAMANOTE_STATIONS [
    ("中野", "ek_27280"); ("吉祥寺", "ek_11640"); ("三鷹", "ek_36880");
    ("荻窪", "ek_06640"); ("阿佐ヶ谷", "ek_01070"); ("高円寺", "ek_22290");
    ("国分寺", "ek_15330"); ("立川", "ek_23520");
    ("調布", "ek_24440"); ("府中", "ek_34370"); ("聖蹟桜ヶ丘", "ek_17890");
    ("多摩センター", "ek_22760");
    ("下北沢", "ek_16770"); ("経堂", "ek_12020"); ("成城学園前", "ek_18380");
    ("登戸", "ek_30130"); ("新百合ヶ丘", "ek_20930"); ("町田", "ek_34220");
    ("自由が丘", "ek_16900"); ("二子玉川", "ek_32270"); ("溝の口", "ek_36850");
    ("武蔵小杉", "ek_38720"); ("日吉", "ek_33150");
    ("大宮", "ek_06310"); ("浦和", "ek_04710"); ("川口", "ek_09870");
    ("赤羽", "ek_01020");
    ("船橋", "ek_34480"); ("津田沼", "ek_24780"); ("西船橋", "ek_29360");
    ("市川", "ek_02990");
    ("横浜", "ek_40940"); ("川崎", "ek_09920"); ("鶴見", "ek_25070");
    ("新横浜", "ek_20390") ].

Arguments YAMANOTE_STATIONS : simpl never.
Arguments MAJOR_STATIONS : simpl never.

(** [d[key]] *)
Definition dict_getitem (d : gmap string string) (key : string) : result string :=
  match d !! key with
  | Some v => Return v
  | None => Raise (KeyError key)
  end.

(** The message of the [ValueError] also lists the supported names; the
    listing is left out here. *)
Definition get_station_url (station_name prefecture : string) : result string :=
  if negb (bool_decide (station_name ∈ dom MAJOR_STATIONS)) then
    Raise (ValueError ("駅名 '" ++ station_name ++ "' は対応していません。"))
  else
    match dict_getitem MAJOR_STATIONS station_name with
    | Return station_code =>
        Return ("https://suumo.jp/chintai/" ++ prefecture ++ "/" ++ station_code ++ "/")
    | Raise e => Raise e
    | Blocked => Blocked
    end.

(** ** models.py *)

(** [len(l)] as a Python integer. *)
Definition len {A : Type} (l : list A) : Z := Z.of_nat (length l).

(** Truth value of a string: non-empty. *)
Definition str_bool (s : string) : bool :=
  match s with EmptyString => false | String _ _ => true end.

(** Strings are the UTF-8 bytes of Python's [str].  [str.isspace] on a
    character below U+0080: U+0009 to U+000D and U+001C to U+0020. *)
Definition isspace (c : ascii) : bool :=
  let n := nat_of_ascii c in
  ((9 <=? n)%nat && (n <=? 13)%nat) || ((28 <=? n)%nat && (n <=? 32)%nat).

(** The white space characters of two bytes: U+0085 and U+00A0. *)
Definition two_byte_space (a b : ascii) : bool :=
  let x := nat_of_ascii a in
  let y := nat_of_ascii b in
  (x =? 194)%nat && ((y =? 133)%nat || (y =? 160)%nat).

(** The white space characters of three bytes: U+1680, U+2000 to U+200A,
    U+2028, U+2029, U+202F, U+205F and U+3000. *)
Definition three_byte_space (a b c : ascii) : bool :=
  let x := nat_of_ascii a in
  let y := nat_of_ascii b in
  let z := nat_of_ascii c in
  ((x =? 225)%nat && (y =? 154)%nat && (z =? 128)%nat)
  || ((x =? 226)%nat && (y =? 128)%nat
      && (((128 <=? z)%nat && (z <=? 138)%nat)
          || (z =? 168)%nat || (z =? 169)%nat || (z =? 175)%nat))
  || ((x =? 226)%nat && (y =? 129)%nat && (z =? 159)%nat)
  || ((x =? 227)%nat && (y =? 128)%nat && (z =? 128)%nat).

(** Removes the white space characters a string begins with; [two] and
    [three] recognise those of two and of three bytes. *)
Fixpoint lstrip_by (two : ascii -> ascii -> bool)
    (three : ascii -> ascii -> ascii -> bool) (s : string) : string :=
  match s with
  | EmptyString => EmptyString
  | String a s1 =>
      if isspace a then lstrip_by two three s1
      else
        match s1 with
        | EmptyString => s
        | String b s2 =>
            if two a b then lstrip_by two three s2
            else
              match s2 with
              | EmptyString => s
              | String c s3 =>
                  if three a b c then lstrip_by two three s3 else s
              end
        end
  end.

(** [str.lstrip()] *)
Definition lstrip (s : string) : string :=
  lstrip_by two_byte_space three_byte_space s.

Definition str_rev (s : string) : string :=
  string_of_list_ascii (rev (list_ascii_of_string s)).

(** [str.rstrip()]: on the reversed string the bytes of a character
    come last byte first. *)
Definition rstrip (s : string) : string :=
  str_rev (lstrip_by (fun a b => two_byte_space b a)
                     (fun a b c => three_byte_space c b a) (str_rev s)).

(** [str.strip()] *)
Definition strip (s : string) : string := rstrip (lstrip s).

(** The keyword arguments [room_data] built by the extractor. *)
Record RoomData : Type := {
  rd_floor : string;
  rd_rent : string;
  rd_admin_fee : string;
  rd_deposit_key_money : string;
  rd_layout : string;
  rd_area : string;
  rd_detail_url : option string
}.

(** [RoomInfo].  The three [*_numeric] fields are functions of the text
    fields and are not represented. *)
Record RoomInfo : Type := {
  floor : string;
  rent : string;
  admin_fee : string;
  deposit_key_money : string;
  layout : string;
  area : string;
  detail_url : option string
}.

(** [RoomInfo.validate_url] *)
Definition validate_url (v : option string) : exn + option string :=
  match v with
  | Some u =>
      if str_bool u && negb (String.prefix "http" u)
      then inl (ValueError "URLは http または https で始まる必要があります")
      else inr v
  | None => inr v
  end.

(** Building a [RoomInfo] from [room_data]: a validator's [ValueError] surfaces as a
    [ValidationError].  [validate_layout] returns its argument on both of
    its paths. *)
Definition RoomInfo_init (data : RoomData) : result RoomInfo :=
  match validate_url (rd_detail_url data) with
  | inl _ => Raise (ValidationError "detail_url")
  | inr url =>
      Return {| floor := rd_floor data; rent := rd_rent data;
                admin_fee := rd_admin_fee data;
                deposit_key_money := rd_deposit_key_money data;
                layout := rd_layout data; area := rd_area data;
                detail_url := url |}
  end.

(** The keyword arguments [property_data] built by the extractor. *)
Record PropertyData : Type := {
  pd_title : string;
  pd_address : string;
  pd_access : string;
  pd_building_age_area : string;
  pd_rooms : list RoomInfo
}.

(** [PropertyInfo].  [building_age] and [station_info] are functions of
    the text fields and are not represented. *)
Record PropertyInfo : Type := {
  title : string;
  address : string;
  access : string;
  building_age_area : string;
  rooms : list RoomInfo;
  scraped_at : Q;
  station_name : option string
}.

Definition set_rooms (r : list RoomInfo) (p : PropertyInfo) : PropertyInfo :=
  {| title := title p; address := address p; access := access p;
     building_age_area := building_age_area p; rooms := r;
     scraped_at := scraped_at p; station_name := station_name p |}.

Definition set_station_name (n : option string) (p : PropertyInfo) : PropertyInfo :=
  {| title := title p; address := address p; access := access p;
     building_age_area := building_age_area p; rooms := rooms p;
     scraped_at := scraped_at p; station_name := n |}.

(** [validate_title] and [validate_address] have the same body. *)
Definition validate_required_text (v : string) : option string :=
  if negb (str_bool v) || negb (str_bool (strip v)) then None else Some (strip v).

(** [validate_rooms] *)
Definition validate_rooms (v : list RoomInfo) : option (list RoomInfo) :=
  match v with [] => None | _ => Some v end.

(** Building a [PropertyInfo] from [property_data] at time [now]. *)
Definition PropertyInfo_init (data : PropertyData) (now : Q) : result PropertyInfo :=
  match validate_required_text (pd_title data),
        validate_required_text (pd_address data),
        validate_rooms (pd_rooms data) with
  | Some t, Some a, Some r =>
      Return {| title := t; address := a; access := pd_access data;
                building_age_area := pd_building_age_area data; rooms := r;
                scraped_at := now; station_name := None |}
  | _, _, _ => Raise (ValidationError "PropertyInfo")
  end.

Record ScrapingResult : Type := {
  sr_properties : list PropertyInfo;
  total_count : Z;
  pages_scraped : Z;
  sr_scraped_at : Q;
  source_url : string
}.

(** [ScrapingResult(properties=..., total_count=..., pages_scraped=...,
    source_url=...)] at time [now]: [validate_properties] on the field,
    then [validate_counts] on the whole model. *)
Definition ScrapingResult_init (props : list PropertyInfo) (total pages : Z)
    (src : string) (now : Q) : result ScrapingResult :=
  match props with
  | [] => Raise (ValidationError "最低1つの物件が必要です")
  | _ =>
      if negb (len props =? total)
      then Raise (ValidationError "total_countとpropertiesの数が一致しません")
      else Return {| sr_properties := props; total_count := total;
                     pages_scraped := pages; sr_scraped_at := now;
                     source_url := src |}
  end.

(** [sum(len(prop.rooms) for prop in props)] *)
Definition sum_rooms (props : list PropertyInfo) : Z :=
  fold_right (fun prop acc => len (rooms prop) + acc) 0 props.

(** ** polite_scraper.py *)

(** What the extractor reads off one [div.cassetteitem] element.  The text
    fields are the values [safe_extract_text] returns for the respective
    selector lists (the first non-blank match, stripped, or the default
    [""]); the room texts are looked up on the property element, not on the
    row, so that all rows of an element share them. *)
Record RoomRow : Type := {
  (** The [href] of the row's first link: a query that raised, no link or
      no attribute, or the attribute's value. *)
  row_href : exn + option string
}.

Record Element : Type := {
  el_title : string;
  el_address : string;
  el_access : string;
  el_building_age_area : string;
  el_floor : string;
  el_rent : string;
  el_admin_fee : string;
  el_deposit_key_money : string;
  el_layout : string;
  el_area : string;
  (** [query_selector_all('tbody tr.js-cassette_link')]. *)
  el_room_rows : exn + list RoomRow
}.

Record Response : Type := { status : Z }.

(** The Playwright calls of the scraper; each one raises or returns. *)
Class Browser (W : Type) : Type := {
  playwright_launch : W -> (exn + unit) * W;
  browser_new_page : string -> W -> (exn + unit) * W;
  browser_close : W -> (exn + unit) * W;
  page_set_extra_http_headers : string -> W -> (exn + unit) * W;
  page_goto : string -> W -> (exn + option Response) * W;
  page_title : W -> (exn + string) * W;
  page_query_cassetteitems : W -> (exn + list Element) * W;
  (** [query_selector('p.pagination-parts + p a')] followed by
      [get_attribute('href')] when the link exists. *)
  page_next_href : W -> (exn + option string) * W
}.

Definition external {W A : Type} (f : W -> (exn + A) * W) : M W A :=
  fun w => let '(r, w') := f w in (of_sum r, w').

Inductive ValidationErrorEntry : Type :=
| RoomError (data : RoomData) (error : string)
| PropertyError (data : PropertyData) (error : string).

(** The attributes [__init__] sets and nothing assigns afterwards. *)
Record Settings : Type := {
  stations : list string;
  target_count : Z;
  prefecture : string;
  base_url : string
}.

(** The attributes the methods update. *)
Record PoliteSuumoScraper : Type := {
  properties : list PropertyInfo;
  validation_errors : list ValidationErrorEntry;
  current_station : option string;
  request_manager : PoliteRequestManager
}.

Definition set_properties (ps : list PropertyInfo) (s : PoliteSuumoScraper) :=
  {| properties := ps; validation_errors := validation_errors s;
     current_station := current_station s; request_manager := request_manager s |}.

Definition set_validation_errors (v : list ValidationErrorEntry) (s : PoliteSuumoScraper) :=
  {| properties := properties s; validation_errors := v;
     current_station := current_station s; request_manager := request_manager s |}.

Definition set_current_station (c : option string) (s : PoliteSuumoScraper) :=
  {| properties := properties s; validation_errors := validation_errors s;
     current_station := c; request_manager := request_manager s |}.

Definition set_request_manager (m : PoliteRequestManager) (s : PoliteSuumoScraper) :=
  {| properties := properties s; validation_errors := validation_errors s;
     current_station := current_station s; request_manager := m |}.

(** [str(e)] for the exceptions recorded as validation errors. *)
Definition exn_str (e : exn) : string :=
  match e with
  | Exception m | ValueError m | TypeError m | KeyError m | ValidationError m
  | OverflowError m => m
  end.

(** The outcome of one turn of a loop body. *)
Inductive loop_step (A : Type) : Type :=
| Break (a : A)
| Continue (a : A).

Section PoliteScraperModule.
Context {W : Type} `{Runtime W} `{Browser W}.

Local Abbreviation St := (PoliteSuumoScraper * @Env W)%type.

Definition sleep_uniform (a b : Q) : M (@Env W) unit :=
  d <- random_uniform a b ;; sleep d.

(** [PoliteSuumoScraper.__init__] *)
Definition PoliteSuumoScraper_init (stations_ : list string) (target_count_ : Z)
    (prefecture_ : string) (polite_mode : bool)
  : M (@Env W) (Settings * PoliteSuumoScraper) :=
  let config :=
    if polite_mode then
      {| min_delay := 5; max_delay := 12; page_delay := 8;
         station_delay := 15; max_retries := 3; retry_delay := 10;
         concurrent_limit := 1 |}
    else RateLimitConfig_default in
  rm <- PoliteRequestManager_init config ;;
  ret ({| stations := stations_; target_count := target_count_;
          prefecture := prefecture_; base_url := "https://suumo.jp" |},
       {| properties := []; validation_errors := []; current_station := None;
          request_manager := rm |}).

Definition create_browser : M St unit :=
  self <- get_self ;;
  in_env (in_world (external playwright_launch)) ;;
  ua <- in_env (in_world (get_current_user_agent (request_manager self))) ;;
  in_env (in_world (external (browser_new_page ua))).

Definition close_browser : M St unit :=
  in_env (in_world (external browser_close)).

(** The rows of an element, one [room_data] each. *)
Definition room_data_of (self : Settings) (element : Element) (row : RoomRow)
  : RoomData :=
  {| rd_floor := el_floor element; rd_rent := el_rent element;
     rd_admin_fee := el_admin_fee element;
     rd_deposit_key_money := el_deposit_key_money element;
     rd_layout := el_layout element; rd_area := el_area element;
     rd_detail_url :=
       match row_href row with
       | inr (Some href) =>
           if str_bool href then Some (base_url self ++ href) else None
       | inr None => None
       | inl _ => None
       end |}.

(** [for row in room_rows: ...], appending to [rooms_info]. *)
Fixpoint extract_rooms (self : Settings) (element : Element)
    (room_rows : list RoomRow) (rooms_info : list RoomInfo)
  : M St (list RoomInfo) :=
  match room_rows with
  | [] => ret rooms_info
  | row :: rest =>
      let room_data := room_data_of self element row in
      match RoomInfo_init room_data with
      | Return room => extract_rooms self element rest (rooms_info ++ [room])%list
      | Raise e =>
          if is_ValidationError e then
            sc <- get_self ;;
            put_self (set_validation_errors
                        (validation_errors sc ++ [RoomError room_data (exn_str e)])%list
                        sc) ;;
            extract_rooms self element rest rooms_info
          else ret rooms_info
      | Blocked => fun s => (Blocked, s)
      end
  end.

Definition extract_property_info (self : Settings) (element : Element)
  : M St (option PropertyInfo) :=
  try_except
    (rooms_info <-
       match el_room_rows element with
       | inr room_rows => extract_rooms self element room_rows []
       | inl _ => ret []
       end ;;
     let property_data :=
       {| pd_title := el_title element; pd_address := el_address element;
          pd_access := el_access element;
          pd_building_age_area := el_building_age_area element;
          pd_rooms := rooms_info |} in
     now <- in_env time ;;
     match PropertyInfo_init property_data now with
     | Return property_obj => ret (Some property_obj)
     | Raise e =>
         if is_ValidationError e then
           sc <- get_self ;;
           put_self (set_validation_errors
                       (validation_errors sc
                          ++ [PropertyError property_data (exn_str e)])%list
                       sc) ;;
           ret None
         else raise e
     | Blocked => fun s => (Blocked, s)
     end)
    (fun _ => ret None).

(** The closure [_goto] of [safe_goto_page]; its [except] clause logs and
    raises the same exception again. *)
Definition _goto (rm : PoliteRequestManager) (url : string)
  : M W (option Response) :=
  ua <- get_current_user_agent rm ;;
  external (page_set_extra_http_headers ua) ;;
  response <- external (page_goto url) ;;
  match response with
  | Some r =>
      if 400 <=? status r then raise (Exception "HTTP error status")
      else ret response
  | None => ret response
  end.

Definition safe_goto_page (url : string) : M St (option Response) :=
  self <- get_self ;;
  on_attr request_manager set_request_manager
    (make_request (_goto (request_manager self) url) "page").

(** [for i, element in enumerate(property_elements): ...] *)
Fixpoint scrape_page_loop (self : Settings) (i : Z) (elements : list Element)
    (page_props : list PropertyInfo) : M St (list PropertyInfo) :=
  match elements with
  | [] => ret page_props
  | element :: rest =>
      (if 0 <? i then in_env (sleep_uniform (1 # 2) (3 # 2)) else ret tt) ;;
      property_info <- extract_property_info self element ;;
      let page_props :=
        match property_info with
        | Some p => (page_props ++ [p])%list
        | None => page_props
        end in
      sc <- get_self ;;
      let total_rooms := sum_rooms (properties sc ++ page_props)%list in
      if target_count self <=? total_rooms then ret page_props
      else scrape_page_loop self (i + 1) rest page_props
  end.

Definition scrape_page (self : Settings) (page_url : string)
  : M St (list PropertyInfo) :=
  try_except
    (safe_goto_page page_url ;;
     in_env (sleep_uniform 2 4) ;;
     in_env (in_world (external page_title)) ;;
     r <- attempt (in_env (in_world (external page_query_cassetteitems))) ;;
     match r with
     | inl _ => ret []
     | inr property_elements =>
         match property_elements with
         | [] => ret []
         | _ => scrape_page_loop self 0 property_elements []
         end
     end)
    (fun _ => ret []).

Definition get_next_page_url (self : Settings) : M St (option string) :=
  try_except
    (in_env (sleep_uniform 1 2) ;;
     href <- in_env (in_world (external page_next_href)) ;;
     match href with
     | Some h =>
         if str_bool h && str_bool (strip h) then ret (Some (base_url self ++ h))
         else ret None
     | None => ret None
     end)
    (fun _ => ret None).

(** [_limit_properties]: the loop, with the local variables
    [limited_properties] and [room_count]. *)
Fixpoint limit_loop (props : list PropertyInfo) (max_rooms : Z)
    (limited_properties : list PropertyInfo) (room_count : Z)
  : list PropertyInfo :=
  match props with
  | [] => limited_properties
  | prop :: rest =>
      if room_count + len (rooms prop) <=? max_rooms then
        limit_loop rest max_rooms (limited_properties ++ [prop])%list
          (room_count + len (rooms prop))
      else
        let needed_rooms := max_rooms - room_count in
        if 0 <? needed_rooms then
          (limited_properties
             ++ [set_rooms (firstn (Z.to_nat needed_rooms) (rooms prop)) prop])%list
        else limited_properties
  end.

Definition _limit_properties (props : list PropertyInfo) (max_rooms : Z)
  : list PropertyInfo :=
  limit_loop props max_rooms [] 0.

(** Truth value of [current_url], a string or [None]. *)
Definition url_bool (u : option string) : bool :=
  match u with Some s => str_bool s | None => false end.

(** One turn of [while current_url and page_count < 10] in
    [scrape_station]; the result carries [current_url], [page_count] and
    [station_properties]. *)
Definition station_page (self : Settings) (current_url : string)
    (page_count : Z) (station_properties : list PropertyInfo)
  : M St (loop_step (option string * Z * list PropertyInfo)) :=
  r <- attempt (scrape_page self current_url) ;;
  match r with
  | inl _ => ret (Break (Some current_url, page_count, station_properties))
  | inr page_properties =>
      let valid_properties := page_properties in
      let station_properties := (station_properties ++ valid_properties)%list in
      sc <- get_self ;;
      let station_rooms := sum_rooms station_properties in
      let total_rooms := sum_rooms (properties sc) + station_rooms in
      if target_count self <=? total_rooms then
        let remaining_needed := target_count self - sum_rooms (properties sc) in
        ret (Break (Some current_url, page_count,
                    _limit_properties station_properties remaining_needed))
      else
        r' <- attempt (get_next_page_url self) ;;
        match r' with
        | inl _ => ret (Break (Some current_url, page_count, station_properties))
        | inr next_url =>
            let page_count := page_count + 1 in
            (if url_bool next_url
             then in_env (sleep_uniform 8 15)
             else ret tt) ;;
            ret (Continue (next_url, page_count, station_properties))
        end
  end.

Fixpoint station_loop (self : Settings) (fuel : nat)
    (current_url : option string) (page_count : Z)
    (station_properties : list PropertyInfo) : M St (list PropertyInfo) :=
  match fuel with
  | O => ret station_properties
  | S fuel' =>
      match current_url with
      | Some url =>
          if str_bool url && (page_count <? 10) then
            step <- station_page self url page_count station_properties ;;
            match step with
            | Break (_, _, station_properties) => ret station_properties
            | Continue (next_url, page_count, station_properties) =>
                station_loop self fuel' next_url page_count station_properties
            end
          else ret station_properties
      | None => ret station_properties
      end
  end.

Definition option_string_eqb (a b : option string) : bool :=
  match a, b with
  | Some x, Some y => String.eqb x y
  | None, None => true
  | _, _ => false
  end.

Definition scrape_station (self : Settings) (station : string)
  : M St (list PropertyInfo) :=
  sc <- get_self ;;
  put_self (set_current_station (Some station) sc) ;;
  match get_station_url station (prefecture self) with
  | Raise e =>
      if is_ValueError e then ret [] else raise e
  | Blocked => fun s => (Blocked, s)
  | Return search_url =>
      sc <- get_self ;;
      (if negb (option_string_eqb (current_station sc) (Some station))
       then in_env (sleep_uniform 10 20)
       else ret tt) ;;
      station_properties <- station_loop self 10 (Some search_url) 0 [] ;;
      ret (map (set_station_name (Some station)) station_properties)
  end.

(** [for i, station in enumerate(self.stations): ...] of
    [scrape_all_stations]. *)
Fixpoint stations_loop (self : Settings) (i : Z) (todo : list string)
  : M St unit :=
  match todo with
  | [] => ret tt
  | station :: rest =>
      sc <- get_self ;;
      if target_count self <=? sum_rooms (properties sc) then ret tt
      else
        r <- attempt (scrape_station self station) ;;
        match r with
        | inl _ => stations_loop self (i + 1) rest
        | inr station_properties =>
            sc <- get_self ;;
            put_self (set_properties
                        (properties sc ++ station_properties)%list sc) ;;
            (if i <? len (stations self) - 1
             then in_env (sleep_uniform 15 30)
             else ret tt) ;;
            stations_loop self (i + 1) rest
        end
  end.

(** The [try] block of [scrape_all_stations]. *)
Definition scrape_all_stations_body (self : Settings)
  : M St (option ScrapingResult) :=
  stations_loop self 0 (stations self) ;;
  sc <- get_self ;;
  let stations_str := String.concat "-" (stations self) in
  now <- in_env time ;;
  match ScrapingResult_init (properties sc) (len (properties sc))
          (len (stations self)) ("Polite scraping: " ++ stations_str) now with
  | Return res => ret (Some res)
  | Raise e => if is_ValidationError e then ret None else raise e
  | Blocked => fun s => (Blocked, s)
  end.

Definition scrape_all_stations (self : Settings)
  : M St (option ScrapingResult) :=
  create_browser ;;
  try_finally (scrape_all_stations_body self) close_browser.

End PoliteScraperModule.

(** ** A simulated world

    A deterministic stand-in for the clock, the random source and the
    browser: a site maps a URL to the number of fetches that still fail
    and the page served afterwards. *)

Record Page : Type := {
  pg_status : Z;
  pg_elements : exn + list Element;
  pg_next : option string
}.

Record SimWorld : Type := {
  sim_clock : Q;
  sim_loaded : Page;
  sim_site : list (string * (nat * Page))
}.

Definition blank_page : Page :=
  {| pg_status := 200; pg_elements := inr []; pg_next := None |}.

Fixpoint site_fetch (url : string) (site : list (string * (nat * Page)))
  : option Page * list (string * (nat * Page)) :=
  match site with
  | [] => (None, [])
  | (u, (failures, page)) :: rest =>
      if String.eqb u url then
        match failures with
        | O => (Some page, site)
        | S n => (None, (u, (n, page)) :: rest)
        end
      else
        let '(r, rest') := site_fetch url rest in (r, (u, (failures, page)) :: rest')
  end.

Definition sim_goto (url : string) (w : SimWorld)
  : (exn + option Response) * SimWorld :=
  match site_fetch url (sim_site w) with
  | (Some page, site') =>
      (inr (Some {| status := pg_status page |}),
       {| sim_clock := sim_clock w; sim_loaded := page; sim_site := site' |})
  | (None, site') =>
      (inl (Exception "net::ERR_CONNECTION_REFUSED"),
       {| sim_clock := sim_clock w; sim_loaded := sim_loaded w; sim_site := site' |})
  end.

#[export] Instance SimRuntime : Runtime SimWorld := {
  time_time w := sim_clock w;
  asyncio_sleep d w :=
    {| sim_clock := Qred (sim_clock w + d); sim_loaded := sim_loaded w;
       sim_site := sim_site w |};
  random_random w := ((1 # 2)%Q, w);
  random_randbelow n w := (0%nat, w)
}.

#[export] Instance SimBrowser : Browser SimWorld := {
  playwright_launch w := (inr tt, w);
  browser_new_page ua w := (inr tt, w);
  browser_close w := (inr tt, w);
  page_set_extra_http_headers ua w := (inr tt, w);
  page_goto := sim_goto;
  page_title w := (inr "SUUMO", w);
  page_query_cassetteitems w := (pg_elements (sim_loaded w), w);
  page_next_href w := (inr (pg_next (sim_loaded w)), w)
}.

Definition sim_world (now : Q) (site : list (string * (nat * Page))) : SimWorld :=
  {| sim_clock := now; sim_loaded := blank_page; sim_site := site |}.

Definition sim_env (now : Q) (site : list (string * (nat * Page))) : @Env SimWorld :=
  {| world := sim_world now site; history := [] |}.

(** An element with the given title, address and number of room rows. *)
Definition sim_element (t a : string) (n_rows : nat) : Element :=
  {| el_title := t; el_address := a; el_access := ""; el_building_age_area := "";
     el_floor := ""; el_rent := ""; el_admin_fee := ""; el_deposit_key_money := "";
     el_layout := ""; el_area := "";
     el_room_rows := inr (repeat {| row_href := inr None |} n_rows) |}.

Definition sim_page (elements : list Element) (next : option string) : Page :=
  {| pg_status := 200; pg_elements := inr elements; pg_next := next |}.

(** The objects [__init__] builds at time [now]. *)
Definition fresh_manager (config : RateLimitConfig) (now : Q) : PoliteRequestManager :=
  {| rate_limiter := {| rl_config := config; last_request_time := 0;
                        request_count := 0; session_start_time := now;
                        _semaphore := concurrent_limit config |};
     retry_manager := {| rm_config := config |};
     user_agent_rotator := UserAgentRotator_init;
     monitor := {| start_time := now; request_times := []; error_count := 0;
                   success_count := 0 |} |}.

Definition polite_config (polite_mode : bool) : RateLimitConfig :=
  if polite_mode then
    {| min_delay := 5; max_delay := 12; page_delay := 8; station_delay := 15;
       max_retries := 3; retry_delay := 10; concurrent_limit := 1 |}
  else RateLimitConfig_default.

Definition fresh_scraper (polite_mode : bool) (now : Q) : PoliteSuumoScraper :=
  {| properties := []; validation_errors := []; current_station := None;
     request_manager := fresh_manager (polite_config polite_mode) now |}.

Definition settings (stations_ : list string) (target_count_ : Z)
    (prefecture_ : string) : Settings :=
  {| stations := stations_; target_count := target_count_;
     prefecture := prefecture_; base_url := "https://suumo.jp" |}.

(** ** Notions used in the statements *)

(** The least delay a request type is entitled to. *)
Definition class_delay (config : RateLimitConfig) (request_type : string) : Q :=
  if String.eqb request_type "page" then page_delay config
  else if String.eqb request_type "station" then station_delay config
  else min_delay config.

(** Events of the retry executor: attempts and back-off sleeps. *)
Definition is_retry_event (e : Event) : bool := is_attempt e || is_sleep e.

Definition count_attempts (h : list Event) : nat := length (List.filter is_attempt h).

Definition count_records (h : list Event) : nat := length (List.filter is_record h).


(** A world made of a clock and a call counter, and an operation whose
    k-th call has the outcome [script k]. *)
Record ScriptWorld : Type := { sw_clock : Q; sw_calls : nat }.

#[export] Instance ScriptRuntime : Runtime ScriptWorld := {
  time_time w := sw_clock w;
  asyncio_sleep d w := {| sw_clock := Qred (sw_clock w + d); sw_calls := sw_calls w |};
  random_random w := (0%Q, w);
  random_randbelow n w := (0%nat, w)
}.

Definition scripted {A : Type} (script : nat -> exn + A) : M ScriptWorld A :=
  fun w => (of_sum (script (sw_calls w)),
            {| sw_clock := sw_clock w; sw_calls := S (sw_calls w) |}).

(** Fails on its first [n] calls and returns [v] from then on. *)
Definition fails_then {A : Type} (n : nat) (v : A) : nat -> exn + A :=
  fun k => if (k <? n)%nat then inl (Exception "temporary failure") else inr v.

(** A site with one station page, whose first [failures] fetches fail. *)
Definition one_page_site (failures : nat) : list (string * (nat * Page)) :=
  [("https://suumo.jp/chintai/tokyo/ek_17640/",
    (failures, sim_page [sim_element "A" "B" 2] None))].

Definition gate_run (failures : nat) :=
  make_request (external (page_goto "https://suumo.jp/chintai/tokyo/ek_17640/"))
    "page" (fresh_manager RateLimitConfig_default 1000, sim_env 1000 (one_page_site failures)).

(** The result of the truncation loop: whole properties, then possibly
    one property cut to a non-empty proper prefix of its rooms. *)
Inductive truncation (props : list PropertyInfo) : list PropertyInfo -> Prop :=
| truncation_whole (kept dropped : list PropertyInfo) :
    props = (kept ++ dropped)%list -> truncation props kept
| truncation_cut (kept : list PropertyInfo) (p : PropertyInfo)
    (dropped : list PropertyInfo) (k : nat) :
    props = (kept ++ p :: dropped)%list ->
    (0 < k < length (rooms p))%nat ->
    truncation props (kept ++ [set_rooms (firstn k (rooms p)) p])%list.

(** ** Notions for the session *)

(** The same settings with another quota. *)
Definition with_target (q : Z) (self : Settings) : Settings :=
  {| stations := stations self; target_count := q;
     prefecture := prefecture self; base_url := base_url self |}.

Definition has_room (p : PropertyInfo) : Prop := rooms p <> [].

(** A successful request, as the monitor records it. *)
Definition is_success (e : Event) : bool :=
  match e with EvRecord true => true | _ => false end.

Definition fetched (evs : list Event) : bool := existsb is_success evs.

(** The free slots of the gate's semaphore. *)
Definition slots (sc : PoliteSuumoScraper) : Z :=
  _semaphore (rate_limiter (request_manager sc)).

(** What a step of the scraper leaves alone: the accepted properties and
    the semaphore; [evs] are the events it adds. *)
Definition steps {W : Type} (s s' : PoliteSuumoScraper * @Env W)
    (evs : list Event) : Prop :=
  properties (fst s') = properties (fst s) /\
  slots (fst s') = slots (fst s) /\
  history (snd s') = (history (snd s) ++ evs)%list.

(** Starting and closing the browser never fails. *)
Definition browser_reliable (W : Type) `{Browser W} : Prop :=
  (forall w, fst (playwright_launch w) = inr tt) /\
  (forall ua w, fst (browser_new_page ua w) = inr tt) /\
  (forall w, fst (browser_close w) = inr tt).
Arguments browser_reliable W {_}.

(** What a returned session result says about the accepted properties. *)
Definition result_reflects (self : Settings) (o : option ScrapingResult)
    (props : list PropertyInfo) : Prop :=
  match o with
  | None => props = []
  | Some res =>
      props <> [] /\ sr_properties res = props /\ total_count res = len props /\
      pages_scraped res = len (stations self)
  end.

(** ** Example sites *)

Definition url_shibuya : string := "https://suumo.jp/chintai/tokyo/ek_17640/".
Definition url_shibuya_2 : string := "https://suumo.jp/chintai/tokyo/ek_17640/?page=2".
Definition url_shinjuku : string := "https://suumo.jp/chintai/tokyo/ek_19670/".

(** Two pages of three rooms each for 渋谷, one page for 新宿. *)
Definition site_two_stations : list (string * (nat * Page)) :=
  [ (url_shibuya,
     (0%nat, sim_page [sim_element "a1" "x" 3] (Some "/chintai/tokyo/ek_17640/?page=2")));
    (url_shibuya_2, (0%nat, sim_page [sim_element "a2" "x" 3] None));
    (url_shinjuku, (0%nat, sim_page [sim_element "b1" "x" 3] None)) ].

(** The first page of 渋谷 answers 503 with a document that carries a
    pagination link; its second page and 新宿 are served normally. *)
Definition site_503 : list (string * (nat * Page)) :=
  [ (url_shibuya,
     (0%nat, {| pg_status := 503; pg_elements := inr [];
                pg_next := Some "/chintai/tokyo/ek_17640/?page=2" |}));
    (url_shibuya_2, (0%nat, sim_page [sim_element "a2" "x" 2] None));
    (url_shinjuku, (0%nat, sim_page [sim_element "b1" "x" 3] None)) ].

(** One page for 渋谷 whose first element has no title. *)
Definition site_invalid_element : list (string * (nat * Page)) :=
  [ (url_shibuya, (0%nat, sim_page [sim_element "" "x" 1; sim_element "v" "x" 2] None)) ].

Definition site_valid_element : list (string * (nat * Page)) :=
  [ (url_shibuya, (0%nat, sim_page [sim_element "v" "x" 2] None)) ].

Definition sim_session (stations_ : list string) (target_count_ : Z) (now : Q)
    (site : list (string * (nat * Page)))
  : result (option ScrapingResult) * (PoliteSuumoScraper * @Env SimWorld) :=
  scrape_all_stations (settings stations_ target_count_ "tokyo")
    (fresh_scraper true now, sim_env now site).

(** ** rate_limiter.py: the remaining methods *)

(** Built-in errors of the pure helper methods; [Raised] carries an
    exception of the classes above. *)
Inductive py_error : Type :=
| ZeroDivisionError
| IndexError
| UnboundLocalError (name : string)
| Raised (e : exn).

(** [l[i]] for a Python integer [i]: negative indices count from the end. *)
Definition list_getitem {A : Type} (l : list A) (i : Z) : py_error + A :=
  let i' := if i <? 0 then i + len l else i in
  if (0 <=? i') && (i' <? len l)
  then match nth_error l (Z.to_nat i') with
       | Some x => inr x
       | None => inl IndexError
       end
  else inl IndexError.

(** [a % b] on Python integers. *)
Definition py_mod (a b : Z) : py_error + Z :=
  if b =? 0 then inl ZeroDivisionError else inr (a mod b).

(** [UserAgentRotator.get_next_user_agent] *)
Definition get_next_user_agent (self : UserAgentRotator)
  : py_error + (string * UserAgentRotator) :=
  match list_getitem (user_agents self) (current_index self) with
  | inl e => inl e
  | inr user_agent =>
      match py_mod (current_index self + 1) (len (user_agents self)) with
      | inl e => inl e
      | inr next =>
          inr (user_agent,
               {| user_agents := user_agents self; current_index := next |})
      end
  end.

(** [n] calls of [get_next_user_agent] in a row. *)
Fixpoint get_next_user_agents (n : nat) (self : UserAgentRotator)
  : py_error + (list string * UserAgentRotator) :=
  match n with
  | O => inr ([], self)
  | S n' =>
      match get_next_user_agent self with
      | inl e => inl e
      | inr (ua, self') =>
          match get_next_user_agents n' self' with
          | inl e => inl e
          | inr (uas, self'') => inr (ua :: uas, self'')
          end
      end
  end.

(** [x / y] for a float [x] and a number [y]. *)
Definition py_div (x y : Q) : py_error + Q :=
  if Qeq_bool y 0 then inl ZeroDivisionError else inr (x / y)%Q.

(** [RequestMonitor.get_request_rate] when its reading of the clock is
    [now].  The subtraction [current_time - window_seconds] converts the
    integer window to a float; the quotient of the two integers is exact
    here. *)
Definition get_request_rate (self : RequestMonitor) (window_seconds : Z) (now : Q)
  : py_error + Q :=
  match float_of_int window_seconds with
  | inl overflow => inl (Raised overflow)
  | inr window =>
      let cutoff_time := (now - window)%Q in
      let recent_requests :=
        List.filter (fun t => Qltb cutoff_time t) (request_times self) in
      py_div (inject_Z (len recent_requests)) (inject_Z window_seconds)
  end.

Record Stats : Type := {
  st_session_duration : Q;
  st_total_requests : Z;
  st_success_count : Z;
  st_error_count : Z;
  st_success_rate : Q;
  st_avg_request_rate : Q;
  st_recent_request_rate : Q
}.

(** [RequestMonitor.get_stats] at time [now]. *)
Definition get_stats (self : RequestMonitor) (now : Q) : py_error + Stats :=
  let session_duration := (now - start_time self)%Q in
  let total_requests := success_count self + error_count self in
  match (if 0 <? total_requests
         then py_div (inject_Z (success_count self)) (inject_Z total_requests)
         else inr 0%Q) with
  | inl e => inl e
  | inr success_rate =>
      match (if Qltb 0 session_duration
             then py_div (inject_Z total_requests) session_duration
             else inr 0%Q) with
      | inl e => inl e
      | inr avg_request_rate =>
          match get_request_rate self 300 now with
          | inl e => inl e
          | inr recent =>
              inr {| st_session_duration := session_duration;
                     st_total_requests := total_requests;
                     st_success_count := success_count self;
                     st_error_count := error_count self;
                     st_success_rate := success_rate;
                     st_avg_request_rate := avg_request_rate;
                     st_recent_request_rate := recent |}
          end
      end
  end.

(** The counters are non-negative and no more timestamps are kept than
    requests were counted. *)
Definition monitor_ok (mo : RequestMonitor) : Prop :=
  0 <= error_count mo /\ 0 <= success_count mo /\
  len (request_times mo) <= success_count mo + error_count mo.

(** The events of the retry executor from attempt [k] on: attempts are
    numbered consecutively and the sleep after attempt [k] lies within
    half and one and a half times [retry_delay * 2 ** k]. *)
Inductive backoff_trace (config : RateLimitConfig) : Z -> list Event -> Prop :=
| backoff_last (k : Z) : backoff_trace config k [EvAttempt k]
| backoff_more (k : Z) (d : Q) (evs : list Event) :
    (retry_delay config * inject_Z (2 ^ k) * (1 # 2) <= d)%Q ->
    (d <= retry_delay config * inject_Z (2 ^ k) * (3 # 2))%Q ->
    backoff_trace config (k + 1) evs ->
    backoff_trace config k (EvAttempt k :: EvSleep d :: evs).

(** ** station_mapping.py: the remaining functions *)

(** [sorted(d.keys())]: strings compare by code points, which is the
    order of their UTF-8 bytes. *)
Definition sorted_keys (d : gmap string string) : list string :=
  merge_sort String.le (map fst (map_to_list d)).

Definition get_supported_stations : list string := sorted_keys MAJOR_STATIONS.

Definition is_yamanote_station (station_name : string) : bool :=
  bool_decide (station_name ∈ dom YAMANOTE_STATIONS).

Definition get_yamanote_stations : list string := sorted_keys YAMANOTE_STATIONS.

Arguments get_supported_stations : simpl never.
Arguments get_yamanote_stations : simpl never.

(** [invalid_stations] of [main]:
    [[s for s in stations if s not in supported_stations]]. *)
Definition invalid_stations (stations_ : list string) : list string :=
  List.filter (fun s => negb (bool_decide (s ∈ get_supported_stations))) stations_.

(** ** models.py: layouts *)

(** One step of [layout_distribution]:
    [layout_count[room.layout] = layout_count.get(room.layout, 0) + 1]
    for a room with a non-empty layout. *)
Definition count_layout (layout_count : gmap string Z) (room : RoomInfo)
  : gmap string Z :=
  if str_bool (layout room)
  then <[layout room := default 0 (layout_count !! layout room) + 1]> layout_count
  else layout_count.

(** [ScrapingResult.layout_distribution] *)
Definition layout_distribution (self : ScrapingResult) : gmap string Z :=
  fold_left (fun layout_count prop => fold_left count_layout (rooms prop) layout_count)
            (sr_properties self) ∅.

(** [PropertyInfo.available_layouts]; the order of the list made from the
    set is left open by Python. *)
Definition available_layouts (self : PropertyInfo) : gset string :=
  list_to_set (map layout (List.filter (fun room => str_bool (layout room)) (rooms self))).

(** The number of rooms of a result with the given layout. *)
Definition rooms_with_layout (l : string) (rs : list RoomInfo) : Z :=
  len (List.filter (fun room => String.eqb (layout room) l) rs).

(** All rooms of a result, in the order the loops of
    [layout_distribution] visit them. *)
Definition all_rooms (self : ScrapingResult) : list RoomInfo :=
  concat (map rooms (sr_properties self)).

(** ** models.py and the extractor: notions *)

(** A required text that [validate_title] and [validate_address] let
    through: [v and v.strip() != ""]. *)
Definition nonblank (v : string) : bool := str_bool v && str_bool (strip v).

(** The room the extractor builds for one row of an element when the
    row's link passes [validate_url]. *)
Definition room_of (self : Settings) (element : Element) (row : RoomRow) : RoomInfo :=
  let data := room_data_of self element row in
  {| floor := rd_floor data; rent := rd_rent data; admin_fee := rd_admin_fee data;
     deposit_key_money := rd_deposit_key_money data; layout := rd_layout data;
     area := rd_area data; detail_url := rd_detail_url data |}.

(** The rows of an element; a query for the rows that raises leaves the
    extractor with no room. *)
Definition element_rows (element : Element) : list RoomRow :=
  match el_room_rows element with inr room_rows => room_rows | inl _ => [] end.

(** ** Notions for the traffic of a station *)

(** The events of a step that goes through the gate exactly once: they
    begin with the acquisition of the slot and hold one record. *)
Definition one_request (evs : list Event) : Prop :=
  count_records evs = 1%nat /\ hd_error evs = Some EvAcquire.

(** Nothing happens before the first request. *)
Definition request_first (evs : list Event) : Prop :=
  evs = [] \/ hd_error evs = Some EvAcquire.

(** ** polite_scraper.py: saving the results *)

(** One row of [flattened_data]: [base_info] of the property, updated
    with the texts of the room.  The columns computed from the numeric
    fields of the data model are not represented. *)
Record CsvRow : Type := {
  csv_scraping_mode : string;
  csv_target_stations : string;
  csv_search_station : option string;
  csv_building_title : string;
  csv_address : string;
  csv_access : string;
  csv_building_age_area : string;
  csv_scraped_at : Q;
  csv_floor : string;
  csv_rent : string;
  csv_admin_fee : string;
  csv_deposit_key_money : string;
  csv_layout : string;
  csv_area : string;
  csv_detail_url : option string
}.

(** What is handed to [json.dump] or to [DataFrame.to_csv];
    [JsonTruncated] is the beginning of the dump of the errors, as far
    as it is written before an object that [json] cannot serialise. *)
Inductive FileContent : Type :=
| JsonResult (scraping_result : ScrapingResult)
| JsonProperties (props : list PropertyInfo)
| JsonErrors (errors : list ValidationErrorEntry)
| JsonTruncated (errors : list ValidationErrorEntry)
| CsvRows (rows : list CsvRow).

(** What [json.dump] without [default=] serialises of a recorded
    validation error: [room_data] holds strings and [None];
    [property_data] holds the list of [RoomInfo] objects under
    ['rooms'], which serialises only when it is empty. *)
Definition json_serializable (e : ValidationErrorEntry) : bool :=
  match e with
  | RoomError _ _ => true
  | PropertyError data _ =>
      match pd_rooms data with [] => true | _ :: _ => false end
  end.

(** The calls that touch the clock's calendar and the file system; the
    two file system calls raise or return. *)
Class FileSystem (W : Type) : Type := {
  (** [datetime.now().strftime('%Y%m%d_%H%M%S')] *)
  strftime_now : W -> string * W;
  (** [os.makedirs(path, exist_ok=True)] *)
  os_makedirs : string -> W -> (exn + unit) * W;
  (** [open(path, 'w')] with the dump of the content into it *)
  write_file : string -> FileContent -> W -> (exn + unit) * W
}.

Fixpoint ends_with_slash (s : string) : bool :=
  match s with
  | EmptyString => false
  | String c EmptyString => Ascii.eqb c "/"
  | String _ s' => ends_with_slash s'
  end.

(** [os.path.join(a, b)] of [posixpath]. *)
Definition os_path_join (a b : string) : string :=
  if String.prefix "/" b then b
  else if negb (str_bool a) || ends_with_slash a then a ++ b
  else a ++ "/" ++ b.

(** The local variable [stations_str] of the two saving methods, as the
    branch for a missing file name assigns it. *)
Definition stations_str_of (self : Settings) : string :=
  let stations_str := String.concat "-" (firstn 3 (stations self)) in
  if 3 <? len (stations self)
  then stations_str ++ "-etc" ++ pretty (len (stations self))
  else stations_str.

(** The rows [save_to_csv] appends for one property. *)
Definition property_rows (self : Settings) (prop : PropertyInfo) : list CsvRow :=
  map (fun room =>
         {| csv_scraping_mode := "polite";
            csv_target_stations := String.concat ", " (stations self);
            csv_search_station := station_name prop;
            csv_building_title := title prop;
            csv_address := address prop;
            csv_access := access prop;
            csv_building_age_area := building_age_area prop;
            csv_scraped_at := scraped_at prop;
            csv_floor := floor room;
            csv_rent := rent room;
            csv_admin_fee := admin_fee room;
            csv_deposit_key_money := deposit_key_money room;
            csv_layout := layout room;
            csv_area := area room;
            csv_detail_url := detail_url room |})
      (rooms prop).

(** [flattened_data] of [save_to_csv]. *)
Definition flattened_data (self : Settings) (sc : PoliteSuumoScraper) : list CsvRow :=
  fold_left (fun flattened prop => (flattened ++ property_rows self prop)%list)
            (properties sc) [].

Section SavingModule.
Context {W : Type} `{FileSystem W}.

Definition strftime : M W string :=
  fun w => let '(t, w') := strftime_now w in (Return t, w').

(** [PoliteSuumoScraper.save_to_json].  The local variable
    [stations_str] is bound only on the branch for a missing file name;
    reading it unbound raises [UnboundLocalError], which is returned on
    the left.  The validation errors are dumped without [default=], so
    that an entry [json] cannot serialise raises [TypeError] after the
    file has been opened and the dump begun. *)
Definition save_to_json (self : Settings) (sc : PoliteSuumoScraper)
    (scraping_result : option ScrapingResult) (filename : option string)
  : M W (py_error + string) :=
  named <-
    match filename with
    | None =>
        timestamp <- strftime ;;
        let stations_str := stations_str_of self in
        ret ("suumo_polite_" ++ stations_str ++ "_" ++ timestamp ++ ".json",
             Some stations_str)
    | Some filename => ret (filename, None)
    end ;;
  let '(filename, stations_str) := named in
  external (os_makedirs "data") ;;
  let filepath := os_path_join "data" filename in
  let data_to_save :=
    match scraping_result with
    | Some r => JsonResult r
    | None => JsonProperties (properties sc)
    end in
  external (write_file filepath data_to_save) ;;
  match validation_errors sc with
  | [] => ret (inr filepath)
  | _ :: _ =>
      timestamp <- strftime ;;
      match stations_str with
      | None => ret (inl (UnboundLocalError "stations_str"))
      | Some stations_str =>
          let error_filepath :=
            os_path_join "data"
              ("validation_errors_polite_" ++ stations_str ++ "_" ++ timestamp
                 ++ ".json") in
          if forallb json_serializable (validation_errors sc) then
            external (write_file error_filepath
                        (JsonErrors (validation_errors sc))) ;;
            ret (inr filepath)
          else
            external (write_file error_filepath
                        (JsonTruncated (validation_errors sc))) ;;
            raise (TypeError "Object of type RoomInfo is not JSON serializable")
      end
  end.

(** [PoliteSuumoScraper.save_to_csv] *)
Definition save_to_csv (self : Settings) (sc : PoliteSuumoScraper)
    (filename : option string) : M W string :=
  filename <-
    match filename with
    | None =>
        timestamp <- strftime ;;
        ret ("suumo_polite_" ++ stations_str_of self ++ "_" ++ timestamp ++ ".csv")
    | Some filename => ret filename
    end ;;
  external (os_makedirs "data") ;;
  let filepath := os_path_join "data" filename in
  external (write_file filepath (CsvRows (flattened_data self sc))) ;;
  ret filepath.

(** The saving step of [main], for a result that is not [None]: both
    files are written when the result has properties; an error of
    [save_to_json] passes through [except Exception: ... raise]. *)
Definition main_save (self : Settings) (sc : PoliteSuumoScraper)
    (result : ScrapingResult) (output_json output_csv : option string)
  : M W (py_error + option (string * string)) :=
  match sr_properties result with
  | [] => ret (inr None)
  | _ :: _ =>
      j <- save_to_json self sc (Some result) output_json ;;
      match j with
      | inl e => ret (inl e)
      | inr json_path =>
          csv_path <- save_to_csv self sc output_csv ;;
          ret (inr (Some (json_path, csv_path)))
      end
  end.

End SavingModule.

(** A file system that records what is written, with a fixed calendar
    reading. *)
Record FsWorld : Type := {
  fs_dirs : list string;
  fs_files : list (string * FileContent)
}.

#[export] Instance SimFileSystem : FileSystem FsWorld := {
  strftime_now w := ("20240101_120000", w);
  os_makedirs path w :=
    (inr tt, {| fs_dirs := (fs_dirs w ++ [path])%list; fs_files := fs_files w |});
  write_file path content w :=
    (inr tt, {| fs_dirs := fs_dirs w;
                fs_files := (fs_files w ++ [(path, content)])%list |})
}.

Definition fs_empty : FsWorld := {| fs_dirs := []; fs_files := [] |}.

(** A scraper that has recorded a property without title together with
    its room, as [extract_property_info] records it. *)
Definition scraper_with_property_error : PoliteSuumoScraper :=
  set_validation_errors
    [PropertyError
       {| pd_title := ""; pd_address := "x"; pd_access := "";
          pd_building_age_area := "";
          pd_rooms := [{| floor := "2階"; rent := "8万円"; admin_fee := "5000円";
                         deposit_key_money := "-"; layout := "1K"; area := "25m2";
                         detail_url := None |}] |}
       "PropertyInfo"]
    (fresh_scraper true 1000).

(** A scraper that has recorded one validation error, and a result with
    one property. *)
Definition scraper_with_error : PoliteSuumoScraper :=
  set_validation_errors
    [RoomError {| rd_floor := ""; rd_rent := ""; rd_admin_fee := "";
                  rd_deposit_key_money := ""; rd_layout := ""; rd_area := "";
                  rd_detail_url := Some "javascript:void(0)" |} "detail_url"]
    (fresh_scraper true 1000).

Definition result_one_property : ScrapingResult :=
  {| sr_properties :=
       [{| title := "a"; address := "x"; access := ""; building_age_area := "";
           rooms := [{| floor := "2階"; rent := "8万円"; admin_fee := "5000円";
                        deposit_key_money := "-"; layout := "1K"; area := "25m2";
                        detail_url := None |}];
           scraped_at := 1000; station_name := Some "渋谷" |}];
     total_count := 1; pages_scraped := 1; sr_scraped_at := 1000;
     source_url := "Polite scraping: 渋谷" |}.

(** ** What a static site offers

    The records obtainable from a list of stations on a site that
    serves every page within the retries of a request: the rooms of the
    valid elements on the pages that the pagination links lead to, up to
    the cap of ten pages per station. *)

(** The page a site serves at a URL. *)
Fixpoint site_page (url : string) (site : list (string * (nat * Page)))
  : option Page :=
  match site with
  | [] => None
  | (u, (_, page)) :: rest =>
      if String.eqb u url then Some page else site_page url rest
  end.

(** The rooms of an element: its rows, when title and address are not
    blank. *)
Definition element_offer (element : Element) : Z :=
  if nonblank (el_title element) && nonblank (el_address element)
  then len (element_rows element) else 0.

Definition elements_offer (elements : list Element) : Z :=
  fold_right (fun element acc => element_offer element + acc) 0 elements.

Definition page_offer (page : Page) : Z :=
  match pg_elements page with
  | inr elements => elements_offer elements
  | inl _ => 0
  end.

(** The URL the pagination link of a page leads to. *)
Definition page_next_url (self : Settings) (page : Page) : option string :=
  match pg_next page with
  | Some h =>
      if str_bool h && str_bool (strip h) then Some (base_url self ++ h) else None
  | None => None
  end.

(** The rooms on the first [pages] pages from [url] on. *)
Fixpoint station_offer (self : Settings) (site : list (string * (nat * Page)))
    (pages : nat) (url : option string) : Z :=
  match pages, url with
  | S pages', Some u =>
      match site_page u site with
      | Some page =>
          page_offer page + station_offer self site pages' (page_next_url self page)
      | None => 0
      end
  | _, _ => 0
  end.

Definition station_total (self : Settings) (site : list (string * (nat * Page)))
    (station : string) : Z :=
  match get_station_url station (prefecture self) with
  | Return url => station_offer self site 10 (Some url)
  | _ => 0
  end.

(** The rooms obtainable from the stations of the list, in total. *)
Definition obtainable (self : Settings) (site : list (string * (nat * Page)))
    (todo : list string) : Z :=
  fold_right (fun station acc => station_total self site station + acc) 0 todo.

Definition is_some {A : Type} (o : option A) : bool :=
  match o with Some _ => true | None => false end.

(** A site that serves: no page is an error document, and every
    pagination link leads to a page of the site. *)
Definition site_serves (self : Settings) (site : list (string * (nat * Page)))
  : bool :=
  forallb (fun entry =>
             let '(_, (_, page)) := entry in
             (pg_status page <? 400)
             && match page_next_url self page with
                | Some u => is_some (site_page u site)
                | None => true
                end)
          site.

(** Every station of the list that the table knows has its first page
    on the site. *)
Definition stations_served (self : Settings) (site : list (string * (nat * Page)))
    (todo : list string) : bool :=
  forallb (fun station =>
             match get_station_url station (prefecture self) with
             | Return url => is_some (site_page url site)
             | _ => true
             end)
          todo.

(** A scraper that can make requests: a free slot, a retry count that
    lets the operation run, and a user agent to choose. *)
Definition ready (sc : PoliteSuumoScraper) : Prop :=
  (0 < slots sc /\
   user_agents (user_agent_rotator (request_manager sc)) <> []) /\
  0 <= max_retries (rm_config (retry_manager (request_manager sc))).

(** The failed fetches a request survives: the retries of the
    configuration, as long as the power of two of the backoff converts
    to a float. *)
Definition budget (sc : PoliteSuumoScraper) : Z :=
  Z.min (max_retries (rm_config (retry_manager (request_manager sc)))) 1024.

(** The URLs and documents of a site, without the counts of fetches
    that are still to fail. *)
Definition site_pages (site : list (string * (nat * Page)))
  : list (string * Page) :=
  map (fun entry => (fst entry, snd (snd entry))) site.

(** The fetches of a URL that are still to fail. *)
Fixpoint failures_of (url : string) (site : list (string * (nat * Page))) : nat :=
  match site with
  | [] => 0%nat
  | (u, (failures, _)) :: rest =>
      if String.eqb u url then failures else failures_of url rest
  end.

Definition within_budget (b : Z) (site : list (string * (nat * Page))) : bool :=
  forallb (fun entry => Z.of_nat (fst (snd entry)) <=? b) site.

(** The state of a session on a site: the world holds the documents of
    the site, and no URL fails more often than the retries allow. *)
Definition on_site (site : list (string * (nat * Page)))
    (s : PoliteSuumoScraper * @Env SimWorld) : Prop :=
  ready (fst s) /\
  site_pages (sim_site (world (snd s))) = site_pages site /\
  within_budget (budget (fst s)) (sim_site (world (snd s))) = true.

(** A step that leaves the accepted properties, the request manager,
    the site and the loaded document as they are. *)
Definition still (s s' : PoliteSuumoScraper * @Env SimWorld) : Prop :=
  properties (fst s') = properties (fst s) /\
  request_manager (fst s') = request_manager (fst s) /\
  sim_site (world (snd s')) = sim_site (world (snd s)) /\
  sim_loaded (world (snd s')) = sim_loaded (world (snd s)).

(** The site of two stations with fetches that fail before they
    succeed: the first page of 渋谷 twice, its second page once. *)
Definition site_retried : list (string * (nat * Page)) :=
  [ (url_shibuya,
     (2%nat, sim_page [sim_element "a1" "x" 3] (Some "/chintai/tokyo/ek_17640/?page=2")));
    (url_shibuya_2, (1%nat, sim_page [sim_element "a2" "x" 3] None));
    (url_shinjuku, (0%nat, sim_page [sim_element "b1" "x" 3] None)) ].

(** A URL the station loop goes on with: absent, or not empty and on
    the site. *)
Definition url_served (site : list (string * (nat * Page)))
    (url : option string) : Prop :=
  match url with
  | Some u => str_bool u = true /\ exists page, site_page u site = Some page
  | None => True
  end.

(** * Properties *)

Unset Implicit Arguments.

(** ** Pacing *)

Section PacingFacts.
Context {W : Type} `{RuntimeLaws W}.

Lemma required_delay_for_spec (config : RateLimitConfig) (request_type : string)
    (env : @Env W) :
  (min_delay config <= max_delay config)%Q ->
  exists d env',
    required_delay_for config request_type env = (Return d, env') /\
    history env' = history env /\
    (class_delay config request_type <= d)%Q /\
    (time_time (world env) <= time_time (world env'))%Q.
Proof.
  intros Hmm. unfold required_delay_for, class_delay.
  destruct (String.eqb request_type "page").
  { exists (page_delay config), env. repeat split; auto; lra. }
  destruct (String.eqb request_type "station").
  { exists (station_delay config), env. repeat split; auto; lra. }
  unfold random_uniform, in_world.
  pose proof (random_unit (world env)) as Hu.
  pose proof (random_keeps_time (world env)) as Ht.
  destruct (random_random (world env)) as [u w'] eqn:Hr. simpl in *.
  eexists _, _. split; [reflexivity|]. simpl. repeat split; auto.
  nra.
Qed.

(** C8.  In one flow of control, with a clock that obeys [RuntimeLaws]
    and a configuration with [min_delay <= max_delay], [wait_for_request]
    returns, and it returns no earlier than the delay of the request type
    ([page_delay], [station_delay], and at least [min_delay] for every
    other type) after [last_request_time], the time at which the previous
    call returned; it stores the time of its own return there. *)
Theorem wait_for_request_min_delay (request_type : string) (rl : RateLimiter)
    (env : @Env W) :
  (min_delay (rl_config rl) <= max_delay (rl_config rl))%Q ->
  0 < _semaphore rl ->
  exists rl' env',
    wait_for_request request_type (rl, env) = (Return tt, (rl', env')) /\
    last_request_time rl' = time_time (world env') /\
    (last_request_time rl + class_delay (rl_config rl) request_type
       <= time_time (world env'))%Q /\
    _semaphore rl' = _semaphore rl /\
    rl_config rl' = rl_config rl.
Proof.
  intros Hmm Hsem.
  unfold wait_for_request, async_with_semaphore, semaphore_acquire, semaphore_release.
  unfold try_finally, bind, get_self, put_self, in_env, emit, time, ret. simpl.
  apply Z.ltb_lt in Hsem. rewrite Hsem. simpl.
  destruct (required_delay_for_spec (rl_config rl) request_type
              {| world := world env; history := (history env ++ [EvAcquire])%list |} Hmm)
    as (d & env1 & Hd & Hh & Hcl & Ht).
  rewrite Hd. simpl in *.
  destruct (Qltb (time_time (world env) - last_request_time rl) d) eqn:Hlt; simpl.
  - unfold sleep. simpl. eexists _, _. split; [reflexivity|]. simpl.
    repeat split; auto; try lia.
    pose proof (sleep_elapses (d - (time_time (world env) - last_request_time rl)) (world env1)).
    lra.
  - eexists _, _. split; [reflexivity|]. simpl.
    repeat split; auto; try lia.
    apply Qltb_ge in Hlt. lra.
Qed.
End PacingFacts.

Lemma float_of_int_cases (n : Z) :
  (exists msg, float_of_int n = inl (OverflowError msg)) \/
  float_of_int n = inr (inject_Z n).
Proof.
  unfold float_of_int. destruct (2 ^ 1024 - 2 ^ 970 <=? Z.abs n); eauto.
Qed.

Lemma float_of_int_pow2_small (k : Z) :
  0 <= k < 1024 -> float_of_int (2 ^ k) = inr (inject_Z (2 ^ k)).
Proof.
  intros Hk. unfold float_of_int.
  assert (Hp : 2 ^ k <= 2 ^ 1023) by (apply Z.pow_le_mono_r; lia).
  assert (Hpos : 0 < 2 ^ k) by (apply Z.pow_pos_nonneg; lia).
  assert (Hlt : 2 ^ 1023 < 2 ^ 1024 - 2 ^ 970) by reflexivity.
  replace (2 ^ 1024 - 2 ^ 970 <=? Z.abs (2 ^ k)) with false; [reflexivity|].
  symmetry. apply Z.leb_gt. rewrite Z.abs_eq by lia. lia.
Qed.

Lemma float_of_int_pow2_big (k : Z) :
  1024 <= k ->
  float_of_int (2 ^ k) = inl (OverflowError "int too large to convert to float").
Proof.
  intros Hk. unfold float_of_int.
  assert (Hp : 2 ^ 1024 <= 2 ^ k) by (apply Z.pow_le_mono_r; lia).
  assert (Hpos : 0 < 2 ^ 970) by reflexivity.
  replace (2 ^ 1024 - 2 ^ 970 <=? Z.abs (2 ^ k)) with true; [reflexivity|].
  symmetry. apply Z.leb_le. rewrite Z.abs_eq by lia. lia.
Qed.

Section GateFacts.
Context {W : Type} `{Runtime W}.

Lemma required_delay_for_returns (config : RateLimitConfig) (request_type : string)
    (env : @Env W) :
  exists d w',
    required_delay_for config request_type env
    = (Return d, {| world := w'; history := history env |}).
Proof.
  unfold required_delay_for.
  destruct (String.eqb request_type "page").
  { exists (page_delay config), (world env). destruct env; reflexivity. }
  destruct (String.eqb request_type "station").
  { exists (station_delay config), (world env). destruct env; reflexivity. }
  unfold random_uniform, in_world.
  destruct (random_random (world env)) as [u w']. eexists _, _. reflexivity.
Qed.

Lemma wait_for_request_history (request_type : string) (rl : RateLimiter)
    (env : @Env W) :
  0 < _semaphore rl ->
  exists rl' env' paces,
    wait_for_request request_type (rl, env) = (Return tt, (rl', env')) /\
    history env' = (history env ++ EvAcquire :: paces ++ [EvRelease])%list /\
    forallb is_sleep paces = true /\ (length paces <= 1)%nat /\
    _semaphore rl' = _semaphore rl /\ rl_config rl' = rl_config rl.
Proof.
  intros Hsem.
  unfold wait_for_request, async_with_semaphore, semaphore_acquire, semaphore_release.
  unfold try_finally, bind, get_self, put_self, in_env, emit, time, ret. simpl.
  apply Z.ltb_lt in Hsem. rewrite Hsem. simpl.
  destruct (required_delay_for_returns (rl_config rl) request_type
              {| world := world env; history := (history env ++ [EvAcquire])%list |})
    as (d & w1 & Hd).
  rewrite Hd. simpl.
  destruct (Qltb (time_time (world env) - last_request_time rl) d); simpl.
  - unfold sleep. simpl.
    eexists _, _, [EvSleep _]. split; [reflexivity|]. simpl.
    rewrite <- !app_assoc. simpl. repeat split; auto; lia.
  - eexists _, _, []. split; [reflexivity|]. simpl.
    rewrite <- !app_assoc. simpl. repeat split; auto; lia.
Qed.

Lemma retry_loop_history {A : Type} (self : RetryManager) (func : M W A)
    (attempts : list Z) :
  forall (last_exception : option exn) (env : @Env W),
  exists evs,
    history (snd (retry_loop self func attempts last_exception env))
    = (history env ++ evs)%list /\
    forallb is_retry_event evs = true /\
    (count_attempts evs <= length attempts)%nat.
Proof.
  induction attempts as [|a rest IH]; intros last env; simpl.
  - exists []. rewrite app_nil_r.
    destruct last; simpl; repeat split; auto.
  - unfold bind at 1. unfold attempt, bind, emit, in_world. simpl.
    destruct (func (world env)) as [[v|e|] w1] eqn:Hf; simpl.
    + exists [EvAttempt a]. repeat split; auto. cbn. lia.
    + destruct (a =? max_retries (rm_config self)); simpl.
      * exists [EvAttempt a]. repeat split; auto. cbn. lia.
      * destruct (float_of_int_cases (2 ^ a)) as [[msg ->]| ->]; simpl.
        { exists [EvAttempt a]. repeat split; auto. cbn. lia. }
        unfold random_uniform, in_world, sleep. simpl.
        destruct (random_random w1) as [u w2]. simpl.
        match goal with |- context [retry_loop self func rest ?l ?e] =>
          destruct (IH l e) as (evs & Hh & Hev & Hc) end.
        rewrite Hh. simpl.
        eexists (EvAttempt a :: EvSleep _ :: evs).
        rewrite <- !app_assoc. simpl. repeat split; auto.
        unfold count_attempts in *. simpl. lia.
    + exists [EvAttempt a]. repeat split; auto. cbn. lia.
Qed.

Lemma record_request_spec (success : bool) (rt : option Q) (mo : RequestMonitor)
    (env : @Env W) :
  record_request success rt (mo, env)
  = (Return tt,
     ({| start_time := start_time mo;
         request_times :=
           List.filter (fun t => Qltb (time_time (world env) - 3600) t)
                  (request_times mo ++ [time_time (world env)])%list;
         error_count := if success then error_count mo else error_count mo + 1;
         success_count := if success then success_count mo + 1 else success_count mo |},
      {| world := world env; history := (history env ++ [EvRecord success])%list |})).
Proof. reflexivity. Qed.

(** The shape of one call of the gate. *)
Lemma make_request_shape {A : Type} (func : M W A) (request_type : string)
    (pm : PoliteRequestManager) (env : @Env W) :
  0 < _semaphore (rate_limiter pm) ->
  exists r pm' env' paces retries,
    make_request func request_type (pm, env) = (r, (pm', env')) /\
    forallb is_sleep paces = true /\ (length paces <= 1)%nat /\
    forallb is_retry_event retries = true /\
    (count_attempts retries <= Z.to_nat (max_retries (rm_config (retry_manager pm)) + 1))%nat /\
    _semaphore (rate_limiter pm') = _semaphore (rate_limiter pm) /\
    retry_manager pm' = retry_manager pm /\
    user_agent_rotator pm' = user_agent_rotator pm /\
    match r with
    | Blocked =>
        history env' = (history env ++ EvAcquire :: paces ++ EvRelease :: retries)%list /\
        monitor pm' = monitor pm
    | _ =>
        let success := match r with Return _ => true | _ => false end in
        history env'
        = (history env ++ EvAcquire :: paces ++ EvRelease :: retries
             ++ [EvRecord success])%list /\
        monitor pm'
        = {| start_time := start_time (monitor pm);
             request_times :=
               List.filter (fun t => Qltb (time_time (world env') - 3600) t)
                      (request_times (monitor pm) ++ [time_time (world env')])%list;
             error_count := if success then error_count (monitor pm)
                            else error_count (monitor pm) + 1;
             success_count := if success then success_count (monitor pm) + 1
                              else success_count (monitor pm) |}
    end.
Proof.
  intros Hsem.
  destruct (wait_for_request_history request_type (rate_limiter pm) env Hsem)
    as (rl' & env1 & paces & Hw & Hh1 & Hp & Hpl & Hs & Hc).
  unfold make_request.
  unfold bind at 1. unfold on_attr at 1. simpl. rewrite Hw. simpl.
  unfold bind at 1. unfold in_env at 1, time at 1. simpl.
  unfold try_except.
  unfold bind at 1. unfold get_self at 1. simpl.
  unfold bind at 1. unfold in_env at 1. simpl.
  unfold execute_with_retry.
  destruct (retry_loop_history (retry_manager pm) func
              (range (max_retries (rm_config (retry_manager pm)) + 1)) None env1)
    as (retries & Hh2 & Hr & Hcnt).
  destruct (retry_loop (retry_manager pm) func
              (range (max_retries (rm_config (retry_manager pm)) + 1)) None env1)
    as [r env2] eqn:Hrun.
  simpl in Hh2.
  assert (Hlen : length (range (max_retries (rm_config (retry_manager pm)) + 1))
                 = Z.to_nat (max_retries (rm_config (retry_manager pm)) + 1)).
  { unfold range. rewrite length_map, length_seq. reflexivity. }
  rewrite Hlen in Hcnt.
  destruct r as [v|e|]; simpl.
  - unfold bind, in_env, time, on_attr, ret. simpl.
    eexists (Return v), _, _, paces, retries.
    split; [reflexivity|]. simpl.
    repeat split; auto.
    rewrite Hh2, Hh1. rewrite <- !app_assoc. simpl. rewrite <- !app_assoc. reflexivity.
  - unfold bind, in_env, time, on_attr, raise. simpl.
    eexists (Raise e), _, _, paces, retries.
    split; [reflexivity|]. simpl.
    repeat split; auto.
    rewrite Hh2, Hh1. rewrite <- !app_assoc. simpl. rewrite <- !app_assoc. reflexivity.
  - eexists Blocked, _, _, paces, retries.
    split; [reflexivity|]. simpl.
    repeat split; auto.
    rewrite Hh2, Hh1. rewrite <- !app_assoc. simpl. rewrite <- !app_assoc. reflexivity.
Qed.

End GateFacts.

Section RetryFacts.
Context {W : Type} `{Runtime W} {A : Type}.
Variables (self : RetryManager) (func : M W A).
Variables (calls : W -> nat) (script : nat -> exn + A).
Hypothesis func_scripted :
  forall w, fst (func w) = of_sum (script (calls w)) /\
            calls (snd (func w)) = S (calls w).
Hypothesis sleep_keeps_calls : forall d w, calls (asyncio_sleep d w) = calls w.
Hypothesis random_keeps_calls : forall w, calls (snd (random_random w)) = calls w.


(** With more than 1024 retries allowed, a run of failures ends at
    attempt number 1024: the power of two for the back-off no longer
    converts to a float. *)
Lemma retry_loop_overflow (n : nat) :
  max_retries (rm_config self) = Z.of_nat n ->
  (1025 <= n)%nat ->
  (forall k, (k < 1025)%nat -> exists e, script k = inl e) ->
  forall (m k : nat) (last_exception : option exn) (env : @Env W),
    (k + m = n + 1)%nat -> (k <= 1024)%nat -> calls (world env) = k ->
    exists env' evs,
      retry_loop self func (map Z.of_nat (seq k m)) last_exception env
      = (Raise (OverflowError "int too large to convert to float"), env') /\
      calls (world env') = 1025%nat /\
      history env' = (history env ++ evs)%list /\
      count_attempts evs = (1025 - k)%nat.
Proof.
  intros Hmax Hbig Hfail.
  induction m as [|m IH]; intros k last env Hkm Hk Hc; [lia|].
  simpl seq. simpl map. simpl retry_loop.
  unfold bind at 1. unfold attempt, bind, emit, in_world. simpl.
  destruct (func_scripted (world env)) as [Hout Hcalls].
  destruct (func (world env)) as [r w1]. simpl in Hout, Hcalls. subst r.
  rewrite Hc in *.
  destruct (Hfail k ltac:(lia)) as [e He]. rewrite He. simpl.
  assert ((Z.of_nat k =? max_retries (rm_config self)) = false) as ->.
  { apply Z.eqb_neq. lia. }
  destruct (Nat.eq_dec k 1024%nat) as [->|Hne].
  - rewrite float_of_int_pow2_big by lia. unfold raise.
    eexists _, [EvAttempt _]. unfold count_attempts. simpl.
    repeat split; simpl; auto.
  - rewrite float_of_int_pow2_small by lia.
    unfold random_uniform, in_world. simpl.
    destruct (random_random w1) as [u w2] eqn:Hr. simpl.
    match goal with |- context [retry_loop self func _ ?l ?e] =>
      destruct (IH (S k) l e) as (env' & evs & Hrun & Hcl & Hh & Hcnt) end.
    + lia.
    + lia.
    + simpl. rewrite sleep_keeps_calls.
      pose proof (random_keeps_calls w1) as Hk'. rewrite Hr in Hk'. simpl in Hk'. lia.
    + rewrite Hrun. eexists env', (EvAttempt _ :: EvSleep _ :: evs).
      split; [reflexivity|]. split; [exact Hcl|]. split.
      * rewrite Hh. simpl. rewrite <- !app_assoc. reflexivity.
      * unfold count_attempts in *. simpl. lia.
Qed.

End RetryFacts.

Section RetryTheorem.
Context {W : Type} `{Runtime W}.


(** C4 fails on the code for [max_retries = 1025]: an operation that
    fails 1025 times and would succeed on its next call is attempted
    1025 times only; the executor raises the [OverflowError] of
    [retry_delay * (2 ** 1024)] where the claim promises the success
    value after 1026 attempts. *)
Theorem execute_with_retry_overflow_at_1025 :
  let self :=
    {| rm_config :=
         {| min_delay := 3; max_delay := 8; page_delay := 5; station_delay := 10;
            max_retries := 1025; retry_delay := 0; concurrent_limit := 1 |} |} in
  let env := {| world := {| sw_clock := 0; sw_calls := 0 |}; history := [] |} in
  let run := execute_with_retry self (scripted (fails_then 1025 "ok")) env in
  fails_then 1025 "ok" 1025%nat = inr "ok" /\
  fst run = Raise (OverflowError "int too large to convert to float") /\
  fst run <> Return "ok" /\
  sw_calls (world (snd run)) = 1025%nat /\
  count_attempts (history (snd run)) = 1025%nat.
Proof.
  intros self env run.
  assert (Hn : max_retries (rm_config self) = Z.of_nat 1025%nat) by reflexivity.
  assert (Hfail : forall k, (k < 1025)%nat ->
                    exists e, fails_then 1025 "ok" k = inl e).
  { intros k Hk. exists (Exception "temporary failure"). unfold fails_then.
    apply Nat.ltb_lt in Hk. rewrite Hk. reflexivity. }
  assert (Hs : forall w : ScriptWorld,
             fst (scripted (fails_then 1025 "ok") w)
             = of_sum (fails_then 1025 "ok" (sw_calls w)) /\
             sw_calls (snd (scripted (fails_then 1025 "ok") w)) = S (sw_calls w))
    by (intros w; split; reflexivity).
  assert (Hsl : forall d (w : ScriptWorld), sw_calls (asyncio_sleep d w) = sw_calls w)
    by (intros d w; reflexivity).
  assert (Hr : forall w : ScriptWorld, sw_calls (snd (random_random w)) = sw_calls w)
    by (intros w; reflexivity).
  destruct (retry_loop_overflow self (scripted (fails_then 1025 "ok")) sw_calls
              (fails_then 1025 "ok") Hs Hsl Hr
              1025%nat Hn (Nat.le_refl 1025%nat) Hfail 1026%nat 0%nat None env eq_refl
              (Nat.le_0_l 1024%nat) eq_refl)
    as (env' & evs & Hrun & Hcl & Hh & Hcnt).
  assert (Heq : run = (Raise (OverflowError "int too large to convert to float"), env')).
  { subst run. unfold execute_with_retry.
    replace (range (max_retries (rm_config self) + 1))
      with (map Z.of_nat (seq 0 1026%nat)) by reflexivity.
    exact Hrun. }
  rewrite Heq. cbn [fst snd].
  split; [reflexivity|]. split; [reflexivity|]. split; [discriminate|].
  split; [exact Hcl|]. rewrite Hh. exact Hcnt.
Qed.

End RetryTheorem.





(** C7 as stated fails: a request that needed two attempts leaves one
    record in the monitor. *)
Lemma make_request_one_record_for_two_attempts :
  let run := gate_run 1 in
  count_attempts (history (snd (snd run))) = 2%nat /\
  count_records (history (snd (snd run))) = 1%nat /\
  length (request_times (monitor (fst (snd run)))) = 1%nat /\
  success_count (monitor (fst (snd run))) + error_count (monitor (fst (snd run))) = 1.
Proof. vm_compute. repeat split; reflexivity. Qed.

(** C7, as the code has it.  A call of [make_request] that finishes
    records its outcome exactly once, however many attempts the retry
    executor made: one of the two counters grows by one, the time of the
    recording is appended to [request_times], and the list is pruned to
    the entries newer than that time minus 3600 seconds; entries that stay
    are kept unchanged and in order. *)
Theorem make_request_records_once {W : Type} `{Runtime W} {A : Type} (func : M W A)
    (request_type : string) (pm : PoliteRequestManager) (env : @Env W) :
  0 < _semaphore (rate_limiter pm) ->
  let run := make_request func request_type (pm, env) in
  fst run <> Blocked ->
  let before := monitor pm in
  let after := monitor (fst (snd run)) in
  let now := time_time (world (snd (snd run))) in
  (exists evs,
      history (snd (snd run)) = (history env ++ evs)%list /\
      count_records evs = 1%nat /\
      (count_attempts evs <= Z.to_nat (max_retries (rm_config (retry_manager pm)) + 1))%nat) /\
  success_count after + error_count after
  = success_count before + error_count before + 1 /\
  request_times after
  = List.filter (fun t => Qltb (now - 3600) t) (request_times before ++ [now])%list /\
  Forall (fun t => (now - 3600 < t)%Q) (request_times after).
Proof.
  intros Hsem run Hnb before after now.
  destruct (make_request_shape func request_type pm env Hsem)
    as (r & pm' & env' & paces & retries & Hrun & Hp & _ & Hr & Hc & _ & _ & _ & Hm).
  subst run before after now. rewrite Hrun in *. simpl in *.
  assert (Hcount : forall l, forallb is_sleep l = true -> count_records l = 0%nat
                             /\ count_attempts l = 0%nat).
  { induction l as [|x l IHl]; simpl; intros Hl; [split; reflexivity|].
    apply andb_prop in Hl. destruct Hl as [Hx Hl]. destruct (IHl Hl) as [IH1 IH2].
    destruct x; try discriminate. unfold count_records, count_attempts in *.
    simpl. auto. }
  assert (Hcount' : forall l, forallb is_retry_event l = true -> count_records l = 0%nat).
  { induction l as [|x l IHl]; simpl; intros Hl; [reflexivity|].
    apply andb_prop in Hl. destruct Hl as [Hx Hl]. specialize (IHl Hl).
    destruct x; try discriminate; unfold count_records in *; simpl; auto. }
  assert (Happ : forall f (l1 l2 : list Event),
             length (List.filter f (l1 ++ l2)) 
             = (length (List.filter f l1) + length (List.filter f l2))%nat).
  { intros f l1 l2. rewrite List.filter_app, length_app. reflexivity. }
  destruct r as [v|e|]; [| |congruence]; destruct Hm as [Hh Hmon].
  all: rewrite Hmon; simpl; split; [|split; [lia|split; [reflexivity|]]].
  all: try (apply List.Forall_forall; intros t Ht; apply List.filter_In in Ht;
            destruct Ht as [_ Ht]; apply Qltb_lt in Ht; exact Ht).
  all: eexists; split; [exact Hh|].
  all: destruct (Hcount paces Hp) as [Hp1 Hp2]; pose proof (Hcount' retries Hr) as Hr1.
  all: unfold count_records, count_attempts in *.
  all: change (EvAcquire :: paces ++ EvRelease :: retries ++ [EvRecord ?b])%list
         with ([EvAcquire] ++ paces ++ [EvRelease] ++ retries ++ [EvRecord b])%list.
  all: rewrite !Happ; simpl; rewrite ?Hp1, ?Hp2, ?Hr1; simpl; lia.
Qed.

(** ** Station table *)

(** C9.  [get_station_url] raises [ValueError] exactly for the names
    outside the station table; for a name of the table it returns the
    start URL made of the region and the station's code, and it has no
    other outcome. *)
Theorem get_station_url_unknown_iff (station_name prefecture : string) :
  ((exists msg, get_station_url station_name prefecture = Raise (ValueError msg))
   <-> station_name ∉ dom MAJOR_STATIONS) /\
  ((exists code,
       MAJOR_STATIONS !! station_name = Some code /\
       get_station_url station_name prefecture
       = Return ("https://suumo.jp/chintai/" ++ prefecture ++ "/" ++ code ++ "/"))
   <-> station_name ∈ dom MAJOR_STATIONS).
Proof.
  unfold get_station_url, dict_getitem.
  destruct (bool_decide (station_name ∈ dom MAJOR_STATIONS)) eqn:Hin; cbn [negb].
  - apply bool_decide_eq_true in Hin.
    pose proof Hin as Hsome. apply elem_of_dom in Hsome. destruct Hsome as [code Hcode].
    rewrite Hcode. split; split.
    + intros [msg Hmsg]. discriminate.
    + intros Hnot. contradiction.
    + intros _. exact Hin.
    + intros _. exists code. split; reflexivity.
  - apply bool_decide_eq_false in Hin. split; split.
    + intros _. exact Hin.
    + intros _. eexists. reflexivity.
    + intros (code & Hcode & _). apply elem_of_dom. exists code. exact Hcode.
    + intros Hyes. contradiction.
Qed.

(** ** Room accounting *)

Lemma sum_rooms_cons (p : PropertyInfo) (a : list PropertyInfo) :
  sum_rooms (p :: a) = len (rooms p) + sum_rooms a.
Proof. reflexivity. Qed.

Lemma sum_rooms_app (a b : list PropertyInfo) :
  sum_rooms (a ++ b) = sum_rooms a + sum_rooms b.
Proof.
  induction a as [|p a IH]; simpl; [reflexivity|]. rewrite IH. lia.
Qed.

Lemma sum_rooms_nonneg (a : list PropertyInfo) : 0 <= sum_rooms a.
Proof.
  induction a as [|p a IH]; simpl; [lia|]. unfold len. lia.
Qed.

Lemma sum_rooms_flat (a : list PropertyInfo) :
  sum_rooms a = len (concat (map rooms a)).
Proof.
  induction a as [|p a IH]; simpl; [reflexivity|].
  rewrite IH. unfold len. rewrite length_app. lia.
Qed.

Lemma sum_rooms_set_station_name (n : option string) (a : list PropertyInfo) :
  sum_rooms (map (set_station_name n) a) = sum_rooms a.
Proof.
  induction a as [|p a IH]; simpl; [reflexivity|]. rewrite IH. reflexivity.
Qed.

Lemma truncation_cons (p : PropertyInfo) (props out : list PropertyInfo) :
  truncation props out -> truncation (p :: props) (p :: out).
Proof.
  intros [kept dropped ->|kept q dropped k -> Hk].
  - apply truncation_whole with (dropped := dropped). reflexivity.
  - change (p :: kept ++ [set_rooms (firstn k (rooms q)) q])%list
      with ((p :: kept) ++ [set_rooms (firstn k (rooms q)) q])%list.
    apply truncation_cut with (dropped := dropped); [reflexivity|exact Hk].
Qed.

Lemma limit_loop_spec (max_rooms : Z) (props : list PropertyInfo) :
  forall (limited : list PropertyInfo) (room_count : Z),
    room_count <= max_rooms ->
    exists tail,
      limit_loop props max_rooms limited room_count = (limited ++ tail)%list /\
      sum_rooms tail = Z.min (max_rooms - room_count) (sum_rooms props) /\
      concat (map rooms tail)
      = firstn (Z.to_nat (max_rooms - room_count)) (concat (map rooms props)) /\
      truncation props tail.
Proof.
  induction props as [|p rest IH]; intros limited rc Hrc; cbn [limit_loop].
  - exists []. rewrite app_nil_r. repeat split.
    + simpl. lia.
    + simpl. rewrite firstn_nil. reflexivity.
    + apply truncation_whole with (dropped := []). reflexivity.
  - destruct (rc + len (rooms p) <=? max_rooms) eqn:Hfit.
    + apply Z.leb_le in Hfit.
      destruct (IH (limited ++ [p])%list (rc + len (rooms p)) Hfit)
        as (tail & Hrun & Hsum & Hflat & Htr).
      exists (p :: tail). rewrite Hrun, <- app_assoc. simpl. repeat split.
      * rewrite ?sum_rooms_cons, Hsum. pose proof (sum_rooms_nonneg rest). lia.
      * cbn [map concat]. rewrite Hflat. rewrite firstn_app.
        assert (Hall : (length (rooms p) <= Z.to_nat (max_rooms - rc))%nat)
          by (unfold len in Hfit; lia).
        rewrite (@firstn_all2 _ _ (rooms p) Hall).
        f_equal. f_equal. unfold len in *. lia.
      * apply truncation_cons. exact Htr.
    + apply Z.leb_gt in Hfit.
      destruct (0 <? max_rooms - rc) eqn:Hneed.
      * apply Z.ltb_lt in Hneed.
        exists [set_rooms (firstn (Z.to_nat (max_rooms - rc)) (rooms p)) p].
        repeat split.
        -- rewrite ?sum_rooms_cons. simpl. unfold len. rewrite length_firstn.
           pose proof (sum_rooms_nonneg rest). unfold len in *. lia.
        -- cbn [map concat set_rooms rooms]. rewrite app_nil_r. rewrite firstn_app.
           replace (Z.to_nat (max_rooms - rc) - length (rooms p))%nat with 0%nat
             by (unfold len in *; lia).
           simpl. rewrite app_nil_r. reflexivity.
        -- apply truncation_cut with (kept := []) (dropped := rest); [reflexivity|].
           unfold len in *. lia.
      * apply Z.ltb_ge in Hneed.
        exists []. rewrite app_nil_r. repeat split.
        -- rewrite ?sum_rooms_cons. simpl.
           pose proof (sum_rooms_nonneg rest). unfold len in *. lia.
        -- simpl. replace (Z.to_nat (max_rooms - rc)) with 0%nat by lia. reflexivity.
        -- apply truncation_whole with (dropped := p :: rest). reflexivity.
Qed.

Lemma _limit_properties_spec (props : list PropertyInfo) (max_rooms : Z) :
  0 <= max_rooms ->
  sum_rooms (_limit_properties props max_rooms) = Z.min max_rooms (sum_rooms props) /\
  concat (map rooms (_limit_properties props max_rooms))
  = firstn (Z.to_nat max_rooms) (concat (map rooms props)) /\
  truncation props (_limit_properties props max_rooms).
Proof.
  intros Hm. unfold _limit_properties.
  destruct (limit_loop_spec max_rooms props [] 0 Hm) as (tail & Hrun & Hsum & Hflat & Htr).
  rewrite Hrun. simpl. rewrite Z.sub_0_r in *. auto.
Qed.

(** ** The session *)

Lemma fetched_app (a b : list Event) : fetched (a ++ b) = fetched a || fetched b.
Proof. unfold fetched. apply existsb_app. Qed.

Lemma steps_refl {W : Type} (s : PoliteSuumoScraper * @Env W) : steps s s [].
Proof. unfold steps. rewrite app_nil_r. auto. Qed.

Lemma steps_trans {W : Type} (s1 s2 s3 : PoliteSuumoScraper * @Env W)
    (e1 e2 : list Event) :
  steps s1 s2 e1 -> steps s2 s3 e2 -> steps s1 s3 (e1 ++ e2).
Proof.
  intros (Hp1 & Hs1 & Hh1) (Hp2 & Hs2 & Hh2). unfold steps.
  rewrite Hp2, Hp1, Hs2, Hs1, Hh2, Hh1, app_assoc. auto.
Qed.

Section SessionFacts.
Context {W : Type} `{Runtime W} `{Browser W}.

Local Abbreviation St := (PoliteSuumoScraper * @Env W)%type.

Lemma sleep_uniform_spec (a b : Q) (s : St) :
  exists env' d,
    in_env (sleep_uniform a b) s = (Return tt, (fst s, env')) /\
    history env' = (history (snd s) ++ [EvSleep d])%list.
Proof.
  unfold in_env, sleep_uniform, bind, random_uniform, in_world, sleep.
  destruct s as [sc env]. simpl.
  destruct (random_random (world env)) as [u w']. simpl.
  eexists _, _. split; reflexivity.
Qed.

Lemma sleep_uniform_steps (a b : Q) (s : St) :
  exists s' evs,
    in_env (sleep_uniform a b) s = (Return tt, s') /\
    steps s s' evs /\ fetched evs = false.
Proof.
  destruct (sleep_uniform_spec a b s) as (env' & d & Hrun & Hh).
  exists (fst s, env'), [EvSleep d]. split; [exact Hrun|].
  split; [|reflexivity]. unfold steps. simpl. auto.
Qed.

(** An external call never leaves the coroutine suspended. *)
Lemma external_not_blocked {A : Type} (f : W -> (exn + A) * W) (w : W) :
  fst (external f w) <> Blocked.
Proof.
  unfold external. destruct (f w) as [[e|a] w']; simpl; discriminate.
Qed.

Lemma _goto_not_blocked (rm : PoliteRequestManager) (url : string) (w : W) :
  fst (_goto rm url w) <> Blocked.
Proof.
  unfold _goto, bind, get_current_user_agent, get_random_user_agent, random_choice.
  destruct (random_randbelow _ w) as [i w1].
  unfold external.
  destruct (page_set_extra_http_headers _ w1) as [[e|[]] w2]; simpl; [discriminate|].
  destruct (page_goto url w2) as [[e|[r|]] w3]; simpl; try discriminate.
  destruct (400 <=? status r); simpl; discriminate.
Qed.

Lemma retry_loop_not_blocked {A : Type} (self : RetryManager) (func : M W A)
    (attempts : list Z) :
  (forall w, fst (func w) <> Blocked) ->
  forall (last_exception : option exn) (env : @Env W),
    fst (retry_loop self func attempts last_exception env) <> Blocked.
Proof.
  intros Hfunc. induction attempts as [|a rest IH]; intros last env; simpl.
  - destruct last; simpl; discriminate.
  - unfold bind at 1. unfold attempt, bind, emit, in_world. simpl.
    pose proof (Hfunc (world env)) as Hf.
    destruct (func (world env)) as [[v|e|] w1]; simpl in *; try discriminate;
      [|congruence].
    destruct (a =? max_retries (rm_config self)); simpl; [discriminate|].
    destruct (float_of_int_cases (2 ^ a)) as [[msg ->]| ->]; simpl; [discriminate|].
    unfold random_uniform, in_world. simpl.
    destruct (random_random w1) as [u w2]. simpl. apply IH.
Qed.

Lemma safe_goto_page_spec (url : string) (s : St) :
  0 < slots (fst s) ->
  exists r s' evs,
    safe_goto_page url s = (r, s') /\ r <> Blocked /\
    steps s s' evs /\
    validation_errors (fst s') = validation_errors (fst s) /\
    fetched evs = match r with Return _ => true | _ => false end.
Proof.
  intros Hsem. destruct s as [sc env]. unfold safe_goto_page.
  unfold bind at 1. unfold get_self at 1. simpl. unfold on_attr. simpl.
  destruct (make_request_shape (_goto (request_manager sc) url) "page"
              (request_manager sc) env Hsem)
    as (r & pm' & env' & paces & retries & Hrun & Hp & _ & Hr & _ & Hs & _ & _ & Hm).
  rewrite Hrun.
  assert (Hnb : r <> Blocked).
  { pose proof (retry_loop_not_blocked (retry_manager (request_manager sc))
                  (_goto (request_manager sc) url)
                  (range (max_retries (rm_config (retry_manager (request_manager sc))) + 1))
                  (_goto_not_blocked (request_manager sc) url) None) as Hnb.
    revert Hrun. unfold make_request.
    unfold bind at 1. unfold on_attr at 1. simpl.
    destruct (wait_for_request_history "page" (rate_limiter (request_manager sc)) env Hsem)
      as (rl' & env1 & paces' & Hw & _).
    rewrite Hw. simpl.
    unfold bind at 1. unfold in_env at 1, time at 1. simpl.
    unfold try_except. unfold bind at 1. unfold get_self at 1. simpl.
    unfold bind at 1. unfold in_env at 1. simpl. unfold execute_with_retry.
    specialize (Hnb env1).
    destruct (retry_loop _ _ _ None env1) as [[v|e|] env2]; simpl in *;
      try congruence.
    all: unfold bind, in_env, time, on_attr, ret, raise; simpl; intros Heq.
    all: injection Heq as <- _ _; discriminate. }
  assert (Hq : forall l, forallb is_sleep l = true -> fetched l = false).
  { induction l as [|x l IHl]; simpl; intros Hl; [reflexivity|].
    apply andb_prop in Hl. destruct Hl as [Hx Hl]. rewrite (IHl Hl).
    destruct x; try discriminate. reflexivity. }
  assert (Hq' : forall l, forallb is_retry_event l = true -> fetched l = false).
  { induction l as [|x l IHl]; simpl; intros Hl; [reflexivity|].
    apply andb_prop in Hl. destruct Hl as [Hx Hl]. rewrite (IHl Hl).
    destruct x; try discriminate; reflexivity. }
  destruct r as [v|e|]; [| |congruence]; destruct Hm as [Hh _].
  all: eexists _, _, _; split; [reflexivity|]; split; [exact Hnb|].
  all: split; [unfold steps, slots; simpl; split; [reflexivity|split; [exact Hs|exact Hh]]|].
  all: split; [reflexivity|].
  all: change (EvAcquire :: paces ++ EvRelease :: retries ++ [EvRecord ?b])%list
         with ([EvAcquire] ++ paces ++ [EvRelease] ++ retries ++ [EvRecord b])%list.
  all: rewrite !fetched_app, (Hq paces Hp), (Hq' retries Hr); reflexivity.
Qed.


Lemma RoomInfo_init_outcome (data : RoomData) :
  (exists room, RoomInfo_init data = Return room) \/
  (exists msg, RoomInfo_init data = Raise (ValidationError msg)).
Proof.
  unfold RoomInfo_init. destruct (validate_url (rd_detail_url data)); eauto.
Qed.

Lemma PropertyInfo_init_outcome (data : PropertyData) (now : Q) :
  (exists p, PropertyInfo_init data now = Return p /\ has_room p) \/
  (exists msg, PropertyInfo_init data now = Raise (ValidationError msg)).
Proof.
  unfold PropertyInfo_init.
  destruct (validate_required_text (pd_title data)); [|right; eauto].
  destruct (validate_required_text (pd_address data)); [|right; eauto].
  unfold validate_rooms. destruct (pd_rooms data) as [|r rs]; [right; eauto|].
  left. eexists. split; [reflexivity|]. unfold has_room. simpl. discriminate.
Qed.

Lemma extract_rooms_spec (self : Settings) (element : Element)
    (room_rows : list RoomRow) :
  forall (rooms_info : list RoomInfo) (sc : PoliteSuumoScraper) (env : @Env W),
  exists l errs,
    extract_rooms self element room_rows rooms_info (sc, env)
    = (Return l, (set_validation_errors (validation_errors sc ++ errs)%list sc, env)).
Proof.
  induction room_rows as [|row rest IH]; intros acc sc env; simpl.
  - exists acc, []. rewrite app_nil_r. destruct sc; reflexivity.
  - destruct (RoomInfo_init_outcome (room_data_of self element row))
      as [[room ->]|[msg ->]].
    + apply IH.
    + simpl. unfold bind, get_self, put_self. simpl.
      destruct (IH acc (set_validation_errors
                          (validation_errors sc
                             ++ [RoomError (room_data_of self element row) msg])%list sc)
                   env) as (l & errs & Hrun).
      rewrite Hrun. simpl. rewrite <- app_assoc.
      eexists _, _. reflexivity.
Qed.

Lemma extract_rooms_with_target (q : Z) (self : Settings) (element : Element)
    (room_rows : list RoomRow) :
  forall rooms_info,
    extract_rooms (W:=W) (with_target q self) element room_rows rooms_info
    = extract_rooms self element room_rows rooms_info.
Proof.
  induction room_rows as [|row rest IH]; intros acc; simpl; [reflexivity|].
  change (room_data_of (with_target q self) element row)
    with (room_data_of self element row).
  destruct (RoomInfo_init (room_data_of self element row)) as [room|e|].
  - apply IH.
  - destruct (is_ValidationError e); [|reflexivity]. rewrite IH. reflexivity.
  - reflexivity.
Qed.

Lemma extract_property_info_with_target (q : Z) (self : Settings) (element : Element) :
  extract_property_info (W:=W) (with_target q self) element
  = extract_property_info self element.
Proof.
  unfold extract_property_info.
  destruct (el_room_rows element) as [e|rows]; [reflexivity|].
  rewrite extract_rooms_with_target. reflexivity.
Qed.

Lemma extract_property_info_spec (self : Settings) (element : Element)
    (sc : PoliteSuumoScraper) (env : @Env W) :
  exists o errs,
    extract_property_info self element (sc, env)
    = (Return o, (set_validation_errors (validation_errors sc ++ errs)%list sc, env)) /\
    (forall p, o = Some p -> has_room p).
Proof.
  unfold extract_property_info, try_except.
  unfold bind at 1.
  assert (Hrooms : exists l errs,
             match el_room_rows element with
             | inl _ => ret []
             | inr room_rows => extract_rooms self element room_rows []
             end (sc, env)
             = (Return l, (set_validation_errors (validation_errors sc ++ errs)%list sc, env))).
  { destruct (el_room_rows element) as [e|rows].
    - exists [], []. rewrite app_nil_r. destruct sc; reflexivity.
    - apply extract_rooms_spec. }
  destruct Hrooms as (l & errs & ->).
  unfold bind at 1. unfold in_env at 1, time at 1. simpl.
  match goal with |- context [PropertyInfo_init ?d ?n] =>
    destruct (PropertyInfo_init_outcome d n) as [(p & -> & Hp)|[msg ->]] end.
  - exists (Some p), errs. split; [reflexivity|]. intros p' [= <-]. exact Hp.
  - simpl. unfold bind, get_self, put_self, ret. simpl.
    eexists None, _. rewrite <- app_assoc. split; [reflexivity|]. discriminate.
Qed.

Lemma set_validation_errors_steps (v : list ValidationErrorEntry) (s : St) :
  steps s (set_validation_errors v (fst s), snd s) [].
Proof. unfold steps. simpl. rewrite app_nil_r. auto. Qed.

Lemma Forall_has_room_snoc (l : list PropertyInfo) (o : option PropertyInfo) :
  Forall has_room l -> (forall p, o = Some p -> has_room p) ->
  Forall has_room (match o with Some p => (l ++ [p])%list | None => l end).
Proof.
  intros Hl Ho. destruct o as [p|]; [|exact Hl].
  apply List.Forall_app. split; [exact Hl|]. constructor; [|constructor]. auto.
Qed.

Lemma scrape_page_loop_spec (self : Settings) (elements : list Element) :
  forall (i : Z) (page_props : list PropertyInfo) (s : St),
    Forall has_room page_props ->
    exists l s' evs,
      scrape_page_loop self i elements page_props s = (Return l, s') /\
      steps s s' evs /\ fetched evs = false /\ Forall has_room l /\
      (target_count self <= sum_rooms (properties (fst s)) + sum_rooms l \/
       forall q, target_count self <= q ->
         scrape_page_loop (with_target q self) i elements page_props s
         = (Return l, s')).
Proof.
  induction elements as [|element rest IH]; intros i pp s Hpp.
  - exists pp, s, []. simpl. split; [reflexivity|]. split; [apply steps_refl|].
    split; [reflexivity|]. split; [exact Hpp|]. right. reflexivity.
  - cbn [scrape_page_loop].
    assert (Hsleep : exists s1 evs1,
               (if 0 <? i then in_env (sleep_uniform (1 # 2) (3 # 2)) else ret tt) s
               = (Return tt, s1) /\ steps s s1 evs1 /\ fetched evs1 = false).
    { destruct (0 <? i).
      - apply sleep_uniform_steps.
      - exists s, []. split; [reflexivity|]. split; [apply steps_refl|reflexivity]. }
    destruct Hsleep as (s1 & evs1 & Hsl & Hst1 & Hf1).
    unfold bind at 1. rewrite Hsl.
    destruct s1 as [sc1 env1].
    destruct (extract_property_info_spec self element sc1 env1)
      as (o & errs & Hex & Ho).
    unfold bind at 1. rewrite Hex.
    unfold bind at 1. unfold get_self at 1.
    cbn [fst snd set_validation_errors properties].
    pose proof (Forall_has_room_snoc pp o Hpp Ho) as Hpp'.
    set (pp' := match o with Some p => (pp ++ [p])%list | None => pp end) in *.
    set (s2 := (set_validation_errors (validation_errors sc1 ++ errs)%list sc1, env1)).
    assert (Hst2 : steps s s2 evs1).
    { rewrite <- (app_nil_r evs1). eapply steps_trans; [exact Hst1|].
      apply (set_validation_errors_steps _ (sc1, env1)). }
    assert (Hprops : properties sc1 = properties (fst s)) by apply Hst1.
    rewrite sum_rooms_app.
    destruct (target_count self <=? sum_rooms (properties sc1) + sum_rooms pp') eqn:Hq.
    + apply Z.leb_le in Hq.
      exists pp', s2, evs1. split; [reflexivity|]. split; [exact Hst2|].
      split; [exact Hf1|]. split; [exact Hpp'|]. left. rewrite <- Hprops. exact Hq.
    + apply Z.leb_gt in Hq.
      destruct (IH (i + 1) pp' s2 Hpp') as (l & s' & evs & Hrun & Hst & Hf & Hl & Hrel).
      fold s2. rewrite Hrun.
      exists l, s', (evs1 ++ evs)%list. split; [reflexivity|].
      split; [eapply steps_trans; eassumption|].
      split; [rewrite fetched_app, Hf1, Hf; reflexivity|]. split; [exact Hl|].
      destruct Hrel as [Hreach|Hsame].
      * left. destruct Hst2 as (Hp2 & _). rewrite <- Hp2. exact Hreach.
      * right. intros q Hle. cbn [scrape_page_loop].
        unfold bind at 1. rewrite Hsl.
        rewrite extract_property_info_with_target.
        unfold bind at 1. rewrite Hex.
        unfold bind at 1. unfold get_self at 1.
        cbn [fst snd set_validation_errors properties with_target target_count].
        rewrite sum_rooms_app. fold pp'.
        assert ((q <=? sum_rooms (properties sc1) + sum_rooms pp') = false) as ->
          by (apply Z.leb_gt; lia).
        apply Hsame. exact Hle.
Qed.


Lemma external_call_spec {A : Type} (f : W -> (exn + A) * W) (s : St) :
  exists r s',
    in_env (in_world (external f)) s = (of_sum r, s') /\
    steps s s' [] /\ fst s' = fst s.
Proof.
  unfold in_env, in_world, external. destruct s as [sc env]. simpl.
  destruct (f (world env)) as [r w']. simpl.
  eexists r, _. split; [reflexivity|]. split; [|reflexivity].
  unfold steps. simpl. rewrite app_nil_r. auto.
Qed.

Lemma get_next_page_url_spec (self : Settings) (s : St) :
  exists o s' evs,
    get_next_page_url self s = (Return o, s') /\
    steps s s' evs /\ fetched evs = false.
Proof.
  unfold get_next_page_url, try_except.
  destruct (sleep_uniform_steps 1 2 s) as (s1 & evs1 & Hsl & Hst1 & Hf1).
  unfold bind at 1. rewrite Hsl.
  destruct (external_call_spec page_next_href s1) as (r & s2 & Hex & Hst2 & _).
  unfold bind at 1. rewrite Hex.
  assert (Hst : steps s s2 evs1).
  { rewrite <- (app_nil_r evs1). eapply steps_trans; eassumption. }
  destruct r as [e|[h|]]; simpl.
  - exists None, s2, evs1. auto.
  - destruct (str_bool h && str_bool (strip h)); eexists _, s2, evs1; auto.
  - exists None, s2, evs1. auto.
Qed.

Lemma scrape_page_spec (self : Settings) (page_url : string) (s : St) :
  0 < slots (fst s) ->
  exists l s' evs,
    scrape_page self page_url s = (Return l, s') /\
    steps s s' evs /\ Forall has_room l /\
    (fetched evs = false -> l = []) /\
    (target_count self <= sum_rooms (properties (fst s)) + sum_rooms l \/
     forall q, target_count self <= q ->
       scrape_page (with_target q self) page_url s = (Return l, s')).
Proof.
  intros Hsem.
  destruct (safe_goto_page_spec page_url s Hsem)
    as (r & s1 & evs1 & Hgo & Hnb & Hst1 & _ & Hf1).
  assert (Hnil : forall s' evs,
             steps s s' evs ->
             scrape_page self page_url s = (Return [], s') ->
             (forall q, scrape_page (with_target q self) page_url s = (Return [], s')) ->
             exists l s'' evs',
               scrape_page self page_url s = (Return l, s'') /\
               steps s s'' evs' /\ Forall has_room l /\
               (fetched evs' = false -> l = []) /\
               (target_count self <= sum_rooms (properties (fst s)) + sum_rooms l \/
                forall q, target_count self <= q ->
                  scrape_page (with_target q self) page_url s = (Return l, s''))).
  { intros s' evs Hst Hrun Hrun'. exists [], s', evs.
    split; [exact Hrun|]. split; [exact Hst|]. split; [constructor|].
    split; [reflexivity|]. right. intros q _. apply Hrun'. }
  destruct r as [resp|e|]; [| |congruence].
  2:{ apply (Hnil s1 evs1 Hst1).
      - unfold scrape_page, try_except. unfold bind at 1. rewrite Hgo. reflexivity.
      - intros q. unfold scrape_page, try_except. unfold bind at 1. rewrite Hgo.
        reflexivity. }
  destruct (sleep_uniform_steps 2 4 s1) as (s2 & evs2 & Hsl & Hst2 & Hf2).
  destruct (external_call_spec page_title s2) as (rt & s3 & Htitle & Hst3 & _).
  destruct (external_call_spec page_query_cassetteitems s3)
    as (rq & s4 & Hquery & Hst4 & _).
  assert (Hst12 : steps s s2 (evs1 ++ evs2)) by (eapply steps_trans; eassumption).
  assert (Hst13 : steps s s3 (evs1 ++ evs2)).
  { rewrite <- (app_nil_r (evs1 ++ evs2)). eapply steps_trans; eassumption. }
  assert (Hst14 : steps s s4 (evs1 ++ evs2)).
  { rewrite <- (app_nil_r (evs1 ++ evs2)). eapply steps_trans; eassumption. }
  assert (Hprefix : forall self0 : Settings,
             scrape_page self0 page_url s
             = match rt with
               | inl _ => (Return [], s3)
               | inr _ =>
                   match rq with
                   | inl _ => (Return [], s4)
                   | inr [] => (Return [], s4)
                   | inr (el :: els) =>
                       match scrape_page_loop self0 0 (el :: els) [] s4 with
                       | (Raise _, s5) => (Return [], s5)
                       | other => other
                       end
                   end
               end).
  { intros self0. unfold scrape_page, try_except.
    unfold bind at 1. rewrite Hgo.
    unfold bind at 1. rewrite Hsl.
    unfold bind at 1. rewrite Htitle.
    destruct rt as [e|t]; [reflexivity|]. cbn [of_sum].
    unfold bind at 1. unfold attempt at 1. rewrite Hquery.
    destruct rq as [e|[|el els]]; cbn [of_sum]; try reflexivity.
    all: destruct (scrape_page_loop self0 0 (el :: els) [] s4) as [[l|e|] s5];
      reflexivity. }
  destruct rt as [e|t].
  { apply (Hnil s3 (evs1 ++ evs2)%list Hst13); [apply Hprefix|intros q; apply Hprefix]. }
  destruct rq as [e|[|el els]].
  1,2: apply (Hnil s4 (evs1 ++ evs2)%list Hst14); [apply Hprefix|intros q; apply Hprefix].
  assert (Hsem4 : properties (fst s4) = properties (fst s)) by apply Hst14.
  destruct (scrape_page_loop_spec self (el :: els) 0 [] s4 (List.Forall_nil _))
    as (l & s5 & evs5 & Hloop & Hst5 & Hf5 & Hl & Hrel).
  exists l, s5, ((evs1 ++ evs2) ++ evs5)%list.
  split; [rewrite Hprefix, Hloop; reflexivity|].
  split; [eapply steps_trans; eassumption|]. split; [exact Hl|].
  split.
  { rewrite !fetched_app, Hf1. simpl. discriminate. }
  destruct Hrel as [Hreach|Hsame].
  - left. rewrite <- Hsem4. exact Hreach.
  - right. intros q Hq. rewrite Hprefix, (Hsame q Hq). reflexivity.
Qed.


Lemma truncation_has_room (props out : list PropertyInfo) :
  truncation props out -> Forall has_room props -> Forall has_room out.
Proof.
  intros [kept dropped ->|kept p dropped k -> Hk] Hall.
  - apply List.Forall_app in Hall. apply Hall.
  - apply List.Forall_app in Hall. destruct Hall as [Hkept _].
    apply List.Forall_app. split; [exact Hkept|].
    constructor; [|constructor]. unfold has_room. simpl.
    destruct (rooms p) as [|r rs]; [simpl in Hk; lia|].
    destruct k as [|k]; [lia|]. simpl. discriminate.
Qed.

Lemma get_station_url_cases (station prefecture_ : string) :
  ((station ∉ dom MAJOR_STATIONS) /\
   exists msg, get_station_url station prefecture_ = Raise (ValueError msg)) \/
  (exists code,
      MAJOR_STATIONS !! station = Some code /\
      get_station_url station prefecture_
      = Return ("https://suumo.jp/chintai/" ++ prefecture_ ++ "/" ++ code ++ "/")).
Proof.
  unfold get_station_url, dict_getitem.
  destruct (bool_decide (station ∈ dom MAJOR_STATIONS)) eqn:Hin; cbn [negb].
  - apply bool_decide_eq_true in Hin. apply elem_of_dom in Hin.
    destruct Hin as [code Hcode]. right. exists code. rewrite Hcode. auto.
  - apply bool_decide_eq_false in Hin. left. split; [exact Hin|]. eexists. reflexivity.
Qed.

Lemma station_page_spec (self : Settings) (current_url : string) (page_count : Z)
    (station_properties : list PropertyInfo) (s : St) :
  0 < slots (fst s) ->
  Forall has_room station_properties ->
  sum_rooms (properties (fst s)) + sum_rooms station_properties < target_count self ->
  exists step s' evs,
    station_page self current_url page_count station_properties s = (Return step, s') /\
    steps s s' evs /\
    ((exists u pc' sp',
         step = Break (u, pc', sp') /\ Forall has_room sp' /\
         sum_rooms (properties (fst s)) + sum_rooms sp' = target_count self /\
         fetched evs = true) \/
     (exists next_url sp',
         step = Continue (next_url, page_count + 1, sp') /\ Forall has_room sp' /\
         sum_rooms (properties (fst s)) + sum_rooms sp' < target_count self /\
         (fetched evs = false -> sp' = station_properties) /\
         forall q, target_count self <= q ->
           station_page (with_target q self) current_url page_count
             station_properties s = (Return step, s'))).
Proof.
  intros Hsem Hsp Hlt.
  destruct (scrape_page_spec self current_url s Hsem)
    as (l & s1 & evs1 & Hpage & Hst1 & Hl & Hf1 & Hrel).
  assert (Hp1 : properties (fst s1) = properties (fst s)) by apply Hst1.
  pose proof (sum_rooms_nonneg station_properties) as Hsp0.
  pose proof (sum_rooms_nonneg l) as Hl0.
  unfold station_page. unfold bind at 1. unfold attempt at 1. rewrite Hpage.
  unfold bind at 1. unfold get_self at 1. cbn [fst snd]. rewrite Hp1.
  destruct (target_count self
            <=? sum_rooms (properties (fst s))
                + sum_rooms (station_properties ++ l)%list) eqn:Hq.
  - apply Z.leb_le in Hq.
    destruct (_limit_properties_spec (station_properties ++ l)%list
                (target_count self - sum_rooms (properties (fst s))) ltac:(lia))
      as (Hsum & _ & Htr).
    eexists _, s1, evs1. split; [reflexivity|]. split; [exact Hst1|].
    left. eexists _, _, _. split; [reflexivity|]. split; [|split].
    + apply (truncation_has_room _ _ Htr). apply List.Forall_app. auto.
    + rewrite Hsum. lia.
    + destruct (fetched evs1); [reflexivity|].
      rewrite (Hf1 eq_refl), app_nil_r in Hq. lia.
  - apply Z.leb_gt in Hq. rewrite sum_rooms_app in Hq.
    destruct (get_next_page_url_spec self s1) as (o & s2 & evs2 & Hnext & Hst2 & Hf2).
    assert (Hsleep : exists s3 evs3,
               (if url_bool o then in_env (sleep_uniform 8 15) else ret tt) s2
               = (Return tt, s3) /\ steps s2 s3 evs3 /\ fetched evs3 = false).
    { destruct (url_bool o).
      - apply sleep_uniform_steps.
      - exists s2, []. split; [reflexivity|]. split; [apply steps_refl|reflexivity]. }
    destruct Hsleep as (s3 & evs3 & Hsl & Hst3 & Hf3).
    unfold bind at 1. unfold attempt at 1. rewrite Hnext.
    unfold bind at 1. rewrite Hsl.
    eexists _, s3, (evs1 ++ evs2 ++ evs3)%list. split; [reflexivity|].
    split; [eapply steps_trans; [exact Hst1|eapply steps_trans; eassumption]|].
    right. eexists _, _. split; [reflexivity|]. split.
    { apply List.Forall_app. auto. }
    split; [rewrite sum_rooms_app; lia|]. split.
    { rewrite !fetched_app, Hf2, Hf3, !orb_false_r. intros Hnf.
      rewrite (Hf1 Hnf). apply app_nil_r. }
    intros q Hle. destruct Hrel as [Hreach|Hsame]; [lia|].
    unfold station_page. unfold bind at 1. unfold attempt at 1.
    rewrite (Hsame q Hle).
    unfold bind at 1. unfold get_self at 1.
    cbn [fst snd with_target target_count]. rewrite Hp1.
    assert ((q <=? sum_rooms (properties (fst s))
                   + sum_rooms (station_properties ++ l)%list) = false) as ->.
    { apply Z.leb_gt. rewrite sum_rooms_app. lia. }
    change (get_next_page_url (with_target q self)) with (get_next_page_url (W:=W) self).
    unfold bind at 1. unfold attempt at 1. rewrite Hnext.
    unfold bind at 1. rewrite Hsl. reflexivity.
Qed.

Lemma station_loop_spec (self : Settings) (fuel : nat) :
  forall (current_url : option string) (page_count : Z)
         (station_properties : list PropertyInfo) (s : St),
    0 < slots (fst s) ->
    Forall has_room station_properties ->
    sum_rooms (properties (fst s)) + sum_rooms station_properties < target_count self ->
    exists sp' s' evs,
      station_loop self fuel current_url page_count station_properties s
      = (Return sp', s') /\
      steps s s' evs /\ Forall has_room sp' /\
      sum_rooms (properties (fst s)) + sum_rooms sp' <= target_count self /\
      (fetched evs = false -> sp' = station_properties) /\
      (sum_rooms (properties (fst s)) + sum_rooms sp' = target_count self \/
       forall q, target_count self <= q ->
         station_loop (with_target q self) fuel current_url page_count
           station_properties s = (Return sp', s')).
Proof.
  induction fuel as [|fuel IH]; intros u pc sp s Hsem Hsp Hlt.
  - exists sp, s, []. split; [reflexivity|]. split; [apply steps_refl|].
    split; [exact Hsp|]. split; [lia|]. split; [reflexivity|]. right. reflexivity.
  - cbn [station_loop].
    assert (Hstop : exists sp' s' evs,
               (Return sp, s) = (Return sp', s') /\
               steps s s' evs /\ Forall has_room sp' /\
               sum_rooms (properties (fst s)) + sum_rooms sp' <= target_count self /\
               (fetched evs = false -> sp' = sp)).
    { exists sp, s, []. split; [reflexivity|]. split; [apply steps_refl|].
      split; [exact Hsp|]. split; [lia|]. reflexivity. }
    destruct u as [url|].
    2:{ destruct Hstop as (sp' & s' & evs & Heq & Hrest). injection Heq as <- <-.
        exists sp, s, evs. split; [reflexivity|].
        repeat (split; [apply Hrest|]). right. reflexivity. }
    destruct (str_bool url && (pc <? 10)) eqn:Hguard.
    2:{ destruct Hstop as (sp' & s' & evs & Heq & Hrest). injection Heq as <- <-.
        exists sp, s, evs. split; [reflexivity|].
        repeat (split; [apply Hrest|]). right. intros q _.
        reflexivity. }
    destruct (station_page_spec self url pc sp s Hsem Hsp Hlt)
      as (step & s1 & evs1 & Hpage & Hst1 & Hcases).
    unfold bind at 1. rewrite Hpage.
    destruct Hcases as [(u' & pc' & sp' & -> & Hsp' & Hsum & Hfe)
                       |(nxt & sp' & -> & Hsp' & Hsum & Hf1 & Hsame)].
    + exists sp', s1, evs1. split; [reflexivity|]. split; [exact Hst1|].
      split; [exact Hsp'|]. split; [lia|]. split; [|left; exact Hsum].
      rewrite Hfe. discriminate.
    + assert (Hsem1 : 0 < slots (fst s1)).
      { destruct Hst1 as (_ & Hs & _). rewrite Hs. exact Hsem. }
      assert (Hp1 : properties (fst s1) = properties (fst s)) by apply Hst1.
      destruct (IH nxt (pc + 1) sp' s1 Hsem1 Hsp' ltac:(rewrite Hp1; exact Hsum))
        as (sp'' & s2 & evs2 & Hloop & Hst2 & Hsp'' & Hbound & Hf2 & Hrel).
      rewrite Hp1 in *.
      exists sp'', s2, (evs1 ++ evs2)%list. split; [exact Hloop|].
      split; [eapply steps_trans; eassumption|]. split; [exact Hsp''|].
      split; [exact Hbound|]. split.
      { rewrite fetched_app. intros Hnf. apply orb_false_elim in Hnf.
        destruct Hnf as [Hn1 Hn2]. rewrite (Hf2 Hn2). apply (Hf1 Hn1). }
      destruct Hrel as [Hexact|Hsame2]; [left; exact Hexact|].
      right. intros q Hle.
      unfold bind at 1. rewrite (Hsame q Hle). apply Hsame2. exact Hle.
Qed.


Lemma Forall_has_room_tagged (n : option string) (l : list PropertyInfo) :
  Forall has_room l -> Forall has_room (map (set_station_name n) l).
Proof.
  intros Hl. apply List.Forall_map. eapply List.Forall_impl; [|exact Hl].
  intros p Hp. exact Hp.
Qed.

Lemma scrape_station_spec (self : Settings) (station : string) (s : St) :
  0 < slots (fst s) ->
  sum_rooms (properties (fst s)) < target_count self ->
  exists l s' evs,
    scrape_station self station s = (Return l, s') /\
    steps s s' evs /\ Forall has_room l /\
    sum_rooms (properties (fst s)) + sum_rooms l <= target_count self /\
    (fetched evs = false -> l = []) /\
    ((station ∉ dom MAJOR_STATIONS) -> l = [] /\ evs = []) /\
    Forall (fun p => station_name p = Some station) l /\
    (sum_rooms (properties (fst s)) + sum_rooms l = target_count self \/
     forall q, target_count self <= q ->
       scrape_station (with_target q self) station s = (Return l, s')).
Proof.
  intros Hsem Hlt. destruct s as [sc env]. cbn [fst snd] in *.
  unfold scrape_station.
  unfold bind at 1. unfold get_self at 1.
  unfold bind at 1. unfold put_self at 1. cbn [fst snd].
  pose (s0 := (set_current_station (Some station) sc, env)).
  assert (Hst0 : steps (sc, env) s0 []).
  { unfold steps. simpl. rewrite app_nil_r. auto. }
  destruct (get_station_url_cases station (prefecture self))
    as [(Hout & msg & Hurl)|(code & Hcode & Hurl)].
  - exists [], s0, []. rewrite Hurl. cbn [is_ValueError].
    split; [reflexivity|]. split; [exact Hst0|]. split; [constructor|].
    split; [simpl; lia|]. split; [reflexivity|]. split; [auto|].
    split; [constructor|]. right. intros q _.
    unfold scrape_station.
    unfold bind at 1. unfold get_self at 1.
    unfold bind at 1. unfold put_self at 1. cbn [fst snd with_target prefecture].
    rewrite Hurl. reflexivity.
  - rewrite Hurl.
    unfold bind at 1. unfold get_self at 1.
    cbn [fst snd set_current_station current_station option_string_eqb].
    rewrite String.eqb_refl. cbn [negb].
    unfold bind at 1. unfold ret at 1.
    destruct (station_loop_spec self 10 (Some ("https://suumo.jp/chintai/"
                ++ prefecture self ++ "/" ++ code ++ "/")) 0 [] s0 Hsem
                (List.Forall_nil _) ltac:(simpl; lia))
      as (sp & s1 & evs & Hloop & Hst1 & Hsp & Hbound & Hf & Hrel).
    unfold s0 in Hloop, Hrel, Hbound.
    cbn [fst snd set_current_station properties] in Hbound, Hrel.
    unfold bind at 1. rewrite Hloop.
    exists (map (set_station_name (Some station)) sp), s1, evs.
    split; [reflexivity|].
    split; [change evs with ([] ++ evs)%list; eapply steps_trans; eassumption|].
    split; [apply Forall_has_room_tagged; exact Hsp|].
    rewrite sum_rooms_set_station_name.
    split; [exact Hbound|]. split; [intros Hnf; rewrite (Hf Hnf); reflexivity|].
    split.
    { intros Hout. exfalso. apply Hout. apply elem_of_dom. eauto. }
    split.
    { apply List.Forall_map. apply List.Forall_forall. reflexivity. }
    destruct Hrel as [Hexact|Hsame]; [left; exact Hexact|].
    right. intros q Hle.
    unfold scrape_station.
    unfold bind at 1. unfold get_self at 1.
    unfold bind at 1. unfold put_self at 1. cbn [fst snd with_target prefecture].
    rewrite Hurl.
    unfold bind at 1. unfold get_self at 1.
    cbn [fst snd set_current_station current_station option_string_eqb].
    rewrite String.eqb_refl. cbn [negb].
    unfold bind at 1. unfold ret at 1.
    unfold bind at 1.
    change {| stations := stations self; target_count := q;
              prefecture := prefecture self; base_url := base_url self |}
      with (with_target q self).
    rewrite (Hsame q Hle). reflexivity.
Qed.

Lemma stations_loop_spec (self : Settings) (todo : list string) :
  forall (i : Z) (s : St),
    0 < slots (fst s) ->
    sum_rooms (properties (fst s)) <= target_count self ->
    exists s' new evs,
      stations_loop self i todo s = (Return tt, s') /\
      properties (fst s') = (properties (fst s) ++ new)%list /\
      slots (fst s') = slots (fst s) /\
      history (snd s') = (history (snd s) ++ evs)%list /\
      sum_rooms (properties (fst s')) <= target_count self /\
      Forall has_room new /\
      (sum_rooms (properties (fst s')) = target_count self \/
       forall q, target_count self <= q ->
         stations_loop (with_target q self) i todo s = (Return tt, s')).
Proof.
  induction todo as [|station rest IH]; intros i s Hsem Hle.
  - exists s, [], []. rewrite !app_nil_r. split; [reflexivity|].
    repeat (split; [auto|]). right. reflexivity.
  - cbn [stations_loop]. unfold bind at 1. unfold get_self at 1. cbn [fst snd].
    destruct (target_count self <=? sum_rooms (properties (fst s))) eqn:Hq.
    + apply Z.leb_le in Hq. exists s, [], []. rewrite !app_nil_r.
      split; [reflexivity|]. repeat (split; [auto|]). left. lia.
    + apply Z.leb_gt in Hq.
      destruct (scrape_station_spec self station s Hsem Hq)
        as (l & s1 & evs1 & Hrun & Hst1 & Hl & Hbound & _ & _ & _ & Hrel).
      unfold bind at 1. unfold attempt at 1. rewrite Hrun.
      unfold bind at 1. unfold get_self at 1.
      unfold bind at 1. unfold put_self at 1. cbn [fst snd].
      destruct Hst1 as (Hp1 & Hs1 & Hh1).
      set (s2 := (set_properties (properties (fst s1) ++ l)%list (fst s1), snd s1)).
      assert (Hsleep : exists s3 evs3,
                 (if i <? len (stations self) - 1
                  then in_env (sleep_uniform 15 30) else ret tt) s2
                 = (Return tt, s3) /\ steps s2 s3 evs3).
      { destruct (i <? len (stations self) - 1).
        - destruct (sleep_uniform_steps 15 30 s2) as (s3 & evs3 & Hsl & Hst & _).
          eauto.
        - exists s2, []. split; [reflexivity|apply steps_refl]. }
      destruct Hsleep as (s3 & evs3 & Hsl & Hp3 & Hs3 & Hh3).
      unfold bind at 1. fold s2. rewrite Hsl.
      assert (Hprops3 : properties (fst s3) = (properties (fst s) ++ l)%list).
      { rewrite Hp3. unfold s2. simpl. rewrite Hp1. reflexivity. }
      assert (Hsem3 : 0 < slots (fst s3)).
      { rewrite Hs3. unfold s2, slots. simpl. fold (slots (fst s1)). lia. }
      destruct (IH (i + 1) s3 Hsem3) as (s' & new & evs & Hloop & Hp & Hs & Hh & Hb & Ha & Hr).
      { rewrite Hprops3, sum_rooms_app. exact Hbound. }
      exists s', (l ++ new)%list, (evs1 ++ evs3 ++ evs)%list.
      split; [exact Hloop|]. split; [rewrite Hp, Hprops3, app_assoc; reflexivity|].
      split.
      { rewrite Hs, Hs3. unfold s2, slots. simpl. exact Hs1. }
      split.
      { rewrite Hh, Hh3. unfold s2. simpl. rewrite Hh1, <- !app_assoc. reflexivity. }
      split; [exact Hb|]. split; [apply List.Forall_app; auto|].
      destruct Hr as [Hexact|Hsame]; [left; exact Hexact|].
      destruct Hrel as [Hreach|Hsame1].
      * left. 
        assert (Hmono : sum_rooms (properties (fst s3)) <= sum_rooms (properties (fst s'))).
        { rewrite Hp, sum_rooms_app. pose proof (sum_rooms_nonneg new). lia. }
        rewrite Hprops3, sum_rooms_app in Hmono. lia.
      * right. intros q Hle'. cbn [stations_loop].
        unfold bind at 1. unfold get_self at 1.
        cbn [fst snd with_target target_count stations].
        assert ((q <=? sum_rooms (properties (fst s))) = false) as ->
          by (apply Z.leb_gt; lia).
        unfold bind at 1. unfold attempt at 1.
        change {| stations := stations self; target_count := q;
                  prefecture := prefecture self; base_url := base_url self |}
          with (with_target q self).
        rewrite (Hsame1 q Hle').
        unfold bind at 1. unfold get_self at 1.
        unfold bind at 1. unfold put_self at 1. cbn [fst snd].
        unfold bind at 1. fold s2. rewrite Hsl.
        apply Hsame. exact Hle'.
Qed.


Lemma stations_loop_reached (self : Settings) (todo : list string) (i : Z) (s : St) :
  target_count self <= sum_rooms (properties (fst s)) ->
  stations_loop self i todo s = (Return tt, s).
Proof.
  intros Hq. destruct todo as [|station rest]; [reflexivity|].
  cbn [stations_loop]. unfold bind at 1. unfold get_self at 1. cbn [fst snd].
  apply Z.leb_le in Hq. rewrite Hq. reflexivity.
Qed.

Lemma create_browser_spec (s : St) :
  exists r s',
    create_browser s = (r, s') /\ r <> Blocked /\ fst s' = fst s /\
    history (snd s') = history (snd s) /\
    (browser_reliable W -> r = Return tt).
Proof.
  destruct s as [sc env].
  unfold create_browser, bind, get_self, in_env, in_world, external,
    get_current_user_agent, get_random_user_agent, random_choice.
  cbn [fst snd].
  destruct (playwright_launch (world env)) as [[e|[]] w1] eqn:E1; cbn [of_sum fst snd world].
  { eexists _, _. split; [reflexivity|]. split; [discriminate|]. split; [reflexivity|].
    split; [reflexivity|]. intros (Hl & _). specialize (Hl (world env)).
    rewrite E1 in Hl. discriminate. }
  destruct (random_randbelow _ w1) as [k w2]. cbn [fst snd world].
  destruct (browser_new_page _ w2) as [[e|[]] w3] eqn:E3; cbn [of_sum fst snd].
  { eexists _, _. split; [reflexivity|]. split; [discriminate|]. split; [reflexivity|].
    split; [reflexivity|]. intros (_ & Hn & _). specialize (Hn (nth k (user_agents (user_agent_rotator (request_manager sc))) "") w2).
    rewrite E3 in Hn. discriminate. }
  eexists _, _. split; [reflexivity|]. split; [discriminate|]. split; [reflexivity|].
  split; [reflexivity|]. reflexivity.
Qed.

Lemma close_browser_spec (s : St) :
  exists r s',
    close_browser s = (of_sum r, s') /\ fst s' = fst s /\
    history (snd s') = history (snd s) /\
    (browser_reliable W -> r = inr tt).
Proof.
  destruct s as [sc env].
  unfold close_browser, in_env, in_world, external. cbn [fst snd].
  destruct (browser_close (world env)) as [[e|[]] w1] eqn:E1.
  - eexists _, _. split; [reflexivity|]. split; [reflexivity|]. split; [reflexivity|].
    intros (_ & _ & Hc). specialize (Hc (world env)). rewrite E1 in Hc. discriminate.
  - eexists _, _. split; [reflexivity|]. auto.
Qed.

(** The session after the browser has started, up to the result object. *)
Lemma session_body_spec (self : Settings) (s : St) :
  0 < slots (fst s) ->
  sum_rooms (properties (fst s)) <= target_count self ->
  exists o s' new evs,
    scrape_all_stations_body self s = (Return o, s') /\
    properties (fst s') = (properties (fst s) ++ new)%list /\
    slots (fst s') = slots (fst s) /\
    history (snd s') = (history (snd s) ++ evs)%list /\
    sum_rooms (properties (fst s')) <= target_count self /\
    Forall has_room new /\
    result_reflects self o (properties (fst s')) /\
    (sum_rooms (properties (fst s')) = target_count self \/
     forall q, target_count self <= q ->
       scrape_all_stations_body (with_target q self) s = (Return o, s')).
Proof.
  intros Hsem Hle.
  destruct (stations_loop_spec self (stations self) 0 s Hsem Hle)
    as (s1 & new & evs & Hloop & Hp & Hs & Hh & Hb & Ha & Hrel).
  assert (Hres : exists o,
             (sc <- get_self ;;
              now <- in_env time ;;
              match ScrapingResult_init (properties sc) (len (properties sc))
                      (len (stations self))
                      ("Polite scraping: " ++ String.concat "-" (stations self)) now with
              | Return res => ret (Some res)
              | Raise e => if is_ValidationError e then ret None else raise e
              | Blocked => fun s => (Blocked, s)
              end) s1 = (Return o, s1) /\
             result_reflects self o (properties (fst s1))).
  { unfold bind at 1. unfold get_self at 1.
    unfold bind at 1. unfold in_env at 1, time at 1. destruct s1 as [sc1 env1].
    cbn [fst snd]. unfold ScrapingResult_init.
    destruct (properties sc1) as [|p ps] eqn:Hprops.
    - exists None. split; reflexivity.
    - rewrite Z.eqb_refl. cbn [negb]. eexists (Some _). split; [reflexivity|].
      unfold result_reflects. cbn. repeat split. discriminate. }
  destruct Hres as (o & Hres & Hrefl).
  exists o, s1, new, evs.
  split; [unfold scrape_all_stations_body, bind at 1; rewrite Hloop; exact Hres|].
  repeat (split; [assumption|]).
  destruct Hrel as [Hexact|Hsame]; [left; exact Hexact|].
  right. intros q Hq. unfold scrape_all_stations_body, bind at 1.
  cbn [with_target stations]. rewrite (Hsame q Hq). exact Hres.
Qed.

Lemma scrape_all_stations_spec (self : Settings) (s : St) :
  0 < slots (fst s) ->
  sum_rooms (properties (fst s)) <= target_count self ->
  exists r s' new evs,
    scrape_all_stations self s = (r, s') /\ r <> Blocked /\
    properties (fst s') = (properties (fst s) ++ new)%list /\
    slots (fst s') = slots (fst s) /\
    history (snd s') = (history (snd s) ++ evs)%list /\
    sum_rooms (properties (fst s')) <= target_count self /\
    Forall has_room new /\
    (forall o, r = Return o -> result_reflects self o (properties (fst s'))) /\
    (browser_reliable W -> exists o, r = Return o) /\
    (sum_rooms (properties (fst s')) = target_count self \/
     forall q, target_count self <= q ->
       scrape_all_stations (with_target q self) s = (r, s')).
Proof.
  intros Hsem Hle.
  destruct (create_browser_spec s) as (r0 & s0 & Hcreate & Hnb0 & Hfst0 & Hh0 & Hrel0).
  destruct r0 as [[]|e|]; [| |congruence].
  2:{ exists (Raise e), s0, [], []. rewrite !app_nil_r, Hfst0.
      split; [unfold scrape_all_stations; unfold bind at 1; rewrite Hcreate; reflexivity|].
      split; [discriminate|]. split; [reflexivity|]. split; [reflexivity|].
      split; [exact Hh0|]. split; [exact Hle|]. split; [constructor|].
      split; [discriminate|]. split.
      { intros Hr. specialize (Hrel0 Hr). discriminate. }
      right. intros q _. unfold scrape_all_stations. unfold bind at 1.
      rewrite Hcreate. reflexivity. }
  assert (Hsem0 : 0 < slots (fst s0)) by (rewrite Hfst0; exact Hsem).
  assert (Hle0 : sum_rooms (properties (fst s0)) <= target_count self)
    by (rewrite Hfst0; exact Hle).
  destruct (session_body_spec self s0 Hsem0 Hle0)
    as (o & s1 & new & evs & Hbody & Hp & Hs & Hh & Hb & Ha & Hrefl & Hrel).
  destruct (close_browser_spec s1) as (rc & s2 & Hclose & Hfst2 & Hh2 & Hrel2).
  rewrite Hfst0 in Hp, Hs. rewrite Hh0 in Hh.
  exists (match rc with inl e => Raise e | inr _ => Return o end), s2, new, evs.
  assert (Hrun : forall self0 : Settings,
             scrape_all_stations_body self0 s0 = (Return o, s1) ->
             scrape_all_stations self0 s
             = (match rc with inl e => Raise e | inr _ => Return o end, s2)).
  { intros self0 Hb0. unfold scrape_all_stations. unfold bind at 1.
    rewrite Hcreate. unfold try_finally. rewrite Hb0, Hclose.
    destruct rc as [e|[]]; reflexivity. }
  split; [apply Hrun; exact Hbody|].
  split; [destruct rc; discriminate|].
  rewrite Hfst2, Hh2.
  repeat (split; [assumption|]).
  split.
  { intros o' Ho'. destruct rc as [e|[]]; [discriminate|]. injection Ho' as <-.
    exact Hrefl. }
  split.
  { intros Hr. rewrite (Hrel2 Hr). eauto. }
  destruct Hrel as [Hexact|Hsame]; [left; exact Hexact|].
  right. intros q Hq. apply Hrun. apply Hsame. exact Hq.
Qed.

Lemma scrape_all_stations_reached (self : Settings) (s : St) :
  target_count self <= sum_rooms (properties (fst s)) ->
  properties (fst (snd (scrape_all_stations self s))) = properties (fst s).
Proof.
  intros Hq.
  destruct (create_browser_spec s) as (r0 & s0 & Hcreate & Hnb0 & Hfst0 & _).
  unfold scrape_all_stations. unfold bind at 1. rewrite Hcreate.
  destruct r0 as [[]|e|]; [|cbn [fst snd]; rewrite Hfst0; reflexivity|congruence].
  unfold try_finally, scrape_all_stations_body. unfold bind at 1.
  rewrite stations_loop_reached by (rewrite Hfst0; exact Hq).
  unfold bind at 1. unfold get_self at 1.
  unfold bind at 1. unfold in_env at 1, time at 1. cbn [fst snd].
  destruct (close_browser_spec s0) as (rc & s2 & Hclose & Hfst2 & _).
  destruct (ScrapingResult_init _ _ _ _ _) as [res|e|]; cbn [is_ValidationError].
  - unfold ret. destruct s0 as [sc0 env0]. cbn [fst snd]. rewrite Hclose.
    destruct rc as [e|[]]; cbn [of_sum fst snd]; rewrite Hfst2; cbn [fst snd] in *; congruence.
  - destruct (is_ValidationError e); unfold ret, raise; destruct s0 as [sc0 env0];
      cbn [fst snd]; rewrite Hclose;
      destruct rc as [e'|[]]; cbn [of_sum fst snd]; rewrite Hfst2; cbn [fst snd] in *; congruence.
  - destruct s0 as [sc0 env0]. cbn [fst snd] in *. congruence.
Qed.

End SessionFacts.

(** ** The claims about the session *)

Lemma len_le_sum_rooms (l : list PropertyInfo) :
  Forall has_room l -> len l <= sum_rooms l.
Proof.
  induction 1 as [|p l Hp Hl IH]; [reflexivity|].
  rewrite sum_rooms_cons. unfold len in *. simpl length.
  unfold has_room in Hp. destruct (rooms p); [contradiction|]. simpl length. lia.
Qed.

Lemma len_lt_sum_rooms (l : list PropertyInfo) :
  Forall has_room l -> Exists (fun p => 2 <= len (rooms p)) l -> len l < sum_rooms l.
Proof.
  induction 1 as [|p l Hp Hl IH]; intros Hex; [inversion Hex|].
  rewrite sum_rooms_cons. pose proof (len_le_sum_rooms l Hl) as Hle.
  unfold len in *. simpl length.
  inversion Hex as [? ? H2|? ? Hex']; subst.
  - lia.
  - specialize (IH Hex'). unfold has_room in Hp.
    destruct (rooms p); [contradiction|]. simpl length. lia.
Qed.

Lemma sim_browser_reliable : browser_reliable SimWorld.
Proof. repeat split. Qed.

Lemma SimRuntimeLaws : @RuntimeLaws SimWorld SimRuntime.
Proof.
  constructor.
  - intros d w. simpl. rewrite Qred_correct. apply Qle_refl.
  - intros w. simpl. apply Qle_refl.
  - intros w. simpl. split; discriminate.
Qed.

Section SessionClaims.
Context {W : Type} `{Runtime W} `{Browser W}.

Local Abbreviation St := (PoliteSuumoScraper * @Env W)%type.

Lemma extract_property_info_outcome (self : Settings) (element : Element)
    (sc : PoliteSuumoScraper) (env : @Env W) :
  exists o errs,
    extract_property_info self element (sc, env)
    = (Return o, (set_validation_errors (validation_errors sc ++ errs)%list sc, env)) /\
    (o = None ->
     exists before data msg, errs = (before ++ [PropertyError data msg])%list).
Proof.
  unfold extract_property_info, try_except.
  unfold bind at 1.
  assert (Hrooms : exists l errs,
             match el_room_rows element with
             | inl _ => ret []
             | inr room_rows => extract_rooms self element room_rows []
             end (sc, env)
             = (Return l, (set_validation_errors (validation_errors sc ++ errs)%list sc, env))).
  { destruct (el_room_rows element) as [e|rows].
    - exists [], []. rewrite app_nil_r. destruct sc; reflexivity.
    - apply extract_rooms_spec. }
  destruct Hrooms as (l & errs & ->).
  unfold bind at 1. unfold in_env at 1, time at 1. simpl.
  match goal with |- context [PropertyInfo_init ?d ?n] =>
    destruct (PropertyInfo_init_outcome d n) as [(p & -> & Hp)|[msg ->]] end.
  - exists (Some p), errs. split; [reflexivity|]. discriminate.
  - simpl. unfold bind, get_self, put_self, ret. simpl.
    eexists None, _. rewrite <- app_assoc. split; [reflexivity|]. eauto.
Qed.

(** C3, as the code has it.  With a browser that starts and closes, the
    session returns: [None] when no property was collected, and otherwise
    a result whose properties are exactly the collected ones and whose
    [total_count] is their number.  The result has no field for
    failures: an element that fails validation yields no property and
    adds an entry to the scraper's [validation_errors]. *)
Theorem scrape_all_stations_result (self : Settings) (s : St) :
  0 < slots (fst s) ->
  sum_rooms (properties (fst s)) <= target_count self ->
  browser_reliable W ->
  let run := scrape_all_stations self s in
  (exists o,
      fst run = Return o /\
      result_reflects self o (properties (fst (snd run)))) /\
  (exists new, properties (fst (snd run)) = (properties (fst s) ++ new)%list) /\
  (forall element sc env,
      let extracted := extract_property_info self element (sc, env) in
      exists o errs,
        fst extracted = Return o /\
        validation_errors (fst (snd extracted)) = (validation_errors sc ++ errs)%list /\
        (o = None ->
         exists before data msg, errs = (before ++ [PropertyError data msg])%list)).
Proof.
  intros Hsem Hle Hrel run.
  destruct (scrape_all_stations_spec self s Hsem Hle)
    as (r & s' & new & evs & Hrun & _ & Hp & _ & _ & _ & _ & Hrefl & Hret & _).
  subst run. rewrite Hrun. cbn [fst snd].
  destruct (Hret Hrel) as [o ->].
  split; [exists o; split; [reflexivity|apply Hrefl; reflexivity]|].
  split; [exists new; exact Hp|].
  intros element sc env. cbv zeta.
  destruct (extract_property_info_outcome self element sc env)
    as (o' & errs & Hex & Hnone).
  rewrite Hex. cbn [fst snd set_validation_errors validation_errors].
  exists o', errs. split; [reflexivity|]. split; [reflexivity|]. exact Hnone.
Qed.


(** C5.  For a bound [max_rooms >= 0], [_limit_properties] keeps a prefix
    of the rooms of its input: the room count of the result is the
    smaller of the bound and the rooms available, the rooms kept are the
    first ones in order, every property before the cut is unchanged and
    at most the last one is cut (to a non-empty part of its rooms); with
    the bound [quota - collected] of [scrape_station] the running total
    becomes exactly the quota; and [scrape_station] leaves the properties
    accepted from earlier stations as they are. *)
Theorem limit_properties_truncates_tail (props : list PropertyInfo) (max_rooms : Z) :
  0 <= max_rooms ->
  sum_rooms (_limit_properties props max_rooms) = Z.min max_rooms (sum_rooms props) /\
  concat (map rooms (_limit_properties props max_rooms))
  = firstn (Z.to_nat max_rooms) (concat (map rooms props)) /\
  truncation props (_limit_properties props max_rooms) /\
  (forall collected quota,
      max_rooms = quota - collected ->
      quota <= collected + sum_rooms props ->
      collected + sum_rooms (_limit_properties props max_rooms) = quota) /\
  (forall (self : Settings) (station : string) (s : St),
      0 < slots (fst s) ->
      sum_rooms (properties (fst s)) < target_count self ->
      properties (fst (snd (scrape_station self station s))) = properties (fst s)).
Proof.
  intros Hm.
  destruct (_limit_properties_spec props max_rooms Hm) as (Hsum & Hflat & Htr).
  split; [exact Hsum|]. split; [exact Hflat|]. split; [exact Htr|]. split.
  - intros collected quota Hmax Hq. rewrite Hsum. lia.
  - intros self station s Hsem Hlt.
    destruct (scrape_station_spec self station s Hsem Hlt)
      as (l & s' & evs & Hrun & Hst & _).
    rewrite Hrun. apply Hst.
Qed.

(** What the handlers of [scrape_station] and of the station loop
    guarantee.  [scrape_station] always returns a list and
    leaves the accepted properties alone; the list is empty when the
    station name is unknown (no request is made) and when no fetch made
    for the station succeeded.  A station that returns the empty list
    changes nothing in the accepted properties and the loop goes on with
    the next station.  The session itself never blocks, keeps what was
    accepted before, and returns whenever the browser starts and closes. *)
Theorem target_failure_is_isolated (self : Settings) (station : string)
    (rest : list string) (i : Z) (s : St) :
  0 < slots (fst s) ->
  sum_rooms (properties (fst s)) < target_count self ->
  (exists l s1 evs,
      scrape_station self station s = (Return l, s1) /\
      steps s s1 evs /\
      ((station ∉ dom MAJOR_STATIONS) -> l = [] /\ evs = []) /\
      (fetched evs = false -> l = []) /\
      (l = [] ->
       exists s2,
         stations_loop self i (station :: rest) s
         = stations_loop self (i + 1) rest s2 /\
         properties (fst s2) = properties (fst s) /\
         slots (fst s2) = slots (fst s))) /\
  (let run := scrape_all_stations self s in
   fst run <> Blocked /\
   (exists new, properties (fst (snd run)) = (properties (fst s) ++ new)%list) /\
   (browser_reliable W -> exists o, fst run = Return o)).
Proof.
  intros Hsem Hlt. split.
  - destruct (scrape_station_spec self station s Hsem Hlt)
      as (l & s1 & evs & Hrun & Hst & _ & _ & Hnf & Hunknown & _).
    exists l, s1, evs. split; [exact Hrun|]. split; [exact Hst|].
    split; [exact Hunknown|]. split; [exact Hnf|].
    intros ->. cbn [stations_loop].
    unfold bind at 1. unfold get_self at 1. cbn [fst snd].
    assert ((target_count self <=? sum_rooms (properties (fst s))) = false) as ->
      by (apply Z.leb_gt; exact Hlt).
    unfold bind at 1. unfold attempt at 1. rewrite Hrun.
    unfold bind at 1. unfold get_self at 1.
    unfold bind at 1. unfold put_self at 1. cbn [fst snd].
    destruct Hst as (Hp1 & Hs1 & _).
    set (s2 := (set_properties (properties (fst s1) ++ [])%list (fst s1), snd s1)).
    assert (Hsleep : exists s3,
               (if i <? len (stations self) - 1
                then in_env (sleep_uniform 15 30) else ret tt) s2
               = (Return tt, s3) /\ fst s3 = fst s2).
    { destruct (i <? len (stations self) - 1).
      - destruct (sleep_uniform_spec 15 30 s2) as (env' & d & Hsl & _). eauto.
      - exists s2. split; reflexivity. }
    destruct Hsleep as (s3 & Hsl & Hfst3).
    unfold bind at 1. rewrite Hsl.
    exists s3. split; [reflexivity|]. rewrite Hfst3. unfold s2, slots. cbn.
    rewrite app_nil_r. auto.
  - destruct (scrape_all_stations_spec self s Hsem ltac:(lia))
      as (r & s' & new & evs & Hrun & Hnb & Hp & _ & _ & _ & _ & _ & Hret & _).
    rewrite Hrun. cbn [fst snd]. split; [exact Hnb|]. split; [eauto|exact Hret].
Qed.

(** C10.  The quota bounds the rooms of the result while [total_count]
    is the number of its properties: [total_count] is never more than the
    number of rooms, and it is strictly less as soon as one property of
    the result has two rooms. *)
Theorem total_count_counts_properties (self : Settings) (s : St) (res : ScrapingResult) :
  0 < slots (fst s) ->
  sum_rooms (properties (fst s)) <= target_count self ->
  Forall has_room (properties (fst s)) ->
  fst (scrape_all_stations self s) = Return (Some res) ->
  total_count res = len (sr_properties res) /\
  total_count res <= sum_rooms (sr_properties res) /\
  sum_rooms (sr_properties res) <= target_count self /\
  (Exists (fun p => 2 <= len (rooms p)) (sr_properties res) ->
   total_count res < sum_rooms (sr_properties res)).
Proof.
  intros Hsem Hle Hall.
  destruct (scrape_all_stations_spec self s Hsem Hle)
    as (r & s' & new & evs & Hrun & _ & Hp & _ & _ & Hb & Hnew & Hrefl & _).
  rewrite Hrun. cbn [fst]. intros ->.
  destruct (Hrefl (Some res) eq_refl) as (_ & Hprops & Hcount & _).
  assert (Hrooms : Forall has_room (sr_properties res)).
  { rewrite Hprops, Hp. apply List.Forall_app. auto. }
  rewrite Hcount, <- Hprops.
  split; [reflexivity|]. split; [apply len_le_sum_rooms; exact Hrooms|].
  split; [rewrite Hprops; exact Hb|]. apply len_lt_sum_rooms. exact Hrooms.
Qed.

End SessionClaims.

(** C3 as stated fails: two sessions return the same result although one
    of them met a validation failure and the other none, so that no count
    of failures can be read off the result; and a session that collects
    nothing returns no result object at all. *)
Lemma session_result_lacks_failure_count :
  let run1 := sim_session ["渋谷"] 10 1000 site_invalid_element in
  let run2 := sim_session ["渋谷"] 10 1001 site_valid_element in
  (fst run1 = fst run2 /\
   length (validation_errors (fst (snd run1))) = 1%nat /\
   length (validation_errors (fst (snd run2))) = 0%nat /\
   ~ exists count : result (option ScrapingResult) -> nat,
       count (fst run1) = length (validation_errors (fst (snd run1))) /\
       count (fst run2) = length (validation_errors (fst (snd run2)))) /\
  fst (sim_session ["渋谷"] 10 1000 []) = Return None.
Proof.
  intros run1 run2.
  assert (Heq : fst run1 = fst run2) by (vm_compute; reflexivity).
  assert (H1 : length (validation_errors (fst (snd run1))) = 1%nat)
    by (vm_compute; reflexivity).
  assert (H2 : length (validation_errors (fst (snd run2))) = 0%nat)
    by (vm_compute; reflexivity).
  split; [|vm_compute; reflexivity].
  split; [exact Heq|]. split; [exact H1|]. split; [exact H2|].
  intros (count & Hc1 & Hc2). rewrite Heq, H1 in Hc1. rewrite H2 in Hc2. congruence.
Qed.

Lemma scrape_all_stations_result_witness :
  let self := settings ["渋谷"] 10 "tokyo" in
  let s := (fresh_scraper true 1000, sim_env 1000 site_invalid_element) in
  0 < slots (fst s) /\
  sum_rooms (properties (fst s)) <= target_count self /\
  browser_reliable SimWorld /\
  exists o,
    fst (scrape_all_stations self s) = Return o /\
    result_reflects self o (properties (fst (snd (scrape_all_stations self s)))).
Proof.
  intros self s.
  assert (H1 : 0 < slots (fst s)) by (vm_compute; reflexivity).
  assert (H2 : sum_rooms (properties (fst s)) <= target_count self)
    by (vm_compute; discriminate).
  split; [exact H1|]. split; [exact H2|]. split; [exact sim_browser_reliable|].
  exact (proj1 (scrape_all_stations_result self s H1 H2 sim_browser_reliable)).
Defined.

Lemma limit_properties_truncates_tail_witness :
  let p := {| title := "a"; address := "x"; access := ""; building_age_area := "";
              rooms := repeat {| floor := ""; rent := ""; admin_fee := "";
                                 deposit_key_money := ""; layout := ""; area := "";
                                 detail_url := None |} 3;
              scraped_at := 0; station_name := None |} in
  0 <= 5 /\ sum_rooms (_limit_properties [p; p; p] 5) = 5.
Proof.
  intros p. assert (H0 : 0 <= 5) by discriminate. split; [exact H0|].
  destruct (limit_properties_truncates_tail (W:=SimWorld) [p; p; p] 5 H0) as (Hsum & _).
  rewrite Hsum. reflexivity.
Defined.

(** C6.  The code at the failing input: the first page of 渋谷 answers
    HTTP 503 on each of the four attempts, so that the fetch fails after
    the retries are used up and [scrape_page] returns no property.
    [scrape_station] then asks the document the browser holds for its
    pagination link and goes on with the linked page: 渋谷 contributes
    the property [a2] with two rooms, where the claim has zero records
    for a target whose fetch failed. *)
Lemma failed_first_fetch_still_contributes :
  let self := settings ["渋谷"; "新宿"] 10 "tokyo" in
  let s := (fresh_scraper true 1000, sim_env 1000 site_503) in
  (exists e, fst (safe_goto_page url_shibuya s) = Raise e) /\
  count_attempts (history (snd (snd (safe_goto_page url_shibuya s)))) = 4%nat /\
  get_station_url "渋谷" "tokyo" = Return url_shibuya /\
  (exists l,
      fst (scrape_station self "渋谷" s) = Return l /\
      map title l = ["a2"] /\ sum_rooms l = 2) /\
  (exists res,
      fst (scrape_all_stations self s) = Return (Some res) /\
      map (fun p => (title p, station_name p)) (sr_properties res)
      = [("a2", Some "渋谷"); ("b1", Some "新宿")]).
Proof.
  intros self s.
  split; [eexists; vm_compute; reflexivity|].
  split; [vm_compute; reflexivity|].
  split; [vm_compute; reflexivity|].
  split; eexists; (split; [vm_compute; reflexivity|]); vm_compute; auto.
Qed.

Lemma target_failure_is_isolated_witness :
  let self := settings ["xx"; "新宿"] 10 "tokyo" in
  let s := (fresh_scraper true 1000, sim_env 1000 site_two_stations) in
  0 < slots (fst s) /\
  sum_rooms (properties (fst s)) < target_count self /\
  fst (scrape_all_stations self s) <> Blocked.
Proof.
  intros self s.
  assert (H1 : 0 < slots (fst s)) by (vm_compute; reflexivity).
  assert (H2 : sum_rooms (properties (fst s)) < target_count self)
    by (vm_compute; reflexivity).
  split; [exact H1|]. split; [exact H2|].
  destruct (target_failure_is_isolated self "xx" ["新宿"] 0 s H1 H2) as (_ & Hrun).
  apply Hrun.
Defined.

Lemma total_count_counts_properties_witness :
  let self := settings ["渋谷"; "新宿"] 5 "tokyo" in
  let s := (fresh_scraper true 1000, sim_env 1000 site_two_stations) in
  0 < slots (fst s) /\
  sum_rooms (properties (fst s)) <= target_count self /\
  Forall has_room (properties (fst s)) /\
  exists res,
    fst (scrape_all_stations self s) = Return (Some res) /\
    total_count res = 2 /\ sum_rooms (sr_properties res) = 5 /\
    total_count res <= sum_rooms (sr_properties res).
Proof.
  intros self s.
  assert (H1 : 0 < slots (fst s)) by (vm_compute; reflexivity).
  assert (H2 : sum_rooms (properties (fst s)) <= target_count self)
    by (vm_compute; discriminate).
  assert (H3 : Forall has_room (properties (fst s))) by constructor.
  split; [exact H1|]. split; [exact H2|]. split; [exact H3|].
  destruct (fst (scrape_all_stations self s)) as [[res|]| |] eqn:Hrun;
    try (vm_compute in Hrun; discriminate).
  exists res. split; [reflexivity|].
  destruct (total_count_counts_properties self s res H1 H2 H3 Hrun) as (_ & Hle & _).
  assert (Hres : Some res = Some res) by reflexivity.
  revert Hle. vm_compute in Hrun. injection Hrun as <-. intros Hle.
  split; [reflexivity|]. split; [reflexivity|]. exact Hle.
Defined.

Lemma wait_for_request_min_delay_witness :
  let rl := rate_limiter (fresh_manager RateLimitConfig_default 2) in
  let env := sim_env 2 [] in
  (min_delay (rl_config rl) <= max_delay (rl_config rl))%Q /\
  0 < _semaphore rl /\
  exists rl' env',
    wait_for_request "page" (rl, env) = (Return tt, (rl', env')) /\
    (last_request_time rl + 5 <= time_time (world env'))%Q.
Proof.
  intros rl env.
  assert (H1 : (min_delay (rl_config rl) <= max_delay (rl_config rl))%Q)
    by (vm_compute; discriminate).
  assert (H2 : 0 < _semaphore rl) by (vm_compute; reflexivity).
  split; [exact H1|]. split; [exact H2|].
  destruct (@wait_for_request_min_delay SimWorld SimRuntime SimRuntimeLaws
              "page" rl env H1 H2) as (rl' & env' & Hrun & _ & Hle & _).
  exists rl', env'. split; [exact Hrun|exact Hle].
Defined.

Lemma make_request_records_once_witness :
  let pm := fresh_manager RateLimitConfig_default 1000 in
  0 < _semaphore (rate_limiter pm) /\
  fst (gate_run 1) <> Blocked /\
  success_count (monitor (fst (snd (gate_run 1))))
  + error_count (monitor (fst (snd (gate_run 1))))
  = success_count (monitor pm) + error_count (monitor pm) + 1.
Proof.
  intros pm.
  assert (H1 : 0 < _semaphore (rate_limiter pm)) by (vm_compute; reflexivity).
  assert (H2 : fst (gate_run 1) <> Blocked) by (vm_compute; discriminate).
  split; [exact H1|]. split; [exact H2|].
  destruct (make_request_records_once
              (external (page_goto "https://suumo.jp/chintai/tokyo/ek_17640/")) "page"
              pm (sim_env 1000 (one_page_site 1)) H1 H2) as (_ & Hcount & _).
  exact Hcount.
Defined.

(** ** Further properties of the request gate *)

Section BackoffFacts.
Context {W : Type} `{RuntimeLaws W}.

Lemma retry_loop_backoff {A : Type} (self : RetryManager) (func : M W A) (n : nat) :
  max_retries (rm_config self) = Z.of_nat n ->
  (0 <= retry_delay (rm_config self))%Q ->
  forall (m k : nat) (last_exception : option exn) (env : @Env W),
    (k + m = n + 1)%nat -> (1 <= m)%nat ->
    exists evs,
      history (snd (retry_loop self func (map Z.of_nat (seq k m)) last_exception env))
      = (history env ++ evs)%list /\
      backoff_trace (rm_config self) (Z.of_nat k) evs.
Proof.
  intros Hmax Hdelay. induction m as [|m IH]; intros k last env Hkm Hm; [lia|].
  simpl seq. simpl map. simpl retry_loop.
  unfold bind at 1. unfold attempt, bind, emit, in_world. simpl.
  destruct (func (world env)) as [[v|e|] w1]; simpl.
  - exists [EvAttempt (Z.of_nat k)]. split; [reflexivity|constructor].
  - destruct (Z.of_nat k =? max_retries (rm_config self)) eqn:Hk; simpl.
    + exists [EvAttempt (Z.of_nat k)]. split; [reflexivity|constructor].
    + apply Z.eqb_neq in Hk.
      destruct (float_of_int_cases (2 ^ Z.of_nat k)) as [[msg ->]| ->]; simpl.
      { exists [EvAttempt (Z.of_nat k)]. split; [reflexivity|constructor]. }
      unfold random_uniform, in_world. simpl.
      pose proof (random_unit w1) as Hu.
      destruct (random_random w1) as [u w2]. simpl in *.
      match goal with |- context [retry_loop self func _ ?l ?e] =>
        destruct (IH (S k) l e ltac:(lia) ltac:(lia)) as (evs & Hh & Htr) end.
      rewrite Hh. simpl.
      eexists (EvAttempt (Z.of_nat k) :: EvSleep _ :: evs).
      rewrite <- !app_assoc. split; [reflexivity|].
      assert (Hpow : (0 <= inject_Z (2 ^ Z.of_nat k))%Q).
      { rewrite <- (Zle_Qle 0). apply Z.pow_nonneg. lia. }
      assert (Hwt : (0 <= retry_delay (rm_config self) * inject_Z (2 ^ Z.of_nat k))%Q)
        by (apply Qmult_le_0_compat; assumption).
      replace (Z.of_nat (S k)) with (Z.of_nat k + 1) in Htr by lia.
      constructor; [| |exact Htr].
      * set (wt := (retry_delay (rm_config self) * inject_Z (2 ^ Z.of_nat k))%Q) in *.
        nra.
      * set (wt := (retry_delay (rm_config self) * inject_Z (2 ^ Z.of_nat k))%Q) in *.
        nra.
  - exists [EvAttempt (Z.of_nat k)]. split; [reflexivity|constructor].
Qed.

(** The retry executor numbers its attempts from 0 and, after failed
    attempt [k], sleeps between [0.5] and [1.5] times
    [retry_delay * 2 ** k] before the next attempt. *)
Theorem execute_with_retry_backoff {A : Type} (self : RetryManager)
    (func : M W A) (env : @Env W) :
  0 <= max_retries (rm_config self) ->
  (0 <= retry_delay (rm_config self))%Q ->
  exists evs,
    history (snd (execute_with_retry self func env)) = (history env ++ evs)%list /\
    backoff_trace (rm_config self) 0 evs.
Proof.
  intros Hmax Hdelay.
  set (n := Z.to_nat (max_retries (rm_config self))).
  assert (Hn : max_retries (rm_config self) = Z.of_nat n) by (subst n; lia).
  destruct (retry_loop_backoff self func n Hn Hdelay (n + 1) 0 None env
              ltac:(lia) ltac:(lia)) as (evs & Hh & Htr).
  exists evs. split; [|exact Htr].
  unfold execute_with_retry, range.
  replace (Z.to_nat (max_retries (rm_config self) + 1)) with (n + 1)%nat
    by (subst n; lia).
  exact Hh.
Qed.

End BackoffFacts.

(** *** UserAgentRotator *)

Lemma list_getitem_in_range {A : Type} (l : list A) (i : Z) (d : A) :
  0 <= i < len l -> list_getitem l i = inr (nth (Z.to_nat i) l d).
Proof.
  intros Hi. unfold list_getitem.
  assert ((i <? 0) = false) as -> by (apply Z.ltb_ge; lia).
  assert ((0 <=? i) = true) as -> by (apply Z.leb_le; lia).
  assert ((i <? len l) = true) as -> by (apply Z.ltb_lt; lia).
  cbn [andb].
  destruct (nth_error l (Z.to_nat i)) as [x|] eqn:Hx.
  - rewrite (nth_error_nth _ _ d Hx). reflexivity.
  - apply nth_error_None in Hx. unfold len in Hi. lia.
Qed.

(** [get_next_user_agent] walks through the pool in order and wraps
    around: from an index inside the pool, [n] calls return the agents at
    the following [n] positions modulo the size of the pool and leave the
    index [n] positions further; after as many calls as the pool has
    agents the index is back where it was. *)
Theorem get_next_user_agent_round_robin (self : UserAgentRotator) (n : nat) :
  0 <= current_index self < len (user_agents self) ->
  let size := len (user_agents self) in
  get_next_user_agents n self
  = inr (map (fun k => nth (Z.to_nat ((current_index self + Z.of_nat k) mod size))
                           (user_agents self) "")
             (seq 0 n),
         {| user_agents := user_agents self;
            current_index := (current_index self + Z.of_nat n) mod size |}) /\
  (Z.of_nat n = size ->
   exists uas, get_next_user_agents n self = inr (uas, self)).
Proof.
  intros Hidx size.
  assert (Hgen : forall m self0,
             user_agents self0 = user_agents self ->
             0 <= current_index self0 < size ->
             get_next_user_agents m self0
             = inr (map (fun k => nth (Z.to_nat ((current_index self0 + Z.of_nat k) mod size))
                                      (user_agents self) "")
                        (seq 0 m),
                    {| user_agents := user_agents self;
                       current_index := (current_index self0 + Z.of_nat m) mod size |})).
  { induction m as [|m IH]; intros self0 Hpool Hi.
    - simpl. rewrite Z.add_0_r, Z.mod_small by lia.
      destruct self0 as [pool idx]. simpl in *. subst pool. reflexivity.
    - cbn [get_next_user_agents]. unfold get_next_user_agent.
      rewrite Hpool. fold size.
      rewrite (list_getitem_in_range (user_agents self) (current_index self0) "")
        by (fold size; lia).
      unfold py_mod. assert ((size =? 0) = false) as -> by (apply Z.eqb_neq; lia).
      rewrite IH; [|reflexivity|cbn; apply Z.mod_pos_bound; lia].
      cbn [current_index]. f_equal. f_equal.
      + cbn [seq map]. f_equal.
        * rewrite Z.add_0_r, Z.mod_small by lia. reflexivity.
        * rewrite <- seq_shift, map_map. apply map_ext. intros k.
          f_equal. f_equal. rewrite Zplus_mod_idemp_l. f_equal. lia.
      + f_equal. rewrite Zplus_mod_idemp_l. f_equal. lia. }
  split; [apply Hgen; [reflexivity|exact Hidx]|].
  intros Hn. eexists. rewrite (Hgen n self eq_refl Hidx). f_equal. f_equal.
  rewrite Hn. destruct self as [pool idx]. cbn in *. f_equal.
  subst size. rewrite <- (Z.mul_1_l (len pool)) at 1.
  rewrite Z_mod_plus_full. apply Z.mod_small. lia.
Qed.

Lemma get_next_user_agent_round_robin_witness :
  0 <= current_index UserAgentRotator_init < len (user_agents UserAgentRotator_init) /\
  exists uas,
    get_next_user_agents 8 UserAgentRotator_init = inr (uas, UserAgentRotator_init).
Proof.
  assert (H0 : 0 <= current_index UserAgentRotator_init
               < len (user_agents UserAgentRotator_init)) by (vm_compute; split; congruence).
  split; [exact H0|].
  apply (proj2 (get_next_user_agent_round_robin UserAgentRotator_init 8 H0)).
  reflexivity.
Defined.

(** [get_random_user_agent] returns an agent of the pool, for a random
    source whose [_randbelow(n)] stays below [n]. *)
Theorem get_random_user_agent_in_pool {W : Type} `{Runtime W}
    (self : UserAgentRotator) (w : W) :
  user_agents self <> [] ->
  (forall n w', (0 < n)%nat -> (fst (random_randbelow n w') < n)%nat) ->
  exists ua w', get_random_user_agent self w = (Return ua, w') /\ In ua (user_agents self).
Proof.
  intros Hne Hbelow. unfold get_random_user_agent, random_choice.
  assert (Hlen : (0 < length (user_agents self))%nat).
  { destruct (user_agents self); [contradiction|simpl; lia]. }
  specialize (Hbelow (length (user_agents self)) w Hlen).
  destruct (random_randbelow (length (user_agents self)) w) as [i w']. simpl in Hbelow.
  eexists _, _. split; [reflexivity|]. apply nth_In. exact Hbelow.
Qed.

Lemma get_random_user_agent_in_pool_witness :
  user_agents UserAgentRotator_init <> [] /\
  (forall n (w' : SimWorld), (0 < n)%nat -> (fst (random_randbelow n w') < n)%nat) /\
  exists ua w',
    get_random_user_agent UserAgentRotator_init (sim_world 0 []) = (Return ua, w') /\
    In ua (user_agents UserAgentRotator_init).
Proof.
  assert (H1 : user_agents UserAgentRotator_init <> []) by discriminate.
  assert (H2 : forall n (w' : SimWorld), (0 < n)%nat -> (fst (random_randbelow n w') < n)%nat)
    by (intros n w' Hn; exact Hn).
  split; [exact H1|]. split; [exact H2|].
  exact (get_random_user_agent_in_pool UserAgentRotator_init (sim_world 0 []) H1 H2).
Defined.

(** *** RequestMonitor *)

Section MonitorFacts.
Context {W : Type} `{Runtime W}.

Lemma filter_length_le {A : Type} (f : A -> bool) (l : list A) :
  (length (List.filter f l) <= length l)%nat.
Proof.
  induction l as [|x l IH]; simpl; [lia|]. destruct (f x); simpl; lia.
Qed.

(** A fresh monitor satisfies [monitor_ok], every [record_request] keeps
    it, counts the request in exactly one of the two counters, and never
    prunes the timestamp it has just appended. *)
Theorem record_request_keeps_monitor_ok (success : bool) (response_time : option Q)
    (mo : RequestMonitor) (env : @Env W) :
  monitor_ok mo ->
  let mo' := fst (snd (record_request success response_time (mo, env))) in
  monitor_ok mo' /\
  success_count mo' + error_count mo' = success_count mo + error_count mo + 1 /\
  In (time_time (world env)) (request_times mo') /\
  (forall env0 : @Env W,
      fst (RequestMonitor_init env0) = Return
        {| start_time := time_time (world env0); request_times := [];
           error_count := 0; success_count := 0 |} /\
      monitor_ok {| start_time := time_time (world env0); request_times := [];
                    error_count := 0; success_count := 0 |}).
Proof.
  intros (He & Hs & Hl) mo'. subst mo'. rewrite record_request_spec. cbn [fst snd].
  split; [|split; [|split]].
  - unfold monitor_ok. cbn [error_count success_count request_times].
    pose proof (filter_length_le
                  (fun t => Qltb (time_time (world env) - 3600) t)
                  (request_times mo ++ [time_time (world env)])) as Hf.
    rewrite length_app in Hf. simpl in Hf. unfold len in *.
    destruct success; repeat split; lia.
  - cbn [error_count success_count]. destruct success; lia.
  - cbn [request_times]. apply List.filter_In. split.
    + apply in_or_app. right. left. reflexivity.
    + apply Qltb_lt. lra.
  - intros env0. split; [reflexivity|]. unfold monitor_ok, len. simpl. lia.
Qed.

End MonitorFacts.

Lemma record_request_keeps_monitor_ok_witness :
  let mo := monitor (fresh_manager RateLimitConfig_default 10) in
  monitor_ok mo /\
  monitor_ok (fst (snd (record_request false None (mo, sim_env 20 [])))).
Proof.
  intros mo.
  assert (H0 : monitor_ok mo) by (unfold monitor_ok, len; simpl; lia).
  split; [exact H0|].
  exact (proj1 (record_request_keeps_monitor_ok false None mo (sim_env 20 []) H0)).
Defined.

Lemma py_div_nonzero (x y : Q) : ~ (y == 0)%Q -> py_div x y = inr (x / y)%Q.
Proof.
  intros Hy. unfold py_div. destruct (Qeq_bool y 0) eqn:E; [|reflexivity].
  apply Qeq_bool_iff in E. contradiction.
Qed.

Lemma float_of_int_small (n : Z) :
  Z.abs n < 2 ^ 1024 - 2 ^ 970 -> float_of_int n = inr (inject_Z n).
Proof.
  intros Hn. unfold float_of_int.
  replace (2 ^ 1024 - 2 ^ 970 <=? Z.abs n) with false; [reflexivity|].
  symmetry. apply Z.leb_gt. exact Hn.
Qed.

Lemma float_of_int_big (n : Z) :
  2 ^ 1024 - 2 ^ 970 <= Z.abs n ->
  float_of_int n = inl (OverflowError "int too large to convert to float").
Proof.
  intros Hn. unfold float_of_int.
  replace (2 ^ 1024 - 2 ^ 970 <=? Z.abs n) with true; [reflexivity|].
  symmetry. apply Z.leb_le. exact Hn.
Qed.

Lemma get_request_rate_positive (self : RequestMonitor) (window_seconds : Z) (now : Q) :
  0 < window_seconds < 2 ^ 1024 - 2 ^ 970 ->
  get_request_rate self window_seconds now
  = inr (inject_Z (len (List.filter
                          (fun t => Qltb (now - inject_Z window_seconds) t)
                          (request_times self)))
         / inject_Z window_seconds)%Q.
Proof.
  intros Hw. unfold get_request_rate.
  rewrite float_of_int_small by (rewrite Z.abs_eq; lia).
  assert (Hpos : (0 < inject_Z window_seconds)%Q) by (rewrite <- (Zlt_Qlt 0); lia).
  rewrite py_div_nonzero by lra. reflexivity.
Qed.

(** [get_request_rate] has three outcomes.  A window of 0 seconds raises
    [ZeroDivisionError].  A window whose magnitude is [2 ** 1024 - 2 ** 970]
    or more raises [OverflowError], since it cannot be subtracted from
    the float clock reading.  For every other positive window the rate
    is the number of retained timestamps newer than [now - window]
    divided by the window, which is at least 0 and at most all retained
    timestamps over the window. *)
Theorem get_request_rate_window (self : RequestMonitor) (window_seconds : Z) (now : Q) :
  get_request_rate self 0 now = inl ZeroDivisionError /\
  (2 ^ 1024 - 2 ^ 970 <= Z.abs window_seconds ->
   get_request_rate self window_seconds now
   = inl (Raised (OverflowError "int too large to convert to float"))) /\
  (0 < window_seconds < 2 ^ 1024 - 2 ^ 970 ->
   exists rate,
     get_request_rate self window_seconds now = inr rate /\
     (0 <= rate)%Q /\
     (rate * inject_Z window_seconds <= inject_Z (len (request_times self)))%Q).
Proof.
  split; [reflexivity|]. split.
  { intros Hbig. unfold get_request_rate. rewrite float_of_int_big by exact Hbig.
    reflexivity. }
  intros Hw. rewrite get_request_rate_positive by exact Hw.
  assert (Hpos : (0 < inject_Z window_seconds)%Q) by (rewrite <- (Zlt_Qlt 0); lia).
  eexists. split; [reflexivity|].
  set (recent := List.filter _ (request_times self)).
  assert (Hr0 : (0 <= inject_Z (len recent))%Q).
  { rewrite <- (Zle_Qle 0). unfold len. lia. }
  assert (Hrl : (inject_Z (len recent) <= inject_Z (len (request_times self)))%Q).
  { rewrite <- Zle_Qle. unfold len. pose proof (filter_length_le
      (fun t => Qltb (now - inject_Z window_seconds) t) (request_times self)).
    subst recent. lia. }
  split.
  - apply Qle_shift_div_l; [exact Hpos|]. lra.
  - unfold Qdiv. rewrite <- Qmult_assoc, (Qmult_comm (/ _)), Qmult_inv_r by lra.
    lra.
Qed.

Lemma get_request_rate_window_witness :
  0 < 300 < 2 ^ 1024 - 2 ^ 970 /\
  2 ^ 1024 - 2 ^ 970 <= Z.abs (10 ^ 400) /\
  (exists rate,
      get_request_rate {| start_time := 0; request_times := [100; 500; 650]%Q;
                          error_count := 0; success_count := 3 |} 300 700 = inr rate /\
      (rate == 2 # 300)%Q) /\
  get_request_rate {| start_time := 0; request_times := [100; 500; 650]%Q;
                      error_count := 0; success_count := 3 |} (10 ^ 400) 700
  = inl (Raised (OverflowError "int too large to convert to float")).
Proof.
  assert (H0 : 0 < 300 < 2 ^ 1024 - 2 ^ 970) by (split; reflexivity).
  assert (H1 : 2 ^ 1024 - 2 ^ 970 <= Z.abs (10 ^ 400)) by (vm_compute; discriminate).
  split; [exact H0|]. split; [exact H1|].
  destruct (get_request_rate_window
              {| start_time := 0; request_times := [100; 500; 650]%Q;
                 error_count := 0; success_count := 3 |} 300 700)
    as (_ & _ & Hpos).
  destruct (get_request_rate_window
              {| start_time := 0; request_times := [100; 500; 650]%Q;
                 error_count := 0; success_count := 3 |} (10 ^ 400) 700)
    as (_ & Hbig & _).
  split; [|exact (Hbig H1)].
  destruct (Hpos H0) as (rate & Hrate & _).
  exists rate. split; [exact Hrate|].
  vm_compute in Hrate. injection Hrate as <-. reflexivity.
Defined.

Lemma filter_Qltb_le (a b : Q) (l : list Q) :
  (a <= b)%Q ->
  (length (List.filter (fun t => Qltb b t) l)
   <= length (List.filter (fun t => Qltb a t) l))%nat.
Proof.
  intros Hab. induction l as [|x l IH]; [reflexivity|]. cbn [List.filter].
  destruct (Qltb b x) eqn:Hb.
  - apply Qltb_lt in Hb.
    assert (Ha : Qltb a x = true) by (apply Qltb_lt; lra).
    rewrite Ha. cbn [length]. lia.
  - destruct (Qltb a x); cbn [length]; lia.
Qed.

Lemma filter_Qltb_all (a : Q) (l : list Q) :
  Forall (fun t => (a < t)%Q) l -> List.filter (fun t => Qltb a t) l = l.
Proof.
  induction 1 as [|x l Hx Hl IH]; [reflexivity|]. cbn [List.filter].
  apply Qltb_lt in Hx. rewrite Hx, IH. reflexivity.
Qed.

Lemma filter_Qltb_Forall (a : Q) (l : list Q) :
  Forall (fun t => (a < t)%Q) (List.filter (fun t => Qltb a t) l).
Proof.
  induction l as [|x l IH]; [constructor|]. cbn [List.filter].
  destruct (Qltb a x) eqn:Hx; [|exact IH].
  constructor; [apply Qltb_lt; exact Hx|exact IH].
Qed.

(** After a request is recorded at clock reading [t], a later reading of
    the rate over the retention window of 3600 seconds counts at most
    the retained timestamps, counts the recorded request as long as
    fewer than 3600 seconds have passed, and counts every retained
    timestamp when the clock has not moved; timestamps may drop out of
    the count as the clock moves on. *)
Theorem get_request_rate_after_record {W : Type} `{Runtime W} (success : bool)
    (response_time : option Q) (mo : RequestMonitor) (env : @Env W) (now : Q) :
  let t := time_time (world env) in
  let mo' := fst (snd (record_request success response_time (mo, env))) in
  (t <= now)%Q ->
  exists rate,
    get_request_rate mo' 3600 now = inr rate /\
    (rate * 3600 <= inject_Z (len (request_times mo')))%Q /\
    ((now < t + 3600)%Q -> (1 <= rate * 3600)%Q) /\
    ((now == t)%Q -> (rate * 3600 == inject_Z (len (request_times mo')))%Q).
Proof.
  intros t mo' Hnow. subst mo'. rewrite record_request_spec. cbn [fst snd].
  rewrite get_request_rate_positive by (split; reflexivity).
  cbn [request_times]. fold t. change (inject_Z 3600) with 3600%Q.
  set (kept := List.filter (fun x => Qltb (t - 3600) x) (request_times mo ++ [t])%list).
  set (recent := List.filter (fun x => Qltb (now - 3600) x) kept).
  eexists. split; [reflexivity|].
  assert (Hmul : forall x : Q, (x / 3600 * 3600 == x)%Q) by (intros x; field).
  rewrite Hmul.
  assert (Hle : (length recent <= length kept)%nat) by apply filter_length_le.
  split; [|split].
  - rewrite <- Zle_Qle. unfold len. lia.
  - intros Hlt. rewrite <- (Zle_Qle 1). unfold len.
    assert (Hin : In t recent).
    { unfold recent, kept. apply List.filter_In. split.
      - apply List.filter_In. split; [apply in_or_app; right; left; reflexivity|].
        apply Qltb_lt. lra.
      - apply Qltb_lt. lra. }
    destruct recent as [|x r]; [contradiction|]. cbn [length]. lia.
  - intros Heq. unfold recent.
    rewrite filter_Qltb_all; [reflexivity|].
    unfold kept.
    eapply List.Forall_impl; [|apply filter_Qltb_Forall].
    intros x Hx. cbn beta in Hx. lra.
Qed.

Lemma get_request_rate_after_record_witness :
  let mo := {| start_time := 0; request_times := [401]%Q;
               error_count := 0; success_count := 1 |} in
  let env := sim_env 4000 [] in
  let mo' := fst (snd (record_request true None (mo, env))) in
  (time_time (world env) <= 4001)%Q /\
  request_times mo' = [401; 4000]%Q /\
  (exists rate, get_request_rate mo' 3600 4000 = inr rate /\ (rate == 2 # 3600)%Q) /\
  (exists rate, get_request_rate mo' 3600 4001 = inr rate /\ (rate == 1 # 3600)%Q).
Proof.
  intros mo env mo'.
  assert (H0 : (time_time (world env) <= 4000)%Q) by (vm_compute; discriminate).
  assert (H1 : (time_time (world env) <= 4001)%Q) by (vm_compute; discriminate).
  split; [exact H1|]. split; [reflexivity|]. split.
  - destruct (get_request_rate_after_record true None mo env 4000 H0)
      as (rate & Hrate & _).
    exists rate. split; [exact Hrate|].
    vm_compute in Hrate. injection Hrate as <-. reflexivity.
  - destruct (get_request_rate_after_record true None mo env 4001 H1)
      as (rate & Hrate & _).
    exists rate. split; [exact Hrate|].
    vm_compute in Hrate. injection Hrate as <-. reflexivity.
Defined.

(** [get_stats] never raises; the total is the sum of the two counters;
    with no request counted the success rate is 0 (no division by zero),
    and otherwise it is the share of successes, between 0 and 1. *)
Theorem get_stats_rates (self : RequestMonitor) (now : Q) :
  monitor_ok self ->
  exists stats,
    get_stats self now = inr stats /\
    st_total_requests stats = success_count self + error_count self /\
    (0 <= st_success_rate stats <= 1)%Q /\
    (st_total_requests stats = 0 -> (st_success_rate stats == 0)%Q) /\
    (0 < st_total_requests stats ->
     (st_success_rate stats * inject_Z (st_total_requests stats)
      == inject_Z (success_count self))%Q).
Proof.
  intros (He & Hs & _). unfold get_stats.
  set (total := success_count self + error_count self).
  assert (Hrate : exists r, get_request_rate self 300 now = inr r).
  { rewrite get_request_rate_positive by (split; reflexivity). eauto. }
  destruct Hrate as (recent & ->).
  assert (Havg : exists a,
             (if Qltb 0 (now - start_time self)
              then py_div (inject_Z total) (now - start_time self)
              else inr 0%Q) = inr a).
  { destruct (Qltb 0 (now - start_time self)) eqn:Hd; [|eauto].
    apply Qltb_lt in Hd. rewrite py_div_nonzero by lra. eauto. }
  destruct Havg as (avg & ->).
  destruct (0 <? total) eqn:Ht.
  - apply Z.ltb_lt in Ht.
    assert (Hpos : (0 < inject_Z total)%Q) by (rewrite <- (Zlt_Qlt 0); exact Ht).
    rewrite py_div_nonzero by lra.
    eexists. split; [reflexivity|]. cbn.
    assert (Hs0 : (0 <= inject_Z (success_count self))%Q)
      by (rewrite <- (Zle_Qle 0); exact Hs).
    assert (Hst : (inject_Z (success_count self) <= inject_Z total)%Q)
      by (rewrite <- Zle_Qle; subst total; lia).
    split; [reflexivity|]. split; [|split].
    + split.
      * apply Qle_shift_div_l; [exact Hpos|]. lra.
      * apply Qle_shift_div_r; [exact Hpos|]. lra.
    + fold total. lia.
    + intros _. fold total. unfold Qdiv.
      rewrite <- Qmult_assoc, (Qmult_comm (/ _)), Qmult_inv_r by lra. lra.
  - apply Z.ltb_ge in Ht. eexists. split; [reflexivity|]. cbn.
    split; [reflexivity|]. split; [lra|]. split; [reflexivity|].
    fold total. lia.
Qed.

Lemma get_stats_rates_witness :
  let mo := {| start_time := 0; request_times := [100; 500; 650]%Q;
               error_count := 1; success_count := 3 |} in
  monitor_ok mo /\
  exists stats, get_stats mo 700 = inr stats /\ (st_success_rate stats == 3 # 4)%Q.
Proof.
  intros mo.
  assert (H0 : monitor_ok mo) by (unfold monitor_ok, len; simpl; lia).
  split; [exact H0|].
  destruct (get_stats_rates mo 700 H0) as (stats & Hstats & _).
  exists stats. split; [exact Hstats|].
  vm_compute in Hstats. injection Hstats as <-. reflexivity.
Defined.

Lemma execute_with_retry_backoff_witness :
  let self := {| rm_config := RateLimitConfig_default |} in
  0 <= max_retries (rm_config self) /\
  (0 <= retry_delay (rm_config self))%Q /\
  exists evs,
    history (snd (execute_with_retry self
                    (external (page_goto "https://suumo.jp/chintai/tokyo/ek_17640/"))
                    (sim_env 1000 (one_page_site 2))))
    = ([] ++ evs)%list /\
    backoff_trace (rm_config self) 0 evs.
Proof.
  intros self.
  assert (H1 : 0 <= max_retries (rm_config self)) by (vm_compute; discriminate).
  assert (H2 : (0 <= retry_delay (rm_config self))%Q) by (vm_compute; discriminate).
  split; [exact H1|]. split; [exact H2|].
  exact (@execute_with_retry_backoff SimWorld SimRuntime SimRuntimeLaws _ self
           (external (page_goto "https://suumo.jp/chintai/tokyo/ek_17640/"))
           (sim_env 1000 (one_page_site 2)) H1 H2).
Defined.

(** *** Construction and the semaphore *)

Section ConstructionFacts.
Context {W : Type} `{Runtime W}.

Lemma wait_for_request_blocked (request_type : string) (rl : RateLimiter)
    (env : @Env W) :
  _semaphore rl <= 0 ->
  wait_for_request request_type (rl, env) = (Blocked, (rl, env)).
Proof.
  intros Hsem. unfold wait_for_request, async_with_semaphore, semaphore_acquire.
  unfold bind at 1. unfold bind at 1. unfold get_self at 1. cbn [fst snd].
  apply Z.ltb_ge in Hsem. rewrite Hsem. reflexivity.
Qed.

Lemma PoliteRequestManager_init_ok (config : RateLimitConfig) (env : @Env W) :
  0 <= concurrent_limit config ->
  PoliteRequestManager_init config env
  = (Return (fresh_manager config (time_time (world env))), env).
Proof.
  intros Hok.
  unfold PoliteRequestManager_init, RateLimiter_init, RequestMonitor_init,
    asyncio_Semaphore, bind, time, ret, raise.
  apply Z.ltb_ge in Hok. rewrite Hok. reflexivity.
Qed.

(** The constructor refuses a negative [concurrent_limit] with the
    semaphore's [ValueError] and accepts every other value; with
    [concurrent_limit = 0] the manager is built, but the first request
    waits for a slot for ever: the operation is never called and nothing
    is recorded. *)
Theorem concurrent_limit_edge (config : RateLimitConfig) (env : @Env W) :
  (concurrent_limit config < 0 ->
   exists msg, PoliteRequestManager_init config env = (Raise (ValueError msg), env)) /\
  (0 <= concurrent_limit config ->
   PoliteRequestManager_init config env
   = (Return (fresh_manager config (time_time (world env))), env)) /\
  (concurrent_limit config = 0 ->
   forall (A : Type) (func : M W A) (request_type : string) (now : Q),
     make_request func request_type (fresh_manager config now, env)
     = (Blocked, (fresh_manager config now, env))).
Proof.
  split; [|split].
  - intros Hneg.
    unfold PoliteRequestManager_init, RateLimiter_init, RequestMonitor_init,
      asyncio_Semaphore, bind, time, ret, raise.
    apply Z.ltb_lt in Hneg. rewrite Hneg. eauto.
  - apply PoliteRequestManager_init_ok.
  - intros Hzero A func request_type now.
    unfold make_request. unfold bind at 1. unfold on_attr at 1. cbn [fst snd].
    rewrite wait_for_request_blocked by (cbn; lia).
    reflexivity.
Qed.

(** [__init__] of the scraper returns, in both modes, a scraper with no
    property, one free slot and a configuration that meets the side
    conditions of the data model. *)
Lemma PoliteSuumoScraper_init_fresh `{Browser W} (stations_ : list string)
    (target_count_ : Z) (prefecture_ : string) (polite_mode : bool) (env : @Env W) :
  PoliteSuumoScraper_init stations_ target_count_ prefecture_ polite_mode env
  = (Return (settings stations_ target_count_ prefecture_,
             fresh_scraper polite_mode (time_time (world env))), env) /\
  slots (fresh_scraper polite_mode (time_time (world env))) = 1 /\
  valid_config (polite_config polite_mode).
Proof.
  split; [|split].
  - unfold PoliteSuumoScraper_init. unfold bind at 1.
    fold (polite_config polite_mode).
    rewrite PoliteRequestManager_init_ok by (destruct polite_mode; discriminate).
    reflexivity.
  - destruct polite_mode; reflexivity.
  - destruct polite_mode; unfold valid_config; cbn; repeat split; discriminate.
Qed.

End ConstructionFacts.

(** ** Station table: further properties *)

Lemma sorted_keys_elem (d : gmap string string) (k : string) :
  k ∈ sorted_keys d <-> k ∈ dom d.
Proof.
  unfold sorted_keys. rewrite merge_sort_Permutation.
  rewrite elem_of_dom. rewrite list_elem_of_fmap. split.
  - intros [[k' v] [-> Hin]]. apply elem_of_map_to_list in Hin. eauto.
  - intros [v Hv]. exists (k, v). split; [reflexivity|].
    apply elem_of_map_to_list. exact Hv.
Qed.

Lemma get_station_url_returns_iff (station prefecture_ : string) :
  (exists url, get_station_url station prefecture_ = Return url)
  <-> station ∈ dom MAJOR_STATIONS.
Proof.
  destruct (get_station_url_cases station prefecture_)
    as [(Hout & msg & Hurl)|(code & Hcode & Hurl)]; rewrite Hurl.
  - split; [intros [url Heq]; discriminate|contradiction].
  - split; [|eauto]. intros _. apply elem_of_dom. eauto.
Qed.

(** [get_supported_stations] is sorted, has no duplicates, and holds
    exactly the names for which [get_station_url] returns a URL. *)
Theorem get_supported_stations_complete (prefecture_ : string) :
  StronglySorted String.le get_supported_stations /\
  NoDup get_supported_stations /\
  forall station,
    station ∈ get_supported_stations
    <-> exists url, get_station_url station prefecture_ = Return url.
Proof.
  unfold get_supported_stations. split; [|split].
  - apply StronglySorted_merge_sort; apply _.
  - unfold sorted_keys. rewrite merge_sort_Permutation.
    apply NoDup_fst_map_to_list.
  - intros station. rewrite sorted_keys_elem, get_station_url_returns_iff.
    reflexivity.
Qed.

(** The check of [main] lets a station list through exactly when
    [get_station_url] returns a URL for each of its names; what it
    reports are the names, in their order, for which it raises. *)
Theorem invalid_stations_empty_iff (stations_ : list string) (prefecture_ : string) :
  (invalid_stations stations_ = []
   <-> Forall (fun s => exists url, get_station_url s prefecture_ = Return url) stations_) /\
  (forall s, In s (invalid_stations stations_)
             <-> In s stations_ /\
                 exists msg, get_station_url s prefecture_ = Raise (ValueError msg)).
Proof.
  assert (Hin : forall s,
             negb (bool_decide (s ∈ get_supported_stations)) = true
             <-> exists msg, get_station_url s prefecture_ = Raise (ValueError msg)).
  { intros s. rewrite negb_true_iff, bool_decide_eq_false.
    unfold get_supported_stations. rewrite sorted_keys_elem.
    destruct (get_station_url_cases s prefecture_)
      as [(Hout & msg & Hurl)|(code & Hcode & Hurl)]; rewrite Hurl.
    - split; eauto.
    - split; [|intros [msg Heq]; discriminate].
      intros Hout. exfalso. apply Hout. apply elem_of_dom. eauto. }
  split.
  - unfold invalid_stations. induction stations_ as [|s rest IH]; cbn [List.filter].
    + split; [constructor|reflexivity].
    + destruct (negb (bool_decide (s ∈ get_supported_stations))) eqn:Hs.
      * split; [discriminate|]. intros Hall. inversion Hall as [|? ? [url Hurl] _]; subst.
        apply Hin in Hs. destruct Hs as [msg Hmsg]. congruence.
      * rewrite IH. split.
        -- intros Hall. constructor; [|exact Hall].
           apply get_station_url_returns_iff.
           apply negb_false_iff, bool_decide_eq_true in Hs.
           apply sorted_keys_elem in Hs. exact Hs.
        -- intros Hall. inversion Hall; assumption.
  - intros s. unfold invalid_stations. rewrite List.filter_In, Hin. reflexivity.
Qed.

Lemma yamanote_in_major :
  map_Forall (fun k v => MAJOR_STATIONS !! k = Some v) YAMANOTE_STATIONS.
Proof.
  apply map_Forall_to_list.
  apply (bool_decide_unpack (Forall _ (map_to_list YAMANOTE_STATIONS))).
  vm_compute. exact I.
Qed.

(** Every Yamanote station is a supported station with the code of the
    Yamanote table, so that the station list of [--yamanote] passes the
    check of [main]. *)
Theorem yamanote_stations_supported (prefecture_ : string) :
  (forall station,
      is_yamanote_station station = true ->
      exists code,
        YAMANOTE_STATIONS !! station = Some code /\
        get_station_url station prefecture_
        = Return ("https://suumo.jp/chintai/" ++ prefecture_ ++ "/" ++ code ++ "/")) /\
  (forall station, station ∈ get_yamanote_stations <-> is_yamanote_station station = true) /\
  invalid_stations get_yamanote_stations = [].
Proof.
  assert (Hurl : forall station,
             is_yamanote_station station = true ->
             exists code,
               YAMANOTE_STATIONS !! station = Some code /\
               get_station_url station prefecture_
               = Return ("https://suumo.jp/chintai/" ++ prefecture_ ++ "/" ++ code ++ "/")).
  { intros station Hy. unfold is_yamanote_station in Hy.
    apply bool_decide_eq_true in Hy. apply elem_of_dom in Hy. destruct Hy as [code Hcode].
    exists code. split; [exact Hcode|].
    pose proof (yamanote_in_major station code Hcode) as Hmajor.
    destruct (get_station_url_cases station prefecture_)
      as [(Hout & _)|(code' & Hcode' & Hret)].
    - exfalso. apply Hout. apply elem_of_dom. exists code. exact Hmajor.
    - rewrite Hret. congruence. }
  assert (Hmem : forall station,
             station ∈ get_yamanote_stations <-> is_yamanote_station station = true).
  { intros station. unfold get_yamanote_stations, is_yamanote_station.
    rewrite sorted_keys_elem, bool_decide_eq_true. reflexivity. }
  split; [exact Hurl|]. split; [exact Hmem|].
  unfold invalid_stations.
  assert (Hall : forall l : list string,
             (forall s, In s l -> s ∈ get_supported_stations) ->
             List.filter (fun s => negb (bool_decide (s ∈ get_supported_stations))) l = []).
  { induction l as [|s l IH]; intros Hl; cbn [List.filter]; [reflexivity|].
    rewrite (bool_decide_eq_true_2 _ (Hl s (or_introl eq_refl))). cbn [negb].
    apply IH. intros s' Hs'. apply Hl. right. exact Hs'. }
  apply Hall. intros s Hs. apply list_elem_of_In in Hs. apply Hmem in Hs.
  destruct (Hurl s Hs) as (code & _ & Hret).
  unfold get_supported_stations. apply sorted_keys_elem.
  apply (get_station_url_returns_iff s prefecture_). eauto.
Qed.

(** ** Layout statistics *)

Lemma rooms_with_layout_cons (l : string) (r : RoomInfo) (rs : list RoomInfo) :
  rooms_with_layout l (r :: rs)
  = (if String.eqb (layout r) l then 1 else 0) + rooms_with_layout l rs.
Proof.
  unfold rooms_with_layout, len. cbn [List.filter].
  destruct (String.eqb (layout r) l); cbn [length]; lia.
Qed.

Lemma rooms_with_layout_nonneg (l : string) (rs : list RoomInfo) :
  0 <= rooms_with_layout l rs.
Proof. unfold rooms_with_layout, len. lia. Qed.

Lemma rooms_with_layout_app (l : string) (a b : list RoomInfo) :
  rooms_with_layout l (a ++ b) = rooms_with_layout l a + rooms_with_layout l b.
Proof.
  unfold rooms_with_layout, len. rewrite List.filter_app, length_app. lia.
Qed.

Lemma fold_count_layout_lookup (rs : list RoomInfo) (m : gmap string Z) (l : string) :
  fold_left count_layout rs m !! l
  = if str_bool l && (0 <? rooms_with_layout l rs)
    then Some (default 0 (m !! l) + rooms_with_layout l rs)
    else m !! l.
Proof.
  revert m. induction rs as [|r rs IH]; intros m.
  - cbn [fold_left]. rewrite andb_false_r. reflexivity.
  - cbn [fold_left]. rewrite IH, rooms_with_layout_cons.
    pose proof (rooms_with_layout_nonneg l rs) as Hn.
    unfold count_layout.
    destruct (String.eqb (layout r) l) eqn:He.
    + apply String.eqb_eq in He. subst l.
      destruct (str_bool (layout r)) eqn:Hb; cbn [andb].
      * rewrite lookup_insert_eq. cbn [default from_option id].
        replace (0 <? 1 + rooms_with_layout (layout r) rs) with true
          by (symmetry; apply Z.ltb_lt; lia).
        destruct (0 <? rooms_with_layout (layout r) rs) eqn:Hp.
        -- f_equal. ring.
        -- apply Z.ltb_ge in Hp. f_equal.
           replace (rooms_with_layout (layout r) rs) with 0 by lia. ring.
      * reflexivity.
    + apply String.eqb_neq in He.
      replace (0 + rooms_with_layout l rs) with (rooms_with_layout l rs) by lia.
      destruct (str_bool (layout r)); [|reflexivity].
      rewrite lookup_insert_ne by exact He. reflexivity.
Qed.

Lemma layout_distribution_flat (props : list PropertyInfo) (m : gmap string Z) :
  fold_left (fun layout_count prop => fold_left count_layout (rooms prop) layout_count)
            props m
  = fold_left count_layout (concat (map rooms props)) m.
Proof.
  revert m. induction props as [|p props IH]; intros m; cbn [fold_left map concat].
  - reflexivity.
  - rewrite fold_left_app. apply IH.
Qed.

Lemma layout_distribution_lookup (self : ScrapingResult) (l : string) :
  layout_distribution self !! l
  = if str_bool l && (0 <? rooms_with_layout l (all_rooms self))
    then Some (rooms_with_layout l (all_rooms self))
    else None.
Proof.
  unfold layout_distribution, all_rooms.
  rewrite layout_distribution_flat, fold_count_layout_lookup.
  rewrite lookup_empty. cbn [default].
  destruct (str_bool l && (0 <? _)); [f_equal; lia|reflexivity].
Qed.

(** [layout_distribution] counts rooms: a layout is a key exactly when it
    is a non-empty string carried by some room of the result, and its
    value is the number of rooms of the result with that layout. *)
Theorem layout_distribution_counts (self : ScrapingResult) (l : string) :
  layout_distribution self !! l
  = if str_bool l && (0 <? rooms_with_layout l (all_rooms self))
    then Some (rooms_with_layout l (all_rooms self))
    else None.
Proof. apply layout_distribution_lookup. Qed.

Lemma rooms_with_layout_pos (l : string) (rs : list RoomInfo) :
  0 < rooms_with_layout l rs <-> exists r, In r rs /\ layout r = l.
Proof.
  induction rs as [|r rs IH].
  - unfold rooms_with_layout, len. cbn. split; [lia|intros (r & [] & _)].
  - rewrite rooms_with_layout_cons.
    pose proof (rooms_with_layout_nonneg l rs) as Hn.
    destruct (String.eqb (layout r) l) eqn:He.
    + apply String.eqb_eq in He. split; [|lia].
      intros _. exists r. split; [left; reflexivity|exact He].
    + apply String.eqb_neq in He. rewrite Z.add_0_l, IH. split.
      * intros (r' & Hin & Hl). exists r'. split; [right; exact Hin|exact Hl].
      * intros (r' & [Heq|Hin] & Hl); [subst; contradiction|eauto].
Qed.

(** The keys of [layout_distribution] are the layouts that
    [available_layouts] reports for some property of the result; every
    count is at least 1 and the empty layout is never a key. *)
Theorem layout_distribution_keys (self : ScrapingResult) (l : string) :
  (l ∈ dom (layout_distribution self)
   <-> exists prop, In prop (sr_properties self) /\ l ∈ available_layouts prop) /\
  (forall n, layout_distribution self !! l = Some n -> 1 <= n /\ l <> "").
Proof.
  split.
  - rewrite elem_of_dom, layout_distribution_lookup.
    unfold all_rooms, available_layouts.
    destruct (str_bool l) eqn:Hb; cbn [andb].
    + destruct (0 <? rooms_with_layout l (concat (map rooms (sr_properties self)))) eqn:Hp.
      * apply Z.ltb_lt, rooms_with_layout_pos in Hp. destruct Hp as (r & Hin & Hl).
        apply in_concat in Hin. destruct Hin as (rs & Hrs & Hr).
        apply in_map_iff in Hrs. destruct Hrs as (prop & <- & Hprop).
        split; [intros _|eauto].
        exists prop. split; [exact Hprop|].
        apply elem_of_list_to_set, list_elem_of_In, in_map_iff.
        exists r. split; [exact Hl|]. apply List.filter_In. split; [exact Hr|].
        rewrite Hl. exact Hb.
      * split; [intros [n Hn]; discriminate|].
        intros (prop & Hprop & Hl). exfalso.
        apply elem_of_list_to_set, list_elem_of_In, in_map_iff in Hl.
        destruct Hl as (r & Hl & Hr). apply List.filter_In in Hr. destruct Hr as [Hr _].
        apply Z.ltb_ge in Hp.
        assert (0 < rooms_with_layout l (concat (map rooms (sr_properties self)))).
        { apply rooms_with_layout_pos. exists r. split; [|exact Hl].
          apply in_concat. exists (rooms prop). split; [|exact Hr].
          apply in_map. exact Hprop. }
        lia.
    + split; [intros [n Hn]; discriminate|].
      intros (prop & Hprop & Hl). exfalso.
      apply elem_of_list_to_set, list_elem_of_In, in_map_iff in Hl.
      destruct Hl as (r & Hl & Hr). apply List.filter_In in Hr. destruct Hr as [_ Hr].
      rewrite Hl in Hr. congruence.
  - intros n. rewrite layout_distribution_lookup.
    destruct (str_bool l) eqn:Hb; cbn [andb]; [|discriminate].
    destruct (0 <? rooms_with_layout l (all_rooms self)) eqn:Hp; [|discriminate].
    intros [= <-]. apply Z.ltb_lt in Hp. split; [lia|].
    intros ->. discriminate.
Qed.

(** ** The data model: validators *)

Lemma str_length_app (a b : string) :
  String.length (a ++ b) = (String.length a + String.length b)%nat.
Proof. induction a as [|c a IH]; simpl; [reflexivity|]. rewrite IH. reflexivity. Qed.

Lemma list_ascii_of_string_app (a b : string) :
  list_ascii_of_string (a ++ b)
  = (list_ascii_of_string a ++ list_ascii_of_string b)%list.
Proof. induction a as [|c a IH]; simpl; [reflexivity|]. rewrite IH. reflexivity. Qed.

Lemma string_of_list_ascii_app (a b : list ascii) :
  string_of_list_ascii (a ++ b)%list
  = string_of_list_ascii a ++ string_of_list_ascii b.
Proof. induction a as [|c a IH]; simpl; [reflexivity|]. rewrite IH. reflexivity. Qed.

Lemma str_rev_involutive (s : string) : str_rev (str_rev s) = s.
Proof.
  unfold str_rev. rewrite list_ascii_of_string_of_list_ascii, rev_involutive.
  apply string_of_list_ascii_of_string.
Qed.

Lemma str_rev_app (a b : string) : str_rev (a ++ b) = str_rev b ++ str_rev a.
Proof.
  unfold str_rev. rewrite list_ascii_of_string_app, rev_app_distr.
  apply string_of_list_ascii_app.
Qed.

Section StripFacts.
Variables (two : ascii -> ascii -> bool) (three : ascii -> ascii -> ascii -> bool).

(** What is removed is a prefix; nothing is removed exactly when the
    result is as long as the string. *)
Lemma lstrip_by_split (n : nat) :
  forall s, (String.length s <= n)%nat ->
    exists w, s = w ++ lstrip_by two three s /\
              lstrip_by two three (lstrip_by two three s) = lstrip_by two three s.
Proof.
  induction n as [|n IH]; intros s Hn.
  - destruct s; [|cbn in Hn; lia]. exists "". split; reflexivity.
  - destruct s as [|a s1]; [exists ""; split; reflexivity|].
    cbn [String.length] in Hn. cbn [lstrip_by].
    assert (Hfix : forall s0,
               lstrip_by two three s0 = s0 ->
               exists w, s0 = w ++ s0 /\
                         lstrip_by two three s0 = s0).
    { intros s0 Hs0. exists "". split; [reflexivity|exact Hs0]. }
    destruct (isspace a) eqn:Ha.
    { destruct (IH s1 ltac:(lia)) as (w & Hw & Hi).
      exists (String a w). split; [|exact Hi].
      change (String a s1 = String a (w ++ lstrip_by two three s1)).
      f_equal. exact Hw. }
    destruct s1 as [|b s2].
    { exists "". split; [reflexivity|]. cbn [lstrip_by]. rewrite Ha. reflexivity. }
    cbn [String.length] in Hn.
    destruct (two a b) eqn:Hab.
    { destruct (IH s2 ltac:(lia)) as (w & Hw & Hi).
      exists (String a (String b w)). split; [|exact Hi].
      change (String a (String b s2)
              = String a (String b (w ++ lstrip_by two three s2))).
      do 2 f_equal. exact Hw. }
    destruct s2 as [|c s3].
    { exists "". split; [reflexivity|]. cbn [lstrip_by]. rewrite Ha, Hab. reflexivity. }
    cbn [String.length] in Hn.
    destruct (three a b c) eqn:Habc.
    { destruct (IH s3 ltac:(lia)) as (w & Hw & Hi).
      exists (String a (String b (String c w))). split; [|exact Hi].
      change (String a (String b (String c s3))
              = String a (String b (String c (w ++ lstrip_by two three s3)))).
      do 3 f_equal. exact Hw. }
    exists "". split; [reflexivity|]. cbn [lstrip_by]. rewrite Ha, Hab, Habc.
    reflexivity.
Qed.

Lemma lstrip_by_idem (s : string) :
  lstrip_by two three (lstrip_by two three s) = lstrip_by two three s.
Proof.
  destruct (lstrip_by_split (String.length s) s (Nat.le_refl _)) as (w & _ & Hi).
  exact Hi.
Qed.

Lemma lstrip_by_length (s : string) :
  (String.length (lstrip_by two three s) <= String.length s)%nat.
Proof.
  destruct (lstrip_by_split (String.length s) s (Nat.le_refl _)) as (w & Hw & _).
  rewrite Hw at 2. rewrite str_length_app. lia.
Qed.

(** A prefix of a string that begins with no white space character
    begins with none either. *)
Lemma lstrip_by_fixed_prefix (r t : string) :
  lstrip_by two three (r ++ t) = r ++ t -> lstrip_by two three r = r.
Proof.
  assert (Hshort : forall (x y : string),
             (String.length x < String.length y)%nat ->
             lstrip_by two three x <> y).
  { intros x y Hlt Heq. pose proof (lstrip_by_length x) as Hl.
    rewrite Heq in Hl. lia. }
  destruct r as [|a r1]; [reflexivity|].
  change (String a r1 ++ t) with (String a (r1 ++ t)).
  destruct (isspace a) eqn:Ha.
  { cbn [lstrip_by]. rewrite Ha.
    intros Heq. exfalso. revert Heq. apply Hshort. cbn [String.length]. lia. }
  destruct r1 as [|b r2]; [intros _; cbn [lstrip_by]; rewrite Ha; reflexivity|].
  change (String b r2 ++ t) with (String b (r2 ++ t)).
  destruct (two a b) eqn:Hab.
  { cbn [lstrip_by]. rewrite Ha, Hab.
    intros Heq. exfalso. revert Heq. apply Hshort. cbn [String.length]. lia. }
  destruct r2 as [|c r3];
    [intros _; cbn [lstrip_by]; rewrite Ha, Hab; reflexivity|].
  change (String c r3 ++ t) with (String c (r3 ++ t)).
  destruct (three a b c) eqn:Habc.
  { cbn [lstrip_by]. rewrite Ha, Hab, Habc.
    intros Heq. exfalso. revert Heq. apply Hshort. cbn [String.length]. lia. }
  intros _. cbn [lstrip_by]. rewrite Ha, Hab, Habc. reflexivity.
Qed.

End StripFacts.

Lemma lstrip_idem (s : string) : lstrip (lstrip s) = lstrip s.
Proof. apply lstrip_by_idem. Qed.

Lemma lstrip_strip (s : string) : lstrip (strip s) = strip s.
Proof.
  unfold strip, rstrip. set (a := lstrip s).
  set (two' := fun x y => two_byte_space y x).
  set (three' := fun x y z => three_byte_space z y x).
  destruct (lstrip_by_split two' three' (String.length (str_rev a)) (str_rev a)
              (Nat.le_refl _)) as (w & Hw & _).
  apply (lstrip_by_fixed_prefix two_byte_space three_byte_space _ (str_rev w)).
  rewrite <- str_rev_app, <- Hw, str_rev_involutive.
  apply lstrip_idem.
Qed.

Lemma strip_idem (s : string) : strip (strip s) = strip s.
Proof.
  unfold strip at 1. rewrite lstrip_strip.
  unfold strip, rstrip. rewrite str_rev_involutive, lstrip_by_idem. reflexivity.
Qed.

Lemma validate_required_text_cases (v : string) :
  validate_required_text v = if nonblank v then Some (strip v) else None.
Proof.
  unfold validate_required_text, nonblank.
  destruct (str_bool v), (str_bool (strip v)); reflexivity.
Qed.

Lemma PropertyInfo_init_cases (data : PropertyData) (now : Q) :
  if nonblank (pd_title data) && nonblank (pd_address data)
     && negb (len (pd_rooms data) =? 0)
  then exists p,
         PropertyInfo_init data now = Return p /\
         title p = strip (pd_title data) /\ address p = strip (pd_address data) /\
         strip (title p) = title p /\ strip (address p) = address p /\
         str_bool (title p) = true /\ str_bool (address p) = true /\
         rooms p = pd_rooms data /\ station_name p = None /\ scraped_at p = now
  else exists msg, PropertyInfo_init data now = Raise (ValidationError msg).
Proof.
  unfold PropertyInfo_init. rewrite !validate_required_text_cases.
  destruct (nonblank (pd_title data)) eqn:Ht; cbn [andb]; [|eauto].
  destruct (nonblank (pd_address data)) eqn:Ha; cbn [andb]; [|eauto].
  destruct (pd_rooms data) as [|r rs] eqn:Hr.
  - unfold len. cbn. exists "PropertyInfo". reflexivity.
  - unfold len. cbn [length validate_rooms].
    replace (Z.of_nat (S (length rs)) =? 0) with false by (symmetry; apply Z.eqb_neq; lia).
    cbn [negb]. eexists. split; [reflexivity|].
    cbn [title address rooms station_name scraped_at].
    unfold nonblank in Ht, Ha. apply andb_true_iff in Ht, Ha.
    rewrite !strip_idem. repeat split; tauto.
Qed.

(** [PropertyInfo(...)] is accepted exactly when title and address are not
    blank and there is at least one room; the accepted property carries
    the stripped title and address, which are not empty and which
    stripping again leaves unchanged, all rooms passed in and no station
    name.  Every other input raises a [ValidationError]. *)
Theorem PropertyInfo_init_accepts_iff (data : PropertyData) (now : Q) :
  if nonblank (pd_title data) && nonblank (pd_address data)
     && negb (len (pd_rooms data) =? 0)
  then exists p,
         PropertyInfo_init data now = Return p /\
         title p = strip (pd_title data) /\ address p = strip (pd_address data) /\
         strip (title p) = title p /\ strip (address p) = address p /\
         str_bool (title p) = true /\ str_bool (address p) = true /\
         rooms p = pd_rooms data /\ station_name p = None /\ scraped_at p = now
  else exists msg, PropertyInfo_init data now = Raise (ValidationError msg).
Proof. apply PropertyInfo_init_cases. Qed.

Lemma prefix_app (p b h : string) :
  String.prefix p b = true -> String.prefix p (b ++ h) = true.
Proof.
  revert b. induction p as [|c p IH]; intros b.
  - intros _. destruct (b ++ h); reflexivity.
  - destruct b as [|c' b]; simpl; [discriminate|].
    destruct (ascii_dec c c'); [apply IH|discriminate].
Qed.

(** ** The extractor *)

Section ExtractorFacts.
Context {W : Type} `{Runtime W} `{Browser W}.

Local Abbreviation St := (PoliteSuumoScraper * @Env W)%type.

Lemma room_data_of_accepted (self : Settings) (element : Element) (row : RoomRow) :
  String.prefix "http" (base_url self) = true ->
  RoomInfo_init (room_data_of self element row) = Return (room_of self element row).
Proof.
  intros Hb. unfold RoomInfo_init, room_of, validate_url.
  cbn [rd_detail_url room_data_of].
  destruct (row_href row) as [e|[href|]]; try reflexivity.
  destruct (str_bool href); [|reflexivity].
  rewrite (prefix_app _ _ href Hb), andb_false_r. reflexivity.
Qed.

Lemma extract_rooms_all_accepted (self : Settings) (element : Element)
    (room_rows : list RoomRow) (rooms_info : list RoomInfo) (s : St) :
  String.prefix "http" (base_url self) = true ->
  extract_rooms self element room_rows rooms_info s
  = (Return (rooms_info ++ map (room_of self element) room_rows)%list, s).
Proof.
  intros Hb. revert rooms_info.
  induction room_rows as [|row rest IH]; intros rooms_info.
  - cbn. rewrite app_nil_r. reflexivity.
  - cbn [extract_rooms map]. rewrite (room_data_of_accepted self element row Hb).
    rewrite IH, <- app_assoc. reflexivity.
Qed.

(** With a [base_url] that starts with [http], as [__init__] sets it, no
    row is ever refused: the extractor appends one room per row, in the
    order of the rows, records no validation error and touches nothing
    else.  All rooms of an element carry the same six texts, those looked
    up on the element; they differ in [detail_url] only. *)
Theorem extract_rooms_keeps_every_row (self : Settings) (element : Element)
    (room_rows : list RoomRow) (rooms_info : list RoomInfo) (s : St) :
  String.prefix "http" (base_url self) = true ->
  exists new,
    extract_rooms self element room_rows rooms_info s
    = (Return (rooms_info ++ new)%list, s) /\
    length new = length room_rows /\
    Forall (fun room =>
              floor room = el_floor element /\ rent room = el_rent element /\
              admin_fee room = el_admin_fee element /\
              deposit_key_money room = el_deposit_key_money element /\
              layout room = el_layout element /\ area room = el_area element)
           new.
Proof.
  intros Hb. exists (map (room_of self element) room_rows).
  split; [apply extract_rooms_all_accepted; exact Hb|].
  split; [apply length_map|].
  apply List.Forall_forall. intros room Hin. apply in_map_iff in Hin.
  destruct Hin as (row & <- & _). repeat split.
Qed.

Lemma extract_property_info_cases (self : Settings) (element : Element)
    (sc : PoliteSuumoScraper) (env : @Env W) :
  String.prefix "http" (base_url self) = true ->
  let room_rows := element_rows element in
  if nonblank (el_title element) && nonblank (el_address element)
     && negb (len room_rows =? 0)
  then exists p,
         extract_property_info self element (sc, env) = (Return (Some p), (sc, env)) /\
         title p = strip (el_title element) /\
         address p = strip (el_address element) /\
         rooms p = map (room_of self element) room_rows /\
         len (rooms p) = len room_rows /\
         scraped_at p = time_time (world env) /\
         available_layouts p ⊆ {[ el_layout element ]}
  else exists data msg,
         extract_property_info self element (sc, env)
         = (Return None,
            (set_validation_errors
               (validation_errors sc ++ [PropertyError data msg])%list sc, env)) /\
         pd_title data = el_title element /\ pd_address data = el_address element /\
         pd_rooms data = map (room_of self element) room_rows.
Proof.
  intros Hb room_rows.
  set (data := {| pd_title := el_title element; pd_address := el_address element;
                  pd_access := el_access element;
                  pd_building_age_area := el_building_age_area element;
                  pd_rooms := map (room_of self element) room_rows |}).
  pose (rooms_m := match el_room_rows element return M St (list RoomInfo) with
                   | inr room_rows => extract_rooms self element room_rows []
                   | inl _ => ret []
                   end).
  assert (Hrooms : rooms_m (sc, env)
                   = (Return (map (room_of self element) room_rows), (sc, env))).
  { subst room_rows rooms_m. unfold element_rows.
    destruct (el_room_rows element) as [e|rows]; [reflexivity|].
    rewrite (extract_rooms_all_accepted self element rows [] (sc, env) Hb).
    reflexivity. }
  assert (Hlen : len (pd_rooms data) = len room_rows).
  { unfold len. cbn [pd_rooms data]. rewrite length_map. reflexivity. }
  pose proof (PropertyInfo_init_cases data (time_time (world env))) as Hinit.
  rewrite Hlen in Hinit. cbn [pd_title pd_address data] in Hinit.
  assert (Hrun : extract_property_info self element (sc, env)
                 = match PropertyInfo_init data (time_time (world env)) with
                   | Return p => (Return (Some p), (sc, env))
                   | Raise e =>
                       (Return None,
                        (set_validation_errors
                           (validation_errors sc ++ [PropertyError data (exn_str e)])%list
                           sc, env))
                   | Blocked => (Blocked, (sc, env))
                   end).
  { unfold extract_property_info, try_except. unfold bind at 1.
    fold rooms_m. rewrite Hrooms. fold data.
    unfold bind at 1. unfold in_env at 1, time at 1. cbn [fst snd].
    destruct (PropertyInfo_init_outcome data (time_time (world env)))
      as [(p & Hp & _)|(msg & Hmsg)].
    - rewrite Hp. reflexivity.
    - rewrite Hmsg. reflexivity. }
  rewrite Hrun. clear Hrun.
  destruct (nonblank (el_title element) && nonblank (el_address element)
            && negb (len room_rows =? 0)).
  - destruct Hinit as (p & Hp & Ht & Ha & _ & _ & _ & _ & Hr & _ & Hat).
    rewrite Hp. exists p. split; [reflexivity|].
    split; [exact Ht|]. split; [exact Ha|]. split; [exact Hr|].
    split; [rewrite Hr; exact Hlen|]. split; [exact Hat|].
    unfold available_layouts. rewrite Hr. intros l Hl.
    apply elem_of_list_to_set, list_elem_of_In, in_map_iff in Hl.
    destruct Hl as (room & <- & Hroom). apply List.filter_In in Hroom.
    destruct Hroom as [Hroom _]. apply in_map_iff in Hroom.
    destruct Hroom as (row & <- & _). apply elem_of_singleton. reflexivity.
  - destruct Hinit as (msg & Hmsg). rewrite Hmsg.
    exists data, (exn_str (ValidationError msg)). split; [reflexivity|].
    repeat split.
Qed.

(** With a [base_url] that starts with [http], [extract_property_info]
    returns a property exactly for an element with a non-blank title, a
    non-blank address and at least one row; the property has one room
    per row, the time of extraction and at most one layout.  For every
    other element it returns [None], appends exactly one entry of type
    ["property"] to [validation_errors] and changes nothing else. *)
Theorem extract_property_info_accepts_iff (self : Settings) (element : Element)
    (sc : PoliteSuumoScraper) (env : @Env W) :
  String.prefix "http" (base_url self) = true ->
  let room_rows := element_rows element in
  if nonblank (el_title element) && nonblank (el_address element)
     && negb (len room_rows =? 0)
  then exists p,
         extract_property_info self element (sc, env) = (Return (Some p), (sc, env)) /\
         title p = strip (el_title element) /\
         address p = strip (el_address element) /\
         rooms p = map (room_of self element) room_rows /\
         len (rooms p) = len room_rows /\
         scraped_at p = time_time (world env) /\
         available_layouts p ⊆ {[ el_layout element ]}
  else exists data msg,
         extract_property_info self element (sc, env)
         = (Return None,
            (set_validation_errors
               (validation_errors sc ++ [PropertyError data msg])%list sc, env)) /\
         pd_title data = el_title element /\ pd_address data = el_address element /\
         pd_rooms data = map (room_of self element) room_rows.
Proof. apply extract_property_info_cases. Qed.

End ExtractorFacts.

Lemma extract_rooms_keeps_every_row_witness :
  let self := settings ["渋谷"] 10 "tokyo" in
  String.prefix "http" (base_url self) = true /\
  exists new,
    extract_rooms self (sim_element "a" "x" 2)
      [ {| row_href := inr (Some "/chintai/jnc_000012345678/") |};
        {| row_href := inl (Exception "detached") |} ] []
      (fresh_scraper true 1000, sim_env 1000 [])
    = (Return new, (fresh_scraper true 1000, sim_env 1000 [])) /\
    length new = 2%nat.
Proof.
  intros self.
  assert (Hb : String.prefix "http" (base_url self) = true) by reflexivity.
  split; [exact Hb|].
  destruct (extract_rooms_keeps_every_row self (sim_element "a" "x" 2)
              [ {| row_href := inr (Some "/chintai/jnc_000012345678/") |};
                {| row_href := inl (Exception "detached") |} ] []
              (fresh_scraper true 1000, sim_env 1000 []) Hb)
    as (new & Heq & Hlen & _).
  exists new. split; [exact Heq|exact Hlen].
Defined.

Lemma extract_property_info_accepts_iff_witness :
  let self := settings ["渋谷"] 10 "tokyo" in
  String.prefix "http" (base_url self) = true /\
  (exists p,
      extract_property_info self (sim_element " a " "x" 2)
        (fresh_scraper true 1000, sim_env 1000 [])
      = (Return (Some p), (fresh_scraper true 1000, sim_env 1000 [])) /\
      title p = "a" /\ len (rooms p) = 2) /\
  (exists sc',
      extract_property_info self (sim_element "  " "x" 2)
        (fresh_scraper true 1000, sim_env 1000 [])
      = (Return None, (sc', sim_env 1000 [])) /\
      length (validation_errors sc') = 1%nat).
Proof.
  intros self.
  assert (Hb : String.prefix "http" (base_url self) = true) by reflexivity.
  split; [exact Hb|]. split.
  - pose proof (extract_property_info_accepts_iff self (sim_element " a " "x" 2)
                  (fresh_scraper true 1000) (sim_env 1000 []) Hb) as Hacc.
    cbv zeta in Hacc.
    change (nonblank (el_title (sim_element " a " "x" 2))
            && nonblank (el_address (sim_element " a " "x" 2))
            && negb (len (element_rows (sim_element " a " "x" 2)) =? 0))
      with true in Hacc.
    destruct Hacc as (p & Heq & Ht & _ & _ & Hlen & _).
    exists p. split; [exact Heq|]. split; [exact Ht|exact Hlen].
  - pose proof (extract_property_info_accepts_iff self (sim_element "  " "x" 2)
                  (fresh_scraper true 1000) (sim_env 1000 []) Hb) as Hrej.
    cbv zeta in Hrej.
    change (nonblank (el_title (sim_element "  " "x" 2))
            && nonblank (el_address (sim_element "  " "x" 2))
            && negb (len (element_rows (sim_element "  " "x" 2)) =? 0))
      with false in Hrej.
    destruct Hrej as (data & msg & Heq & _).
    eexists. split; [exact Heq|]. reflexivity.
Defined.

(** ** The traffic of a station *)

Lemma count_records_app (a b : list Event) :
  count_records (a ++ b) = (count_records a + count_records b)%nat.
Proof. unfold count_records. rewrite List.filter_app, length_app. reflexivity. Qed.

Lemma count_records_sleeps (l : list Event) :
  forallb is_sleep l = true -> count_records l = 0%nat.
Proof.
  induction l as [|x l IH]; [reflexivity|]. cbn [forallb]. intros Hl.
  apply andb_prop in Hl. destruct Hl as [Hx Hl].
  destruct x; try discriminate. unfold count_records in *. cbn. apply IH. exact Hl.
Qed.

Lemma count_records_retries (l : list Event) :
  forallb is_retry_event l = true -> count_records l = 0%nat.
Proof.
  induction l as [|x l IH]; [reflexivity|]. cbn [forallb]. intros Hl.
  apply andb_prop in Hl. destruct Hl as [Hx Hl].
  destruct x; try discriminate; unfold count_records in *; cbn; apply IH; exact Hl.
Qed.

Lemma one_request_app (a b : list Event) :
  one_request a -> forallb is_sleep b = true -> one_request (a ++ b).
Proof.
  intros [Hc Hh] Hb. split.
  - rewrite count_records_app, Hc, (count_records_sleeps b Hb). reflexivity.
  - destruct a as [|x a]; [discriminate|exact Hh].
Qed.

Lemma forallb_is_sleep_app (a b : list Event) :
  forallb is_sleep a = true -> forallb is_sleep b = true ->
  forallb is_sleep (a ++ b) = true.
Proof. intros Ha Hb. rewrite forallb_app, Ha, Hb. reflexivity. Qed.

Section TrafficFacts.
Context {W : Type} `{Runtime W} `{Browser W}.

Local Abbreviation St := (PoliteSuumoScraper * @Env W)%type.

Lemma sleep_uniform_sleeps (a b : Q) (s : St) :
  exists s' evs,
    in_env (sleep_uniform a b) s = (Return tt, s') /\
    steps s s' evs /\ forallb is_sleep evs = true.
Proof.
  destruct (sleep_uniform_spec a b s) as (env' & d & Hrun & Hh).
  exists (fst s, env'), [EvSleep d]. split; [exact Hrun|].
  split; [|reflexivity]. unfold steps. cbn [fst snd]. auto.
Qed.

Lemma optional_sleep_sleeps (c : bool) (a b : Q) (s : St) :
  exists s' evs,
    (if c then in_env (sleep_uniform a b) else ret tt) s = (Return tt, s') /\
    steps s s' evs /\ forallb is_sleep evs = true.
Proof.
  destruct c; [apply sleep_uniform_sleeps|].
  exists s, []. split; [reflexivity|]. split; [apply steps_refl|reflexivity].
Qed.

(** A page fetch goes through the gate once. *)
Lemma safe_goto_page_events (url : string) (s : St) :
  0 < slots (fst s) ->
  exists r s' evs,
    safe_goto_page url s = (r, s') /\ r <> Blocked /\
    steps s s' evs /\ one_request evs.
Proof.
  intros Hsem.
  destruct (safe_goto_page_spec url s Hsem) as (r0 & s0 & evs0 & Hgo0 & Hnb0 & Hst0 & _).
  destruct s as [sc env].
  destruct (make_request_shape (_goto (request_manager sc) url) "page"
              (request_manager sc) env Hsem)
    as (r & pm' & env' & paces & retries & Hrun & Hp & _ & Hr & _ & _ & _ & _ & Hm).
  assert (Heq : safe_goto_page url (sc, env) = (r, (set_request_manager pm' sc, env'))).
  { unfold safe_goto_page. unfold bind at 1. unfold get_self at 1. cbn [fst snd].
    unfold on_attr. cbn [fst snd]. rewrite Hrun. reflexivity. }
  rewrite Heq in Hgo0. injection Hgo0 as <- <-.
  exists r, (set_request_manager pm' sc, env').
  assert (Hh : exists b,
             history env'
             = (history env ++ EvAcquire :: paces ++ EvRelease :: retries
                  ++ [EvRecord b])%list).
  { destruct r as [v|e|]; [| |congruence]; destruct Hm as [Hh _]; eauto. }
  destruct Hh as (b & Hh).
  exists (EvAcquire :: paces ++ EvRelease :: retries ++ [EvRecord b])%list.
  split; [exact Heq|]. split; [exact Hnb0|]. split.
  - destruct Hst0 as (Hp0 & Hs0 & _). split; [exact Hp0|]. split; [exact Hs0|exact Hh].
  - split; [|reflexivity].
    change (EvAcquire :: paces ++ EvRelease :: retries ++ [EvRecord b])%list
      with ([EvAcquire] ++ paces ++ [EvRelease] ++ retries ++ [EvRecord b])%list.
    rewrite !count_records_app, (count_records_sleeps paces Hp),
      (count_records_retries retries Hr). reflexivity.
Qed.

Lemma scrape_page_loop_events (self : Settings) (elements : list Element) :
  forall (i : Z) (page_props : list PropertyInfo) (s : St),
    exists l s' evs,
      scrape_page_loop self i elements page_props s = (Return l, s') /\
      steps s s' evs /\ forallb is_sleep evs = true.
Proof.
  induction elements as [|element rest IH]; intros i pp s.
  - exists pp, s, []. split; [reflexivity|]. split; [apply steps_refl|reflexivity].
  - cbn [scrape_page_loop].
    destruct (optional_sleep_sleeps (0 <? i) (1 # 2) (3 # 2) s)
      as (s1 & evs1 & Hsl & Hst1 & Hf1).
    unfold bind at 1. rewrite Hsl.
    destruct s1 as [sc1 env1].
    destruct (extract_property_info_spec self element sc1 env1)
      as (o & errs & Hex & _).
    unfold bind at 1. rewrite Hex.
    unfold bind at 1. unfold get_self at 1.
    cbn [fst snd set_validation_errors properties].
    set (pp' := match o with Some p => (pp ++ [p])%list | None => pp end).
    set (s2 := (set_validation_errors (validation_errors sc1 ++ errs)%list sc1, env1)).
    assert (Hst2 : steps s s2 evs1).
    { rewrite <- (app_nil_r evs1). eapply steps_trans; [exact Hst1|].
      apply (set_validation_errors_steps _ (sc1, env1)). }
    destruct (target_count self <=? sum_rooms (properties sc1 ++ pp')%list).
    + exists pp', s2, evs1. split; [reflexivity|]. split; [exact Hst2|exact Hf1].
    + destruct (IH (i + 1) pp' s2) as (l & s' & evs & Hrun & Hst & Hf).
      fold s2. rewrite Hrun.
      exists l, s', (evs1 ++ evs)%list. split; [reflexivity|].
      split; [eapply steps_trans; eassumption|].
      apply forallb_is_sleep_app; assumption.
Qed.

Lemma get_next_page_url_events (self : Settings) (s : St) :
  exists o s' evs,
    get_next_page_url self s = (Return o, s') /\
    steps s s' evs /\ forallb is_sleep evs = true.
Proof.
  unfold get_next_page_url, try_except.
  destruct (sleep_uniform_sleeps 1 2 s) as (s1 & evs1 & Hsl & Hst1 & Hf1).
  unfold bind at 1. rewrite Hsl.
  destruct (external_call_spec page_next_href s1) as (r & s2 & Hex & Hst2 & _).
  unfold bind at 1. rewrite Hex.
  assert (Hst : steps s s2 evs1).
  { rewrite <- (app_nil_r evs1). eapply steps_trans; eassumption. }
  destruct r as [e|[h|]]; cbn [of_sum].
  - exists None, s2, evs1. auto.
  - destruct (str_bool h && str_bool (strip h)); eexists _, s2, evs1; auto.
  - exists None, s2, evs1. auto.
Qed.

(** Scraping a page makes one request, whatever the page holds. *)
Lemma scrape_page_events (self : Settings) (page_url : string) (s : St) :
  0 < slots (fst s) ->
  exists l s' evs,
    scrape_page self page_url s = (Return l, s') /\
    steps s s' evs /\ one_request evs.
Proof.
  intros Hsem.
  destruct (safe_goto_page_events page_url s Hsem)
    as (r & s1 & evs1 & Hgo & Hnb & Hst1 & Hone).
  destruct r as [resp|e|]; [| |congruence].
  2:{ exists [], s1, evs1. split; [|split; assumption].
      unfold scrape_page, try_except. unfold bind at 1. rewrite Hgo. reflexivity. }
  destruct (sleep_uniform_sleeps 2 4 s1) as (s2 & evs2 & Hsl & Hst2 & Hf2).
  destruct (external_call_spec page_title s2) as (rt & s3 & Htitle & Hst3 & _).
  destruct (external_call_spec page_query_cassetteitems s3)
    as (rq & s4 & Hquery & Hst4 & _).
  assert (Hst12 : steps s s2 (evs1 ++ evs2)) by (eapply steps_trans; eassumption).
  assert (Hst13 : steps s s3 (evs1 ++ evs2)).
  { rewrite <- (app_nil_r (evs1 ++ evs2)). eapply steps_trans; eassumption. }
  assert (Hst14 : steps s s4 (evs1 ++ evs2)).
  { rewrite <- (app_nil_r (evs1 ++ evs2)). eapply steps_trans; eassumption. }
  assert (Hone12 : one_request (evs1 ++ evs2)) by (apply one_request_app; assumption).
  unfold scrape_page, try_except.
  unfold bind at 1. rewrite Hgo.
  unfold bind at 1. rewrite Hsl.
  unfold bind at 1. rewrite Htitle.
  destruct rt as [e|t]; cbn [of_sum].
  { exists [], s3, (evs1 ++ evs2)%list. auto. }
  unfold bind at 1. unfold attempt at 1. rewrite Hquery.
  destruct rq as [e|[|el els]]; cbn [of_sum].
  1,2: exists [], s4, (evs1 ++ evs2)%list; auto.
  destruct (scrape_page_loop_events self (el :: els) 0 [] s4)
    as (l & s5 & evs5 & Hloop & Hst5 & Hf5).
  rewrite Hloop.
  exists l, s5, ((evs1 ++ evs2) ++ evs5)%list. split; [reflexivity|].
  split; [eapply steps_trans; eassumption|].
  apply one_request_app; assumption.
Qed.

(** One turn of the page loop makes one request and, when the loop goes
    on, counts one page. *)
Lemma station_page_events (self : Settings) (current_url : string) (page_count : Z)
    (station_properties : list PropertyInfo) (s : St) :
  0 < slots (fst s) ->
  exists step s' evs,
    station_page self current_url page_count station_properties s = (Return step, s') /\
    steps s s' evs /\ one_request evs /\
    match step with
    | Break _ => True
    | Continue (_, pc', _) => pc' = page_count + 1
    end.
Proof.
  intros Hsem.
  destruct (scrape_page_events self current_url s Hsem)
    as (l & s1 & evs1 & Hpage & Hst1 & Hone).
  unfold station_page. unfold bind at 1. unfold attempt at 1. rewrite Hpage.
  unfold bind at 1. unfold get_self at 1. cbn [fst snd].
  destruct (target_count self
            <=? sum_rooms (properties (fst s1))
                + sum_rooms (station_properties ++ l)%list).
  - eexists _, s1, evs1. split; [reflexivity|]. split; [exact Hst1|].
    split; [exact Hone|exact I].
  - destruct (get_next_page_url_events self s1) as (o & s2 & evs2 & Hnext & Hst2 & Hf2).
    destruct (optional_sleep_sleeps (url_bool o) 8 15 s2)
      as (s3 & evs3 & Hsl & Hst3 & Hf3).
    unfold bind at 1. unfold attempt at 1. rewrite Hnext.
    unfold bind at 1. rewrite Hsl.
    eexists _, s3, (evs1 ++ evs2 ++ evs3)%list. split; [reflexivity|].
    split; [eapply steps_trans; [exact Hst1|eapply steps_trans; eassumption]|].
    split; [|reflexivity].
    apply one_request_app; [exact Hone|]. apply forallb_is_sleep_app; assumption.
Qed.

Lemma station_loop_events (self : Settings) (fuel : nat) :
  forall (current_url : option string) (page_count : Z)
         (station_properties : list PropertyInfo) (s : St),
    0 < slots (fst s) ->
    exists sp' s' evs,
      station_loop self fuel current_url page_count station_properties s
      = (Return sp', s') /\
      steps s s' evs /\ request_first evs /\
      (Z.of_nat (count_records evs) <= Z.max 0 (10 - page_count)) /\
      (url_bool current_url && (page_count <? 10) = true -> (0 < fuel)%nat ->
       (1 <= count_records evs)%nat) /\
      forall more : nat,
        (Z.max 0 (10 - page_count) <= Z.of_nat fuel) ->
        station_loop self (fuel + more) current_url page_count station_properties s
        = (Return sp', s').
Proof.
  induction fuel as [|fuel IH]; intros u pc sp s Hsem.
  - exists sp, s, []. split; [reflexivity|]. split; [apply steps_refl|].
    split; [left; reflexivity|]. split; [cbn; lia|]. split; [intros _ Hf; lia|].
    intros more Hle. assert (Hpc : 10 <= pc) by lia.
    destruct more as [|more]; [reflexivity|]. cbn [Nat.add station_loop].
    destruct u as [url|]; [|reflexivity].
    replace (pc <? 10) with false by (symmetry; apply Z.ltb_ge; exact Hpc).
    rewrite andb_false_r. reflexivity.
  - cbn [station_loop Nat.add].
    assert (Hstop : exists sp' s' evs,
               (Return sp, s) = (Return sp', s') /\
               steps s s' evs /\ request_first evs /\
               (Z.of_nat (count_records evs) <= Z.max 0 (10 - pc))).
    { exists sp, s, []. split; [reflexivity|]. split; [apply steps_refl|].
      split; [left; reflexivity|]. cbn. lia. }
    destruct u as [url|].
    2:{ destruct Hstop as (sp' & s' & evs & Heq & Hst & Hrf & Hc).
        exists sp', s', evs. split; [exact Heq|]. split; [exact Hst|].
        split; [exact Hrf|]. split; [exact Hc|].
        split; [cbn; discriminate|]. intros more _. exact Heq. }
    cbn [url_bool].
    destruct (str_bool url && (pc <? 10)) eqn:Hguard.
    2:{ destruct Hstop as (sp' & s' & evs & Heq & Hst & Hrf & Hc).
        exists sp', s', evs. split; [exact Heq|]. split; [exact Hst|].
        split; [exact Hrf|]. split; [exact Hc|].
        split; [discriminate|]. intros more _. exact Heq. }
    apply andb_prop in Hguard. destruct Hguard as [_ Hpc]. apply Z.ltb_lt in Hpc.
    destruct (station_page_events self url pc sp s Hsem)
      as (step & s1 & evs1 & Hpage & Hst1 & Hone & Hstep).
    unfold bind at 1. rewrite Hpage.
    assert (Hbind : forall fuel0 : nat,
               (step0 <- station_page self url pc sp ;;
                match step0 with
                | Break (_, _, station_properties) => ret station_properties
                | Continue (next_url, page_count, station_properties) =>
                    station_loop self fuel0 next_url page_count station_properties
                end) s
               = match step with
                 | Break (_, _, station_properties) => (Return station_properties, s1)
                 | Continue (next_url, page_count, station_properties) =>
                     station_loop self fuel0 next_url page_count station_properties s1
                 end).
    { intros fuel0. unfold bind at 1. rewrite Hpage.
      destruct step as [[[? ?] ?]|[[? ?] ?]]; reflexivity. }
    destruct Hone as [Hc1 Hh1].
    destruct step as [[[u' pc'] sp']|[[nxt pc'] sp']].
    + exists sp', s1, evs1. split; [reflexivity|]. split; [exact Hst1|].
      split; [right; exact Hh1|]. split; [rewrite Hc1; lia|].
      split; [intros _ _; rewrite Hc1; lia|].
      intros more _. rewrite Hbind. reflexivity.
    + subst pc'.
      assert (Hsem1 : 0 < slots (fst s1)).
      { destruct Hst1 as (_ & Hs & _). rewrite Hs. exact Hsem. }
      destruct (IH nxt (pc + 1) sp' s1 Hsem1)
        as (sp'' & s2 & evs2 & Hloop & Hst2 & _ & Hc2 & _ & Hmore).
      exists sp'', s2, (evs1 ++ evs2)%list. split; [exact Hloop|].
      split; [eapply steps_trans; eassumption|].
      split.
      { right. destruct evs1 as [|x evs1]; [discriminate|exact Hh1]. }
      split; [rewrite count_records_app, Hc1; lia|].
      split; [intros _ _; rewrite count_records_app, Hc1; lia|].
      intros more Hle. rewrite Hbind. apply Hmore. lia.
Qed.


Lemma scrape_station_events (self : Settings) (station : string) (s : St) :
  0 < slots (fst s) ->
  exists l s' evs,
    scrape_station self station s = (Return l, s') /\
    steps s s' evs /\ request_first evs /\
    (count_records evs <= 10)%nat /\
    (station ∈ dom MAJOR_STATIONS -> (1 <= count_records evs)%nat) /\
    (station ∉ dom MAJOR_STATIONS -> evs = [] /\ l = []).
Proof.
  intros Hsem. destruct s as [sc env]. cbn [fst snd] in *.
  unfold scrape_station.
  unfold bind at 1. unfold get_self at 1.
  unfold bind at 1. unfold put_self at 1. cbn [fst snd].
  pose (s0 := (set_current_station (Some station) sc, env)).
  assert (Hst0 : steps (sc, env) s0 []).
  { unfold steps. cbn [fst snd s0]. rewrite app_nil_r. auto. }
  destruct (get_station_url_cases station (prefecture self))
    as [(Hout & msg & Hurl)|(code & Hcode & Hurl)].
  - exists [], s0, []. rewrite Hurl. cbn [is_ValueError].
    split; [reflexivity|]. split; [exact Hst0|]. split; [left; reflexivity|].
    split; [cbn; lia|]. split; [intros Hin; contradiction|]. auto.
  - rewrite Hurl.
    unfold bind at 1. unfold get_self at 1.
    cbn [fst snd set_current_station current_station option_string_eqb].
    rewrite String.eqb_refl. cbn [negb].
    unfold bind at 1. unfold ret at 1.
    destruct (station_loop_events self 10 (Some ("https://suumo.jp/chintai/"
                ++ prefecture self ++ "/" ++ code ++ "/")) 0 [] s0 Hsem)
      as (sp & s1 & evs & Hloop & Hst1 & Hrf & Hc & Hpos & _).
    unfold s0 in Hloop. unfold bind at 1. rewrite Hloop.
    exists (map (set_station_name (Some station)) sp), s1, evs.
    split; [reflexivity|].
    split; [change evs with ([] ++ evs)%list; eapply steps_trans; eassumption|].
    split; [exact Hrf|]. split; [lia|]. split.
    + intros _. apply Hpos; [reflexivity|lia].
    + intros Hout. exfalso. apply Hout. apply elem_of_dom. eauto.
Qed.

Lemma stations_loop_events (self : Settings) (todo : list string) :
  forall (i : Z) (s : St),
    0 < slots (fst s) ->
    exists s' evs,
      stations_loop self i todo s = (Return tt, s') /\
      slots (fst s') = slots (fst s) /\
      history (snd s') = (history (snd s) ++ evs)%list /\
      (count_records evs <= 10 * length todo)%nat /\
      (target_count self <= sum_rooms (properties (fst s)) -> evs = [] /\ s' = s).
Proof.
  induction todo as [|station rest IH]; intros i s Hsem.
  - exists s, []. rewrite app_nil_r. split; [reflexivity|].
    split; [reflexivity|]. split; [reflexivity|]. split; [cbn; lia|]. auto.
  - cbn [stations_loop]. unfold bind at 1. unfold get_self at 1. cbn [fst snd].
    destruct (target_count self <=? sum_rooms (properties (fst s))) eqn:Hq.
    + exists s, []. rewrite app_nil_r. split; [reflexivity|].
      split; [reflexivity|]. split; [reflexivity|]. split; [cbn; lia|]. auto.
    + apply Z.leb_gt in Hq.
      destruct (scrape_station_events self station s Hsem)
        as (l & s1 & evs1 & Hrun & Hst1 & _ & Hc1 & _).
      unfold bind at 1. unfold attempt at 1. rewrite Hrun.
      unfold bind at 1. unfold get_self at 1.
      unfold bind at 1. unfold put_self at 1. cbn [fst snd].
      destruct Hst1 as (Hp1 & Hs1 & Hh1).
      set (s2 := (set_properties (properties (fst s1) ++ l)%list (fst s1), snd s1)).
      destruct (optional_sleep_sleeps (i <? len (stations self) - 1) 15 30 s2)
        as (s3 & evs3 & Hsl & (Hp3 & Hs3 & Hh3) & Hf3).
      unfold bind at 1. fold s2. rewrite Hsl.
      assert (Hsem3 : 0 < slots (fst s3)).
      { rewrite Hs3. unfold s2, slots. cbn [fst set_properties request_manager].
        fold (slots (fst s1)). lia. }
      destruct (IH (i + 1) s3 Hsem3) as (s' & evs & Hloop & Hs & Hh & Hc & _).
      exists s', (evs1 ++ evs3 ++ evs)%list.
      split; [exact Hloop|]. split.
      { rewrite Hs, Hs3. unfold s2, slots. cbn [fst set_properties request_manager].
        exact Hs1. }
      split.
      { rewrite Hh, Hh3. unfold s2. cbn [snd]. rewrite Hh1, <- !app_assoc. reflexivity. }
      split.
      { rewrite !count_records_app, (count_records_sleeps evs3 Hf3).
        cbn [length]. lia. }
      intros Hle. lia.
Qed.

(** [scrape_station] always returns.  It makes at most ten requests, one
    per page, and at least one for a station of the table, even when the
    quota is already met; nothing happens before the first request (the
    wait for a change of station never runs, because [current_station]
    has just been set to this station); a station outside the table
    causes no request at all. *)
Theorem scrape_station_page_cap (self : Settings) (station : string) (s : St) :
  0 < slots (fst s) ->
  exists l s' evs,
    scrape_station self station s = (Return l, s') /\
    history (snd s') = (history (snd s) ++ evs)%list /\
    request_first evs /\
    (count_records evs <= 10)%nat /\
    (station ∈ dom MAJOR_STATIONS -> (1 <= count_records evs)%nat) /\
    (station ∉ dom MAJOR_STATIONS -> evs = [] /\ l = []).
Proof.
  intros Hsem.
  destruct (scrape_station_events self station s Hsem)
    as (l & s' & evs & Hrun & (_ & _ & Hh) & Hrest).
  exists l, s', evs. split; [exact Hrun|]. split; [exact Hh|exact Hrest].
Qed.

(** The page loop [while current_url and page_count < 10] ends by
    itself: from page count [page_count] it makes at most
    [10 - page_count] turns, each with one request, so that running it
    for more turns than that changes nothing. *)
Theorem station_loop_stops_by_itself (self : Settings) (current_url : option string)
    (page_count : Z) (station_properties : list PropertyInfo) (s : St) (more : nat) :
  0 < slots (fst s) ->
  let turns := Z.to_nat (10 - page_count) in
  exists sp' s' evs,
    station_loop self turns current_url page_count station_properties s
    = (Return sp', s') /\
    station_loop self (turns + more) current_url page_count station_properties s
    = (Return sp', s') /\
    history (snd s') = (history (snd s) ++ evs)%list /\
    (count_records evs <= turns)%nat.
Proof.
  intros Hsem turns.
  destruct (station_loop_events self turns current_url page_count station_properties s Hsem)
    as (sp' & s' & evs & Hrun & (_ & _ & Hh) & _ & Hc & _ & Hmore).
  exists sp', s', evs. split; [exact Hrun|].
  split; [apply Hmore; subst turns; lia|]. split; [exact Hh|]. subst turns. lia.
Qed.

(** A session makes at most ten requests per station of its list,
    whether or not the browser can be started and closed; when the
    accepted rooms already meet the quota it makes no request and sleeps
    nowhere. *)
Theorem scrape_all_stations_request_budget (self : Settings) (s : St) :
  0 < slots (fst s) ->
  exists r s' evs,
    scrape_all_stations self s = (r, s') /\
    history (snd s') = (history (snd s) ++ evs)%list /\
    (count_records evs <= 10 * length (stations self))%nat /\
    (target_count self <= sum_rooms (properties (fst s)) ->
     evs = [] /\ fst s' = fst s).
Proof.
  intros Hsem.
  destruct (create_browser_spec s) as (r0 & s0 & Hcreate & Hnb0 & Hfst0 & Hh0 & _).
  destruct r0 as [[]|e|]; [| |congruence].
  2:{ exists (Raise e), s0, []. rewrite app_nil_r.
      split; [unfold scrape_all_stations; unfold bind at 1; rewrite Hcreate; reflexivity|].
      split; [exact Hh0|]. split; [cbn; lia|]. auto. }
  assert (Hsem0 : 0 < slots (fst s0)) by (rewrite Hfst0; exact Hsem).
  destruct (stations_loop_events self (stations self) 0 s0 Hsem0)
    as (s1 & evs & Hloop & Hs & Hh & Hc & Hmet).
  assert (Hbody : exists r1, scrape_all_stations_body self s0 = (r1, s1)).
  { unfold scrape_all_stations_body. unfold bind at 1. rewrite Hloop.
    unfold bind at 1. unfold get_self at 1.
    unfold bind at 1. unfold in_env at 1, time at 1. destruct s1 as [sc1 env1].
    cbn [fst snd].
    destruct (ScrapingResult_init _ _ _ _ _) as [res|e|]; [eauto| |eauto].
    destruct (is_ValidationError e); eauto. }
  destruct Hbody as (r1 & Hbody).
  destruct (close_browser_spec s1) as (rc & s2 & Hclose & Hfst2 & Hh2 & _).
  assert (Hrun : exists r, scrape_all_stations self s = (r, match r1 with Blocked => s1 | _ => s2 end)).
  { unfold scrape_all_stations. unfold bind at 1. rewrite Hcreate.
    unfold try_finally. rewrite Hbody.
    destruct r1 as [o|e|]; [| |eauto]; rewrite Hclose; destruct rc as [e'|[]]; eauto. }
  destruct Hrun as (r & Hrun).
  exists r, (match r1 with Blocked => s1 | _ => s2 end), evs.
  split; [exact Hrun|].
  assert (Hhist : history (snd (match r1 with Blocked => s1 | _ => s2 end))
                  = history (snd s1)) by (destruct r1; auto).
  assert (Hfst : fst (match r1 with Blocked => s1 | _ => s2 end) = fst s1)
    by (destruct r1; auto).
  split; [rewrite Hhist, Hh, Hh0; reflexivity|]. split; [exact Hc|].
  intros Hle. rewrite <- Hfst0 in Hle. destruct (Hmet Hle) as [-> ->].
  split; [reflexivity|]. rewrite Hfst. exact Hfst0.
Qed.

End TrafficFacts.

Lemma scrape_station_page_cap_witness :
  let self := settings ["渋谷"; "新宿"] 100 "tokyo" in
  let s := (fresh_scraper true 1000, sim_env 1000 site_two_stations) in
  0 < slots (fst s) /\
  exists l s' evs,
    scrape_station self "渋谷" s = (Return l, s') /\
    history (snd s') = (history (snd s) ++ evs)%list /\
    (1 <= count_records evs <= 10)%nat.
Proof.
  intros self s.
  assert (Hsem : 0 < slots (fst s)) by (vm_compute; reflexivity).
  split; [exact Hsem|].
  destruct (scrape_station_page_cap self "渋谷" s Hsem)
    as (l & s' & evs & Hrun & Hh & _ & Hc & Hpos & _).
  exists l, s', evs. split; [exact Hrun|]. split; [exact Hh|].
  split; [|exact Hc]. apply Hpos. apply elem_of_dom. eexists. vm_compute. reflexivity.
Defined.

Lemma station_loop_stops_by_itself_witness :
  let self := settings ["渋谷"] 100 "tokyo" in
  let s := (fresh_scraper true 1000, sim_env 1000 site_two_stations) in
  0 < slots (fst s) /\
  exists sp' s',
    station_loop self 10 (Some url_shibuya) 0 [] s = (Return sp', s') /\
    station_loop self 25 (Some url_shibuya) 0 [] s = (Return sp', s').
Proof.
  intros self s.
  assert (Hsem : 0 < slots (fst s)) by (vm_compute; reflexivity).
  split; [exact Hsem|].
  destruct (station_loop_stops_by_itself self (Some url_shibuya) 0 [] s 15 Hsem)
    as (sp' & s' & evs & Hrun & Hmore & _).
  exists sp', s'. split; [exact Hrun|exact Hmore].
Defined.

Lemma scrape_all_stations_request_budget_witness :
  let self := settings ["渋谷"; "新宿"] 100 "tokyo" in
  let s := (fresh_scraper true 1000, sim_env 1000 site_two_stations) in
  0 < slots (fst s) /\
  exists r s' evs,
    scrape_all_stations self s = (r, s') /\
    history (snd s') = (history (snd s) ++ evs)%list /\
    (count_records evs <= 20)%nat.
Proof.
  intros self s.
  assert (Hsem : 0 < slots (fst s)) by (vm_compute; reflexivity).
  split; [exact Hsem|].
  destruct (scrape_all_stations_request_budget self s Hsem)
    as (r & s' & evs & Hrun & Hh & Hc & _).
  exists r, s', evs. split; [exact Hrun|]. split; [exact Hh|exact Hc].
Defined.

(** ** Saving the results *)

Lemma flattened_data_flat (self : Settings) (props : list PropertyInfo)
    (acc : list CsvRow) :
  fold_left (fun flattened prop => (flattened ++ property_rows self prop)%list) props acc
  = (acc ++ concat (map (property_rows self) props))%list.
Proof.
  revert acc. induction props as [|p props IH]; intros acc; cbn [fold_left map concat].
  - rewrite app_nil_r. reflexivity.
  - rewrite IH, app_assoc. reflexivity.
Qed.

Lemma flattened_data_length (self : Settings) (sc : PoliteSuumoScraper) :
  len (flattened_data self sc) = sum_rooms (properties sc).
Proof.
  unfold flattened_data. rewrite flattened_data_flat. cbn [app].
  induction (properties sc) as [|p props IH]; [reflexivity|].
  cbn [map concat]. rewrite sum_rooms_cons. unfold len in *.
  rewrite length_app. unfold property_rows at 1. rewrite length_map. lia.
Qed.

(** The CSV has one row per room, not per property: the rows are those
    of the properties in order, each room's row carries the title and
    the station tag of its property (the default ['unknown'] is never
    used), and a property without rooms has no row. *)
Theorem flattened_data_rows (self : Settings) (sc : PoliteSuumoScraper) :
  len (flattened_data self sc) = sum_rooms (properties sc) /\
  map (fun row => (csv_building_title row, csv_search_station row, csv_layout row,
                   csv_detail_url row))
      (flattened_data self sc)
  = concat (map (fun prop =>
                   map (fun room => (title prop, station_name prop, layout room,
                                     detail_url room)) (rooms prop))
                (properties sc)).
Proof.
  split; [apply flattened_data_length|].
  unfold flattened_data. rewrite flattened_data_flat. cbn [app].
  induction (properties sc) as [|p props IH]; [reflexivity|].
  cbn [map concat]. rewrite map_app, IH. f_equal.
  unfold property_rows. rewrite map_map. reflexivity.
Qed.

Section SavingFacts.
Context {W : Type} `{FileSystem W}.

Lemma save_to_json_unbound (self : Settings) (sc : PoliteSuumoScraper)
    (scraping_result : option ScrapingResult) (name : string) (w w1 w2 w3 : W)
    (t : string) :
  validation_errors sc <> [] ->
  os_makedirs "data" w = (inr tt, w1) ->
  write_file (os_path_join "data" name)
    (match scraping_result with
     | Some r => JsonResult r
     | None => JsonProperties (properties sc)
     end) w1 = (inr tt, w2) ->
  strftime_now w2 = (t, w3) ->
  save_to_json self sc scraping_result (Some name) w
  = (Return (inl (UnboundLocalError "stations_str")), w3).
Proof.
  intros Herr Hmk Hwr Ht.
  unfold save_to_json. unfold bind at 1. unfold ret at 1.
  unfold bind at 1. unfold external at 1. rewrite Hmk. cbn [of_sum].
  unfold bind at 1. unfold external at 1. rewrite Hwr. cbn [of_sum].
  destruct (validation_errors sc) as [|x xs]; [contradiction|].
  unfold bind at 1. unfold strftime at 1. rewrite Ht. reflexivity.
Qed.

Lemma save_to_json_inl (self : Settings) (sc : PoliteSuumoScraper)
    (scraping_result : option ScrapingResult) (filename : option string)
    (w w' : W) (e : py_error) :
  save_to_json self sc scraping_result filename w = (Return (inl e), w') ->
  e = UnboundLocalError "stations_str" /\ filename <> None /\
  validation_errors sc <> [].
Proof.
  unfold save_to_json.
  destruct filename as [name|].
  - unfold bind at 1. unfold ret at 1.
    unfold bind at 1. unfold external at 1.
    destruct (os_makedirs "data" w) as [[e1|[]] w1]; cbn [of_sum]; [discriminate|].
    unfold bind at 1. unfold external at 1.
    destruct (write_file _ _ w1) as [[e2|[]] w2]; cbn [of_sum]; [discriminate|].
    destruct (validation_errors sc) as [|x xs]; [discriminate|].
    unfold bind at 1. unfold strftime at 1.
    destruct (strftime_now w2) as [t w3]. unfold ret.
    intros Heq. injection Heq as <- _. repeat split; discriminate.
  - unfold bind at 1. unfold bind at 1. unfold strftime at 1.
    destruct (strftime_now w) as [t0 w0]. unfold ret at 1.
    unfold bind at 1. unfold external at 1.
    destruct (os_makedirs "data" w0) as [[e1|[]] w1]; cbn [of_sum]; [discriminate|].
    unfold bind at 1. unfold external at 1.
    destruct (write_file _ _ w1) as [[e2|[]] w2]; cbn [of_sum]; [discriminate|].
    destruct (validation_errors sc) as [|x xs]; [discriminate|].
    unfold bind at 1. unfold strftime at 1.
    destruct (strftime_now w2) as [t w3].
    destruct (forallb json_serializable (x :: xs)).
    + unfold bind at 1. unfold external at 1.
      destruct (write_file _ _ w3) as [[e3|[]] w4]; cbn [of_sum]; discriminate.
    + unfold bind at 1. unfold external at 1.
      destruct (write_file _ _ w3) as [[e3|[]] w4]; cbn [of_sum]; discriminate.
Qed.

Lemma save_to_json_type_error (self : Settings) (sc : PoliteSuumoScraper)
    (scraping_result : option ScrapingResult) (w w0 w1 w2 w3 w4 : W)
    (t0 t : string) :
  forallb json_serializable (validation_errors sc) = false ->
  strftime_now w = (t0, w0) ->
  os_makedirs "data" w0 = (inr tt, w1) ->
  write_file
    (os_path_join "data"
       ("suumo_polite_" ++ stations_str_of self ++ "_" ++ t0 ++ ".json"))
    (match scraping_result with
     | Some r => JsonResult r
     | None => JsonProperties (properties sc)
     end) w1 = (inr tt, w2) ->
  strftime_now w2 = (t, w3) ->
  write_file
    (os_path_join "data"
       ("validation_errors_polite_" ++ stations_str_of self ++ "_" ++ t ++ ".json"))
    (JsonTruncated (validation_errors sc)) w3 = (inr tt, w4) ->
  save_to_json self sc scraping_result None w
  = (Raise (TypeError "Object of type RoomInfo is not JSON serializable"), w4).
Proof.
  intros Hser Ht0 Hmk Hwr Ht Hwe.
  unfold save_to_json. unfold bind at 1. unfold bind at 1. unfold strftime at 1.
  rewrite Ht0. unfold ret at 1.
  unfold bind at 1. unfold external at 1. rewrite Hmk. cbn [of_sum].
  unfold bind at 1. unfold external at 1. rewrite Hwr. cbn [of_sum].
  destruct (validation_errors sc) as [|x xs] eqn:Herrs; [discriminate|].
  unfold bind at 1. unfold strftime at 1. rewrite Ht.
  rewrite Hser.
  unfold bind at 1. unfold external at 1. rewrite Hwe. reflexivity.
Qed.

(** With a file name given and at least one validation error recorded,
    [save_to_json] writes the data file and then fails with
    [UnboundLocalError] on [stations_str] instead of returning the path;
    the file of validation errors is not written.  This is the only way
    it reads an unbound variable: without a file name it never does. *)
Theorem save_to_json_unbound_local (self : Settings) (sc : PoliteSuumoScraper)
    (scraping_result : option ScrapingResult) (filename : option string) (w : W) :
  (forall name w1 w2 t w3,
      filename = Some name ->
      validation_errors sc <> [] ->
      os_makedirs "data" w = (inr tt, w1) ->
      write_file (os_path_join "data" name)
        (match scraping_result with
         | Some r => JsonResult r
         | None => JsonProperties (properties sc)
         end) w1 = (inr tt, w2) ->
      strftime_now w2 = (t, w3) ->
      save_to_json self sc scraping_result filename w
      = (Return (inl (UnboundLocalError "stations_str")), w3)) /\
  (forall e w', save_to_json self sc scraping_result filename w = (Return (inl e), w') ->
                e = UnboundLocalError "stations_str" /\ filename <> None /\
                validation_errors sc <> []).
Proof.
  split.
  - intros name w1 w2 t w3 -> Herr Hmk Hwr Ht.
    apply (save_to_json_unbound self sc scraping_result name w w1 w2 w3 t); assumption.
  - intros e w'. apply save_to_json_inl.
Qed.

(** Without validation errors and with a file system that accepts the
    calls, [save_to_json] returns the path of the data file: inside
    [data/] for a relative name, and the name itself for an absolute
    one, which is then written outside [data/].  Without a name the file
    is [data/suumo_polite_<stations>_<time>.json], where at most three
    station names are spelled out. *)
Theorem save_to_json_path (self : Settings) (sc : PoliteSuumoScraper)
    (scraping_result : option ScrapingResult) (filename : option string) (w : W) :
  validation_errors sc = [] ->
  (forall path w', fst (os_makedirs path w') = inr tt) ->
  (forall path content w', fst (write_file path content w') = inr tt) ->
  exists filepath w',
    save_to_json self sc scraping_result filename w = (Return (inr filepath), w') /\
    match filename with
    | Some name =>
        filepath = if String.prefix "/" name then name else "data/" ++ name
    | None =>
        filepath = "data/suumo_polite_" ++ stations_str_of self ++ "_"
                     ++ fst (strftime_now w) ++ ".json"
    end.
Proof.
  intros Herr Hmk Hwr. unfold save_to_json.
  assert (Hm : forall w0, exists w1, os_makedirs "data" w0 = (inr tt, w1)).
  { intros w0. pose proof (Hmk "data" w0) as Hm.
    destruct (os_makedirs "data" w0) as [[e1|[]] w1]; cbn [fst] in Hm; [discriminate|].
    eauto. }
  assert (Hw : forall path content w0, exists w1, write_file path content w0 = (inr tt, w1)).
  { intros path content w0. pose proof (Hwr path content w0) as Hw.
    destruct (write_file path content w0) as [[e1|[]] w1]; cbn [fst] in Hw; [discriminate|].
    eauto. }
  destruct filename as [name|].
  - unfold bind at 1. unfold ret at 1.
    destruct (Hm w) as (w1 & Hw1).
    unfold bind at 1. unfold external at 1. rewrite Hw1. cbn [of_sum].
    destruct (Hw (os_path_join "data" name)
                (match scraping_result with
                 | Some r => JsonResult r
                 | None => JsonProperties (properties sc)
                 end) w1) as (w2 & Hw2).
    unfold bind at 1. unfold external at 1. rewrite Hw2. cbn [of_sum].
    rewrite Herr. eexists _, w2. split; [reflexivity|].
    unfold os_path_join. destruct (String.prefix "/" name); reflexivity.
  - unfold bind at 1. unfold bind at 1. unfold strftime at 1.
    destruct (strftime_now w) as [t0 w0]. unfold ret at 1. cbn [fst].
    destruct (Hm w0) as (w1 & Hw1).
    unfold bind at 1. unfold external at 1. rewrite Hw1. cbn [of_sum].
    destruct (Hw (os_path_join "data"
                    ("suumo_polite_" ++ stations_str_of self ++ "_" ++ t0 ++ ".json"))
                (match scraping_result with
                 | Some r => JsonResult r
                 | None => JsonProperties (properties sc)
                 end) w1) as (w2 & Hw2).
    unfold bind at 1. unfold external at 1. rewrite Hw2. cbn [of_sum].
    rewrite Herr. eexists _, w2. split; [reflexivity|]. reflexivity.
Qed.

(** The saving step of [main] stops at an error of [save_to_json], and
    [save_to_csv] is then never called: whenever [save_to_json] does not
    return a path, the step ends with that error in the state
    [save_to_json] left.  Two ways to get there with a file system that
    accepts every call: with [--output-json] given and a validation
    error recorded, the data file is written and [UnboundLocalError] is
    raised; without [--output-json] and with a recorded property error
    that holds rooms, the data file is written, the file of validation
    errors is begun and [TypeError] is raised. *)
Theorem main_save_json_error_skips_csv (self : Settings) (sc : PoliteSuumoScraper)
    (result : ScrapingResult) (output_json output_csv : option string) (w : W) :
  sr_properties result <> [] ->
  (forall r w',
      save_to_json self sc (Some result) output_json w = (r, w') ->
      (forall json_path, r <> Return (inr json_path)) ->
      main_save self sc result output_json output_csv w
      = (match r with
         | Return (inl e) => Return (inl e)
         | Raise e => Raise e
         | _ => Blocked
         end, w')) /\
  (forall name w1 w2 t w3,
      output_json = Some name ->
      validation_errors sc <> [] ->
      os_makedirs "data" w = (inr tt, w1) ->
      write_file (os_path_join "data" name) (JsonResult result) w1 = (inr tt, w2) ->
      strftime_now w2 = (t, w3) ->
      main_save self sc result output_json output_csv w
      = (Return (inl (UnboundLocalError "stations_str")), w3)) /\
  (forall t0 w0 w1 w2 t w3 w4,
      output_json = None ->
      forallb json_serializable (validation_errors sc) = false ->
      strftime_now w = (t0, w0) ->
      os_makedirs "data" w0 = (inr tt, w1) ->
      write_file
        (os_path_join "data"
           ("suumo_polite_" ++ stations_str_of self ++ "_" ++ t0 ++ ".json"))
        (JsonResult result) w1 = (inr tt, w2) ->
      strftime_now w2 = (t, w3) ->
      write_file
        (os_path_join "data"
           ("validation_errors_polite_" ++ stations_str_of self ++ "_" ++ t
              ++ ".json"))
        (JsonTruncated (validation_errors sc)) w3 = (inr tt, w4) ->
      main_save self sc result output_json output_csv w
      = (Raise (TypeError "Object of type RoomInfo is not JSON serializable"), w4)).
Proof.
  intros Hprops.
  assert (Hstep : forall r w',
             save_to_json self sc (Some result) output_json w = (r, w') ->
             (forall json_path, r <> Return (inr json_path)) ->
             main_save self sc result output_json output_csv w
             = (match r with
                | Return (inl e) => Return (inl e)
                | Raise e => Raise e
                | _ => Blocked
                end, w')).
  { intros r w' Hj Hfail. unfold main_save.
    destruct (sr_properties result) as [|p ps]; [contradiction|].
    unfold bind at 1. rewrite Hj.
    destruct r as [[e|json_path]|e|]; try reflexivity.
    exfalso. apply (Hfail json_path). reflexivity. }
  split; [exact Hstep|]. split.
  - intros name w1 w2 t w3 -> Herr Hmk Hwr Ht.
    rewrite (Hstep _ _ (save_to_json_unbound self sc (Some result) name w w1 w2 w3 t
                          Herr Hmk Hwr Ht)); [reflexivity|discriminate].
  - intros t0 w0 w1 w2 t w3 w4 -> Hser Ht0 Hmk Hwr Ht Hwe.
    rewrite (Hstep _ _ (save_to_json_type_error self sc (Some result) w w0 w1 w2 w3 w4
                          t0 t Hser Ht0 Hmk Hwr Ht Hwe)); [reflexivity|discriminate].
Qed.

End SavingFacts.

Section OutputFacts.
Context {W : Type} `{Runtime W} `{Browser W}.

Local Abbreviation St := (PoliteSuumoScraper * @Env W)%type.

(** After a session the CSV of the scraper has at most [target_count]
    rows, one per accepted room; a returned result counts properties, so
    that its [total_count] is at most the number of rows. *)
Theorem csv_rows_within_quota (self : Settings) (s : St) :
  0 < slots (fst s) ->
  sum_rooms (properties (fst s)) <= target_count self ->
  Forall has_room (properties (fst s)) ->
  let run := scrape_all_stations self s in
  let rows := flattened_data self (fst (snd run)) in
  len rows <= target_count self /\
  forall res, fst run = Return (Some res) ->
              len rows = sum_rooms (sr_properties res) /\ total_count res <= len rows.
Proof.
  intros Hsem Hle Hall run rows. subst rows run.
  destruct (scrape_all_stations_spec self s Hsem Hle)
    as (r & s' & new & evs & Hrun & _ & Hp & _ & _ & Hb & Hnew & Hrefl & _).
  rewrite Hrun. cbn [fst snd]. rewrite flattened_data_length.
  split; [exact Hb|]. intros res ->.
  destruct (Hrefl (Some res) eq_refl) as (_ & Hprops & Hcount & _).
  rewrite Hprops. split; [reflexivity|]. rewrite Hcount.
  apply len_le_sum_rooms. rewrite Hp. apply List.Forall_app. auto.
Qed.

End OutputFacts.

Lemma save_to_json_unbound_local_witness :
  let self := settings ["渋谷"] 10 "tokyo" in
  exists w3,
    save_to_json self scraper_with_error None (Some "out.json") fs_empty
    = (Return (inl (UnboundLocalError "stations_str")), w3) /\
    fs_files w3 = [("data/out.json", JsonProperties [])].
Proof.
  intros self.
  destruct (save_to_json_unbound_local self scraper_with_error None (Some "out.json")
              fs_empty) as [Hraise _].
  eexists. split.
  - eapply (Hraise "out.json"); [reflexivity|discriminate|reflexivity..].
  - reflexivity.
Defined.

Lemma save_to_json_path_witness :
  let self := settings ["渋谷"; "新宿"; "池袋"; "上野"] 10 "tokyo" in
  validation_errors (fresh_scraper true 1000) = [] /\
  exists w',
    save_to_json self (fresh_scraper true 1000) None None fs_empty
    = (Return (inr "data/suumo_polite_渋谷-新宿-池袋-etc4_20240101_120000.json"), w').
Proof.
  intros self.
  assert (Herr : validation_errors (fresh_scraper true 1000) = []) by reflexivity.
  split; [exact Herr|].
  assert (Hmk : forall path (w' : FsWorld), fst (os_makedirs path w') = inr tt)
    by reflexivity.
  assert (Hwr : forall path content (w' : FsWorld),
             fst (write_file path content w') = inr tt) by reflexivity.
  destruct (save_to_json_path self (fresh_scraper true 1000) None None fs_empty Herr
              Hmk Hwr) as (filepath & w' & Hrun & Hpath).
  exists w'. rewrite Hrun. rewrite Hpath. vm_compute. reflexivity.
Defined.

Lemma main_save_json_error_skips_csv_witness :
  let self := settings ["渋谷"] 10 "tokyo" in
  sr_properties result_one_property <> [] /\
  (exists w3,
      main_save self scraper_with_error result_one_property (Some "out.json")
        (Some "out.csv") fs_empty
      = (Return (inl (UnboundLocalError "stations_str")), w3) /\
      map fst (fs_files w3) = ["data/out.json"]) /\
  (exists w4,
      main_save self scraper_with_property_error result_one_property None None fs_empty
      = (Raise (TypeError "Object of type RoomInfo is not JSON serializable"), w4) /\
      map fst (fs_files w4)
      = ["data/suumo_polite_渋谷_20240101_120000.json";
         "data/validation_errors_polite_渋谷_20240101_120000.json"]).
Proof.
  intros self.
  assert (Hprops : sr_properties result_one_property <> []) by discriminate.
  split; [exact Hprops|]. split.
  - destruct (main_save_json_error_skips_csv self scraper_with_error result_one_property
                (Some "out.json") (Some "out.csv") fs_empty Hprops) as (_ & Hraise & _).
    eexists. split.
    + eapply (Hraise "out.json"); [reflexivity|discriminate|reflexivity..].
    + reflexivity.
  - destruct (main_save_json_error_skips_csv self scraper_with_property_error
                result_one_property None None fs_empty Hprops) as (_ & _ & Hraise).
    eexists. split.
    + eapply Hraise; reflexivity.
    + reflexivity.
Defined.

Lemma csv_rows_within_quota_witness :
  let self := settings ["渋谷"; "新宿"] 5 "tokyo" in
  let s := (fresh_scraper true 1000, sim_env 1000 site_two_stations) in
  0 < slots (fst s) /\
  sum_rooms (properties (fst s)) <= target_count self /\
  Forall has_room (properties (fst s)) /\
  len (flattened_data self (fst (snd (scrape_all_stations self s)))) <= 5.
Proof.
  intros self s.
  assert (H1 : 0 < slots (fst s)) by (vm_compute; reflexivity).
  assert (H2 : sum_rooms (properties (fst s)) <= target_count self)
    by (vm_compute; discriminate).
  assert (H3 : Forall has_room (properties (fst s))) by constructor.
  split; [exact H1|]. split; [exact H2|]. split; [exact H3|].
  destruct (csv_rows_within_quota self s H1 H2 H3) as [Hrows _]. exact Hrows.
Defined.

(** ** Further properties of the limiter and the retry executor *)

Section LimiterFacts.
Context {W : Type} `{Runtime W}.

Lemma range_nonpositive (n : Z) : n <= 0 -> range n = [].
Proof.
  intros Hn. unfold range. replace (Z.to_nat n) with 0%nat by lia. reflexivity.
Qed.

(** With a negative [max_retries] the retry executor never calls the
    operation: the loop over [range(max_retries + 1)] is empty and
    [raise last_exception] with [None] raises a [TypeError]; neither the
    world nor the history changes. *)
Theorem execute_with_retry_negative_retries {A : Type} (self : RetryManager)
    (func : M W A) (env : @Env W) :
  max_retries (rm_config self) < 0 ->
  exists msg, execute_with_retry self func env = (Raise (TypeError msg), env).
Proof.
  intros Hneg. unfold execute_with_retry.
  rewrite range_nonpositive by lia. cbn [retry_loop]. eexists. reflexivity.
Qed.

(** For a page or a station request with a free slot the limiter waits
    for exactly the part of the delay that has not yet elapsed since the
    last request, and not at all when the delay has elapsed; it counts
    the request and keeps everything else. *)
Theorem wait_for_request_exact_wait (request_type : string) (rl : RateLimiter)
    (env : @Env W) :
  request_type = "page" \/ request_type = "station" ->
  0 < _semaphore rl ->
  let delay := class_delay (rl_config rl) request_type in
  let elapsed := (time_time (world env) - last_request_time rl)%Q in
  exists rl' env',
    wait_for_request request_type (rl, env) = (Return tt, (rl', env')) /\
    history env'
    = (history env
         ++ EvAcquire
            :: (if Qltb elapsed delay then [EvSleep (delay - elapsed)%Q] else [])
            ++ [EvRelease])%list /\
    world env'
    = (if Qltb elapsed delay then asyncio_sleep (delay - elapsed)%Q (world env)
       else world env) /\
    request_count rl' = request_count rl + 1 /\
    last_request_time rl' = time_time (world env') /\
    session_start_time rl' = session_start_time rl.
Proof.
  intros Htype Hsem delay elapsed.
  assert (Hdelay : forall env0 : @Env W,
             required_delay_for (rl_config rl) request_type env0 = (Return delay, env0)).
  { intros env0. subst delay. unfold required_delay_for, class_delay.
    destruct Htype as [-> | ->]; reflexivity. }
  unfold wait_for_request, async_with_semaphore, semaphore_acquire, semaphore_release.
  unfold try_finally, bind, get_self, put_self, in_env, emit, time, ret.
  cbn [fst snd _semaphore]. apply Z.ltb_lt in Hsem. rewrite Hsem.
  cbn [fst snd world history rl_config last_request_time]. rewrite Hdelay.
  cbn [fst snd world history]. fold elapsed.
  destruct (Qltb elapsed delay); unfold sleep; cbn [fst snd world history].
  - eexists _, _. split; [reflexivity|]. cbn [world history request_count
      last_request_time session_start_time].
    rewrite <- !app_assoc. repeat split; reflexivity.
  - eexists _, _. split; [reflexivity|]. cbn [world history request_count
      last_request_time session_start_time].
    rewrite <- !app_assoc. repeat split; reflexivity.
Qed.

End LimiterFacts.

Lemma execute_with_retry_negative_retries_witness :
  let self := {| rm_config :=
                   {| min_delay := 3; max_delay := 8; page_delay := 5;
                      station_delay := 10; max_retries := -1; retry_delay := 5;
                      concurrent_limit := 1 |} |} in
  max_retries (rm_config self) < 0 /\
  exists msg,
    execute_with_retry self (scripted (fails_then 0 tt))
      {| world := {| sw_clock := 0; sw_calls := 0 |}; history := [] |}
    = (Raise (TypeError msg),
       {| world := {| sw_clock := 0; sw_calls := 0 |}; history := [] |}).
Proof.
  intros self.
  assert (Hneg : max_retries (rm_config self) < 0) by reflexivity.
  split; [exact Hneg|].
  apply (execute_with_retry_negative_retries self (scripted (fails_then 0 tt)) _ Hneg).
Defined.

Lemma wait_for_request_exact_wait_witness :
  let rl := rate_limiter (fresh_manager (polite_config true) 1000) in
  let env := sim_env 1003 [] in
  ("page" = "page" \/ "page" = "station") /\
  0 < _semaphore rl /\
  exists rl' env',
    wait_for_request "page" (rl, env) = (Return tt, (rl', env')) /\
    request_count rl' = 1.
Proof.
  intros rl env.
  assert (Htype : "page" = "page" \/ "page" = "station") by (left; reflexivity).
  assert (Hsem : 0 < _semaphore rl) by reflexivity.
  split; [exact Htype|]. split; [exact Hsem|].
  destruct (wait_for_request_exact_wait "page" rl env Htype Hsem)
    as (rl' & env' & Hrun & _ & _ & Hcount & _).
  exists rl', env'. split; [exact Hrun|]. rewrite Hcount. reflexivity.
Defined.

(** ** The gate on an operation that succeeds within the retries *)

Section GateKeeps.
Context {W : Type} `{Runtime W}.
Variable I : W -> Prop.
Hypothesis sleep_keeps : forall d w, I w -> I (asyncio_sleep d w).
Hypothesis random_keeps : forall w, I w -> I (snd (random_random w)).

Lemma wait_for_request_keeps (request_type : string) (rl : RateLimiter)
    (env : @Env W) :
  0 < _semaphore rl -> I (world env) ->
  exists rl' env',
    wait_for_request request_type (rl, env) = (Return tt, (rl', env')) /\
    I (world env') /\ _semaphore rl' = _semaphore rl.
Proof.
  intros Hsem Hi.
  unfold wait_for_request, async_with_semaphore, semaphore_acquire, semaphore_release.
  unfold try_finally, bind, get_self, put_self, in_env, emit, time, ret.
  cbn [fst snd _semaphore]. apply Z.ltb_lt in Hsem. rewrite Hsem.
  cbn [fst snd world history rl_config last_request_time].
  assert (Hd : exists d w1,
             required_delay_for (rl_config rl) request_type
               {| world := world env; history := (history env ++ [EvAcquire])%list |}
             = (Return d, {| world := w1;
                             history := (history env ++ [EvAcquire])%list |}) /\
             I w1).
  { unfold required_delay_for.
    destruct (String.eqb request_type "page"); [eexists _, _; split; [reflexivity|exact Hi]|].
    destruct (String.eqb request_type "station");
      [eexists _, _; split; [reflexivity|exact Hi]|].
    unfold random_uniform, in_world. cbn [world history].
    pose proof (random_keeps (world env) Hi) as Hr.
    destruct (random_random (world env)) as [u w1]. cbn [snd] in Hr.
    eexists _, _. split; [reflexivity|exact Hr]. }
  destruct Hd as (d & w1 & Hd & Hi1). rewrite Hd. cbn [fst snd world history].
  destruct (Qltb (time_time (world env) - last_request_time rl) d).
  - unfold sleep. cbn [fst snd world history _semaphore].
    eexists _, _. split; [reflexivity|]. cbn [world _semaphore].
    split; [apply sleep_keeps; exact Hi1|lia].
  - cbn [fst snd world history _semaphore].
    eexists _, _. split; [reflexivity|]. cbn [world _semaphore].
    split; [exact Hi1|lia].
Qed.

End GateKeeps.

Section WithinRetries.
Context {W : Type} `{Runtime W}.
Context {A : Type}.
Variable func : M W A.
(** [J n]: the worlds in which [func] fails [n] more times. *)
Variable J : nat -> W -> Prop.
Variable P : A -> W -> Prop.
Hypothesis sleep_keeps : forall n d w, J n w -> J n (asyncio_sleep d w).
Hypothesis random_keeps : forall n w, J n w -> J n (snd (random_random w)).
Hypothesis func_returns :
  forall w, J 0%nat w -> exists v w', func w = (Return v, w') /\ J 0%nat w' /\ P v w'.
Hypothesis func_raises :
  forall n w, J (S n) w -> exists e w', func w = (Raise e, w') /\ J n w'.

Lemma retry_loop_within (self : RetryManager) (n : nat) :
  forall (a k : nat) (last : option exn) (env : @Env W),
    J n (world env) ->
    (n < k)%nat ->
    (a + k = S (Z.to_nat (max_retries (rm_config self))))%nat ->
    0 <= max_retries (rm_config self) ->
    (a + n <= 1024)%nat ->
    exists v env',
      retry_loop self func (map Z.of_nat (seq a k)) last env = (Return v, env') /\
      J 0%nat (world env') /\ P v (world env').
Proof.
  induction n as [|n IH]; intros a k last env Hj Hk Hlen Hmax Hsmall;
    (destruct k as [|k]; [lia|]); cbn [seq map retry_loop].
  - unfold bind at 1. unfold attempt at 1. unfold bind at 1. unfold emit at 1.
    unfold in_world at 1. cbn [world history].
    destruct (func_returns (world env) Hj) as (v & w' & Hf & Hj' & Hp). rewrite Hf.
    unfold ret at 1. eexists v, _. split; [reflexivity|]. cbn [world]. auto.
  - unfold bind at 1. unfold attempt at 1. unfold bind at 1. unfold emit at 1.
    unfold in_world at 1. cbn [world history].
    destruct (func_raises n (world env) Hj) as (e & w' & Hf & Hj'). rewrite Hf.
    replace (Z.of_nat a =? max_retries (rm_config self)) with false
      by (symmetry; apply Z.eqb_neq; lia).
    rewrite float_of_int_pow2_small by lia.
    unfold bind at 1. unfold random_uniform at 1, in_world at 1. cbn [world history].
    pose proof (random_keeps n w' Hj') as Hr.
    destruct (random_random w') as [u w1]. cbn [snd] in Hr.
    unfold bind at 1. unfold sleep at 1. cbn [world history].
    apply IH; [cbn [world]; apply sleep_keeps; exact Hr|lia|lia|exact Hmax|lia].
Qed.

Lemma make_request_within (request_type : string) (pm : PoliteRequestManager)
    (env : @Env W) (n : nat) :
  0 < _semaphore (rate_limiter pm) ->
  Z.of_nat n <= Z.min (max_retries (rm_config (retry_manager pm))) 1024 ->
  J n (world env) ->
  exists v pm' env',
    make_request func request_type (pm, env) = (Return v, (pm', env')) /\
    J 0%nat (world env') /\ P v (world env') /\
    _semaphore (rate_limiter pm') = _semaphore (rate_limiter pm) /\
    retry_manager pm' = retry_manager pm /\
    user_agent_rotator pm' = user_agent_rotator pm.
Proof.
  intros Hsem Hn Hj.
  destruct (wait_for_request_keeps (J n) (sleep_keeps n) (random_keeps n)
              request_type (rate_limiter pm) env Hsem Hj)
    as (rl' & env1 & Hw & Hj1 & Hs1).
  unfold make_request.
  unfold bind at 1. unfold on_attr at 1. cbn [fst snd]. rewrite Hw. cbn [fst snd].
  unfold bind at 1. unfold in_env at 1, time at 1. cbn [fst snd].
  unfold try_except.
  unfold bind at 1. unfold get_self at 1. cbn [fst snd].
  unfold bind at 1. unfold in_env at 1. cbn [fst snd set_rate_limiter retry_manager].
  unfold execute_with_retry, range.
  destruct (retry_loop_within (retry_manager pm) n 0
              (Z.to_nat (max_retries (rm_config (retry_manager pm)) + 1)) None env1 Hj1)
    as (v & env2 & Hloop & Hj2 & Hp); [lia|lia|lia|lia|].
  rewrite Hloop.
  unfold bind at 1. unfold in_env at 1, time at 1. cbn [fst snd].
  unfold bind at 1. unfold on_attr at 1. cbn [fst snd].
  rewrite record_request_spec. cbn [fst snd]. unfold ret.
  eexists v, _, _. split; [reflexivity|]. cbn [world rate_limiter retry_manager
    user_agent_rotator set_monitor set_rate_limiter].
  split; [exact Hj2|]. split; [exact Hp|]. split; [exact Hs1|].
  split; reflexivity.
Qed.

End WithinRetries.

(** ** Sessions on a site that serves *)

Section ServedSite.
Variable self : Settings.
Variable site : list (string * (nat * Page)).
Hypothesis base_url_http : String.prefix "http" (base_url self) = true.
Hypothesis serves : site_serves self site = true.

Local Abbreviation St := (PoliteSuumoScraper * @Env SimWorld)%type.

Lemma site_page_pages (url : string) (l : list (string * (nat * Page))) :
  forall l', site_pages l = site_pages l' -> site_page url l = site_page url l'.
Proof.
  induction l as [|[u [f p]] rest IH]; intros [|[u' [f' p']] rest'] Heq;
    try discriminate; [reflexivity|].
  cbn [site_pages map fst snd] in Heq. injection Heq as -> -> Hrest.
  cbn [site_page]. rewrite (IH rest' Hrest). reflexivity.
Qed.

(** A fetch that fails uses up one of the failures of its URL; a fetch
    with no failure left loads the page and leaves the site as it is. *)
Lemma site_fetch_cases (url : string) (b : Z) (l : list (string * (nat * Page))) :
  forall page,
    site_page url l = Some page ->
    match failures_of url l with
    | O => site_fetch url l = (Some page, l)
    | S n =>
        exists l',
          site_fetch url l = (None, l') /\
          site_pages l' = site_pages l /\
          failures_of url l' = n /\
          (within_budget b l = true -> within_budget b l' = true)
    end.
Proof.
  induction l as [|[u [f p]] rest IH]; intros page Hp; [discriminate|].
  cbn [site_page failures_of site_fetch] in *.
  destruct (String.eqb u url) eqn:Hu.
  - injection Hp as ->. destruct f as [|n]; [reflexivity|].
    eexists. split; [reflexivity|]. split; [reflexivity|].
    cbn [failures_of]. rewrite Hu. split; [reflexivity|].
    cbn [within_budget forallb fst snd]. intros Hb. apply andb_prop in Hb.
    destruct Hb as [Hf Hrest]. apply Z.leb_le in Hf.
    apply andb_true_intro. split; [apply Z.leb_le; lia|exact Hrest].
  - specialize (IH page Hp). destruct (failures_of url rest) as [|n].
    + rewrite IH. reflexivity.
    + destruct IH as (l' & Hf & Hpages & Hn & Hb). rewrite Hf.
      eexists. split; [reflexivity|]. cbn [site_pages map fst snd].
      split; [f_equal; exact Hpages|].
      cbn [failures_of]. rewrite Hu. split; [exact Hn|].
      cbn [within_budget forallb fst snd]. intros Hb'. apply andb_prop in Hb'.
      destruct Hb' as [Hf' Hrest]. rewrite Hf'. apply Hb. exact Hrest.
Qed.

Lemma failures_within (url : string) (b : Z) (l : list (string * (nat * Page))) :
  0 <= b -> within_budget b l = true -> Z.of_nat (failures_of url l) <= b.
Proof.
  intros Hb. induction l as [|[u [f p]] rest IH]; cbn [failures_of]; [lia|].
  cbn [within_budget forallb fst snd]. intros Hl. apply andb_prop in Hl.
  destruct Hl as [Hf Hrest]. apply Z.leb_le in Hf.
  destruct (String.eqb u url); [exact Hf|apply IH; exact Hrest].
Qed.

Lemma site_page_In (url : string) (l : list (string * (nat * Page))) (page : Page) :
  site_page url l = Some page -> exists failures, In (url, (failures, page)) l.
Proof.
  induction l as [|[u [failures p]] rest IH]; [discriminate|]. cbn [site_page].
  destruct (String.eqb u url) eqn:Hu.
  - apply String.eqb_eq in Hu. subst u. intros [= ->]. exists failures. left. reflexivity.
  - intros Hp. destruct (IH Hp) as (f & Hin). exists f. right. exact Hin.
Qed.

Lemma served_page (url : string) (page : Page) :
  site_page url site = Some page ->
  pg_status page < 400 /\
  match page_next_url self page with
  | Some u => exists next, site_page u site = Some next
  | None => True
  end.
Proof.
  intros Hp. destruct (site_page_In url site page Hp) as (failures & Hin).
  unfold site_serves in serves. rewrite forallb_forall in serves.
  specialize (serves _ Hin). cbn beta iota in serves.
  apply andb_prop in serves. destruct serves as [Hs Hn].
  apply Z.ltb_lt in Hs. split; [exact Hs|].
  destruct (page_next_url self page) as [u|]; [|exact I].
  destruct (site_page u site) as [next|]; [eauto|discriminate].
Qed.

(** The worlds that hold the site within the budget [b] and in which
    [url] fails [n] more times. *)
Local Abbreviation holds b url :=
  (fun (n : nat) (w : SimWorld) =>
     site_pages (sim_site w) = site_pages site /\
     within_budget b (sim_site w) = true /\
     failures_of url (sim_site w) = n).

Lemma _goto_returns (rm : PoliteRequestManager) (url : string) (page : Page)
    (b : Z) (w : SimWorld) :
  site_page url site = Some page ->
  holds b url 0%nat w ->
  exists resp w',
    _goto rm url w = (Return resp, w') /\
    holds b url 0%nat w' /\ sim_loaded w' = page.
Proof.
  intros Hp (Hpages & Hb & Hn). destruct (served_page url page Hp) as [Hs _].
  rewrite <- (site_page_pages url _ _ Hpages) in Hp.
  pose proof (site_fetch_cases url b (sim_site w) page Hp) as Hf. rewrite Hn in Hf.
  unfold _goto. unfold bind at 1.
  unfold get_current_user_agent, get_random_user_agent, random_choice.
  cbn [random_randbelow SimRuntime].
  unfold bind at 1. unfold external at 1. cbn [page_set_extra_http_headers SimBrowser of_sum].
  unfold bind at 1. unfold external at 1. cbn [page_goto SimBrowser].
  unfold sim_goto. rewrite Hf. cbn [of_sum status].
  replace (400 <=? pg_status page) with false by (symmetry; apply Z.leb_gt; exact Hs).
  eexists _, _. split; [reflexivity|]. cbn [sim_site sim_loaded]. auto.
Qed.

Lemma _goto_raises (rm : PoliteRequestManager) (url : string) (page : Page)
    (b : Z) (n : nat) (w : SimWorld) :
  site_page url site = Some page ->
  holds b url (S n) w ->
  exists e w', _goto rm url w = (Raise e, w') /\ holds b url n w'.
Proof.
  intros Hp (Hpages & Hb & Hn).
  rewrite <- (site_page_pages url _ _ Hpages) in Hp.
  pose proof (site_fetch_cases url b (sim_site w) page Hp) as Hf. rewrite Hn in Hf.
  destruct Hf as (l' & Hf & Hpages' & Hn' & Hb').
  unfold _goto. unfold bind at 1.
  unfold get_current_user_agent, get_random_user_agent, random_choice.
  cbn [random_randbelow SimRuntime].
  unfold bind at 1. unfold external at 1. cbn [page_set_extra_http_headers SimBrowser of_sum].
  unfold bind at 1. unfold external at 1. cbn [page_goto SimBrowser].
  unfold sim_goto. rewrite Hf. cbn [of_sum].
  eexists _, _. split; [reflexivity|]. cbn [sim_site].
  split; [congruence|]. split; [apply Hb'; exact Hb|exact Hn'].
Qed.

Lemma safe_goto_page_served (url : string) (page : Page) (s : St) :
  on_site site s ->
  site_page url site = Some page ->
  exists resp s',
    safe_goto_page url s = (Return resp, s') /\
    on_site site s' /\ sim_loaded (world (snd s')) = page /\
    properties (fst s') = properties (fst s).
Proof.
  intros ([[Hsem Hua] Hmax] & Hpages & Hb) Hp. destruct s as [sc env].
  cbn [fst snd] in *.
  set (b := budget sc) in *.
  assert (Hb0 : 0 <= b) by (unfold b, budget; lia).
  destruct (make_request_within (_goto (request_manager sc) url) (holds b url)
              (fun _ w => sim_loaded w = page))
    with (request_type := "page") (pm := request_manager sc) (env := env)
         (n := failures_of url (sim_site (world env)))
    as (resp & pm' & env' & Hrun & Hj & Hl & Hs & Hr & Hu).
  { intros n d w Hj. exact Hj. }
  { intros n w Hj. exact Hj. }
  { intros w Hj. destruct (_goto_returns (request_manager sc) url page b w Hp Hj)
      as (resp & w' & Hg & Hj' & Hl'). eauto. }
  { intros n w Hj. apply (_goto_raises (request_manager sc) url page b n w Hp Hj). }
  { exact Hsem. }
  { apply (failures_within url b); assumption. }
  { auto. }
  exists resp, (set_request_manager pm' sc, env').
  split.
  { unfold safe_goto_page. unfold bind at 1. unfold get_self at 1. cbn [fst snd].
    unfold on_attr. cbn [fst snd]. rewrite Hrun. reflexivity. }
  split; [|split; [exact Hl|reflexivity]].
  destruct Hj as (Hpages' & Hb' & _).
  unfold on_site, ready, slots, budget.
  cbn [fst snd set_request_manager request_manager]. rewrite Hs, Hr, Hu.
  split; [split; [split|]; assumption|]. split; [exact Hpages'|exact Hb'].
Qed.

Lemma still_refl (s : St) : still s s.
Proof. unfold still. auto. Qed.

Lemma still_trans (s1 s2 s3 : St) : still s1 s2 -> still s2 s3 -> still s1 s3.
Proof.
  unfold still. intros (A1 & B1 & C1 & D1) (A2 & B2 & C2 & D2).
  rewrite A2, B2, C2, D2. auto.
Qed.

Lemma still_on_site (s s' : St) : still s s' -> on_site site s -> on_site site s'.
Proof.
  intros (_ & Hrm & Hs & _) ([[Hsem Hua] Hmax] & Hpages & Hb).
  unfold on_site, ready, slots, budget in *.
  rewrite Hrm, Hs. auto.
Qed.

Lemma sleep_uniform_still (a b : Q) (s : St) :
  exists s', in_env (sleep_uniform a b) s = (Return tt, s') /\ still s s'.
Proof.
  destruct s as [sc [w h]]. eexists. split; [reflexivity|].
  unfold still. cbn. auto.
Qed.

Lemma optional_sleep_still (c : bool) (a b : Q) (s : St) :
  exists s',
    (if c then in_env (sleep_uniform a b) else ret tt) s = (Return tt, s') /\
    still s s'.
Proof.
  destruct c; [apply sleep_uniform_still|].
  exists s. split; [reflexivity|apply still_refl].
Qed.

Lemma element_offer_nonneg (element : Element) : 0 <= element_offer element.
Proof.
  unfold element_offer, len.
  destruct (nonblank (el_title element) && nonblank (el_address element)); lia.
Qed.

Lemma elements_offer_nonneg (elements : list Element) : 0 <= elements_offer elements.
Proof.
  induction elements as [|e rest IH]; cbn [elements_offer fold_right]; [lia|].
  fold (elements_offer rest). pose proof (element_offer_nonneg e). lia.
Qed.

Lemma page_offer_nonneg (page : Page) : 0 <= page_offer page.
Proof.
  unfold page_offer. destruct (pg_elements page); [lia|apply elements_offer_nonneg].
Qed.

(** Extracting an element adds its offer to the properties of the page. *)
Lemma extract_property_info_offer (element : Element) (sc : PoliteSuumoScraper)
    (env : @Env SimWorld) (page_props : list PropertyInfo) :
  exists o sc',
    extract_property_info self element (sc, env) = (Return o, (sc', env)) /\
    properties sc' = properties sc /\
    request_manager sc' = request_manager sc /\
    sum_rooms (match o with
               | Some p => (page_props ++ [p])%list
               | None => page_props
               end)
    = sum_rooms page_props + element_offer element.
Proof.
  pose proof (extract_property_info_cases (W:=SimWorld) self element sc env
                base_url_http) as Hc.
  cbv zeta in Hc. unfold element_offer.
  destruct (nonblank (el_title element) && nonblank (el_address element)) eqn:Hnb;
    cbn [andb] in Hc.
  - destruct (len (element_rows element) =? 0) eqn:Hz; cbn [negb] in Hc.
    + destruct Hc as (data & msg & Hrun & _). apply Z.eqb_eq in Hz.
      eexists None, _. split; [exact Hrun|]. cbn [properties request_manager
        set_validation_errors]. split; [reflexivity|]. split; [reflexivity|]. lia.
    + destruct Hc as (p & Hrun & _ & _ & _ & Hlen & _).
      exists (Some p), sc. split; [exact Hrun|]. split; [reflexivity|].
      split; [reflexivity|].
      rewrite sum_rooms_app, sum_rooms_cons. cbn [sum_rooms fold_right]. lia.
  - destruct Hc as (data & msg & Hrun & _).
    eexists None, _. split; [exact Hrun|]. cbn [properties request_manager
      set_validation_errors]. split; [reflexivity|]. split; [reflexivity|]. lia.
Qed.

Lemma scrape_page_loop_served (elements : list Element) :
  forall (i : Z) (page_props : list PropertyInfo) (s : St),
    exists l s',
      scrape_page_loop self i elements page_props s = (Return l, s') /\
      still s s' /\
      sum_rooms page_props <= sum_rooms l /\
      sum_rooms l <= sum_rooms page_props + elements_offer elements /\
      (sum_rooms l = sum_rooms page_props + elements_offer elements \/
       target_count self <= sum_rooms (properties (fst s)) + sum_rooms l).
Proof.
  induction elements as [|element rest IH]; intros i pp s.
  - exists pp, s. split; [reflexivity|]. split; [apply still_refl|].
    cbn [elements_offer fold_right]. lia.
  - cbn [scrape_page_loop].
    destruct (optional_sleep_still (0 <? i) (1 # 2) (3 # 2) s) as (s1 & Hsl & Hst1).
    unfold bind at 1. rewrite Hsl. destruct s1 as [sc1 env1].
    destruct (extract_property_info_offer element sc1 env1 pp)
      as (o & sc2 & Hex & Hp2 & Hrm2 & Hsum).
    unfold bind at 1. rewrite Hex.
    unfold bind at 1. unfold get_self at 1. cbn [fst snd].
    set (pp' := match o with Some p => (pp ++ [p])%list | None => pp end) in *.
    assert (Hst2 : still s (sc2, env1)).
    { eapply still_trans; [exact Hst1|]. unfold still. cbn [fst snd]. auto. }
    assert (Hprops : properties sc2 = properties (fst s)) by apply Hst2.
    pose proof (element_offer_nonneg element) as He.
    pose proof (elements_offer_nonneg rest) as Hr.
    cbn [elements_offer fold_right]. fold (elements_offer rest).
    rewrite sum_rooms_app, Hprops.
    destruct (target_count self <=? sum_rooms (properties (fst s)) + sum_rooms pp')
      eqn:Hq.
    + apply Z.leb_le in Hq. exists pp', (sc2, env1).
      split; [reflexivity|]. split; [exact Hst2|]. lia.
    + destruct (IH (i + 1) pp' (sc2, env1)) as (l & s' & Hrun & Hst & Hlo & Hhi & Hcase).
      rewrite Hrun. exists l, s'. split; [reflexivity|].
      split; [eapply still_trans; eassumption|].
      cbn [fst] in Hcase. rewrite Hprops in Hcase. lia.
Qed.

Lemma scrape_page_served (url : string) (page : Page) (s : St) :
  on_site site s ->
  site_page url site = Some page ->
  exists l s',
    scrape_page self url s = (Return l, s') /\
    on_site site s' /\ sim_loaded (world (snd s')) = page /\
    properties (fst s') = properties (fst s) /\
    sum_rooms l <= page_offer page /\
    (sum_rooms l = page_offer page \/
     target_count self <= sum_rooms (properties (fst s)) + sum_rooms l).
Proof.
  intros Hon Hp.
  destruct (safe_goto_page_served url page s Hon Hp)
    as (resp & s1 & Hgo & Hon1 & Hl1 & Hp1).
  destruct (sleep_uniform_still 2 4 s1) as (s2 & Hsl & Hst2).
  pose proof (page_offer_nonneg page) as Hoff.
  unfold scrape_page, try_except.
  unfold bind at 1. rewrite Hgo.
  unfold bind at 1. rewrite Hsl.
  destruct s2 as [sc2 [w2 h2]].
  assert (Hloaded : sim_loaded w2 = page).
  { destruct Hst2 as (_ & _ & _ & Hd). cbn [fst snd world] in Hd. congruence. }
  assert (Hon2 : on_site site (sc2, {| world := w2; history := h2 |})).
  { apply (still_on_site s1); assumption. }
  assert (Hprops2 : properties sc2 = properties (fst s)).
  { destruct Hst2 as (Hq & _). cbn [fst] in Hq. congruence. }
  unfold bind at 1. unfold in_env at 1, in_world at 1, external at 1.
  cbn [fst snd world history page_title SimBrowser of_sum].
  unfold bind at 1. unfold attempt at 1.
  unfold in_env at 1, in_world at 1, external at 1.
  cbn [fst snd world history page_query_cassetteitems SimBrowser].
  rewrite Hloaded. unfold page_offer in *.
  destruct (pg_elements page) as [e|[|el els]]; cbn [of_sum].
  - exists [], (sc2, {| world := w2; history := h2 |}).
    split; [reflexivity|]. split; [exact Hon2|]. split; [exact Hloaded|].
    split; [exact Hprops2|]. cbn [sum_rooms fold_right]. lia.
  - exists [], (sc2, {| world := w2; history := h2 |}).
    split; [reflexivity|]. split; [exact Hon2|]. split; [exact Hloaded|].
    split; [exact Hprops2|]. cbn [sum_rooms fold_right elements_offer]. lia.
  - destruct (scrape_page_loop_served (el :: els) 0 []
                (sc2, {| world := w2; history := h2 |}))
      as (l & s' & Hrun & Hst & _ & Hhi & Hcase).
    rewrite Hrun. exists l, s'. split; [reflexivity|].
    split; [apply (still_on_site _ _ Hst Hon2)|].
    split; [destruct Hst as (_ & _ & _ & Hd); cbn [fst snd world] in Hd; congruence|].
    split; [destruct Hst as (Hq & _); cbn [fst] in Hq; congruence|].
    cbn [fst] in Hcase. rewrite Hprops2 in Hcase.
    cbn [sum_rooms fold_right] in Hhi, Hcase. lia.
Qed.

Lemma get_next_page_url_served (s : St) :
  exists s',
    get_next_page_url self s
    = (Return (page_next_url self (sim_loaded (world (snd s)))), s') /\
    still s s'.
Proof.
  destruct (sleep_uniform_still 1 2 s) as (s1 & Hsl & Hst1).
  unfold get_next_page_url, try_except.
  unfold bind at 1. rewrite Hsl. destruct s1 as [sc1 [w1 h1]].
  unfold bind at 1. unfold in_env at 1, in_world at 1, external at 1.
  cbn [fst snd world history page_next_href SimBrowser of_sum].
  assert (Hd : sim_loaded w1 = sim_loaded (world (snd s))) by apply Hst1.
  rewrite Hd. unfold page_next_url.
  destruct (pg_next (sim_loaded (world (snd s)))) as [h|].
  - destruct (str_bool h && str_bool (strip h)); eexists; (split; [reflexivity|exact Hst1]).
  - eexists. split; [reflexivity|exact Hst1].
Qed.

Lemma next_url_truthy (page : Page) (u : string) :
  page_next_url self page = Some u -> str_bool u = true.
Proof.
  unfold page_next_url. destruct (pg_next page) as [h|]; [|discriminate].
  destruct (str_bool h && str_bool (strip h)); [|discriminate].
  intros [= <-]. destruct (base_url self) as [|c b]; [discriminate|reflexivity].
Qed.

Lemma next_url_served (url : string) (page : Page) :
  site_page url site = Some page ->
  url_served site (page_next_url self page).
Proof.
  intros Hp. destruct (served_page url page Hp) as [_ Hn].
  unfold url_served. destruct (page_next_url self page) as [u|] eqn:Hu; [|exact I].
  split; [apply (next_url_truthy page); exact Hu|exact Hn].
Qed.

Lemma station_offer_nonneg (pages : nat) :
  forall url, 0 <= station_offer self site pages url.
Proof.
  induction pages as [|pages IH]; intros url; cbn [station_offer]; [lia|].
  destruct url as [u|]; [|lia].
  destruct (site_page u site) as [page|]; [|lia].
  pose proof (page_offer_nonneg page). specialize (IH (page_next_url self page)). lia.
Qed.

Lemma station_loop_served (fuel : nat) :
  forall (url : option string) (page_count : Z)
         (station_properties : list PropertyInfo) (s : St),
    on_site site s ->
    Z.of_nat fuel + page_count = 10 ->
    sum_rooms (properties (fst s)) + sum_rooms station_properties
    < target_count self ->
    url_served site url ->
    exists l s',
      station_loop self fuel url page_count station_properties s = (Return l, s') /\
      on_site site s' /\
      properties (fst s') = properties (fst s) /\
      sum_rooms l
      = Z.min (target_count self - sum_rooms (properties (fst s)))
              (sum_rooms station_properties + station_offer self site fuel url).
Proof.
  induction fuel as [|fuel IH]; intros url pc sp s Hon Hinv Hlt Hurl.
  - exists sp, s. split; [reflexivity|]. split; [exact Hon|]. split; [reflexivity|].
    cbn [station_offer]. lia.
  - cbn [station_loop station_offer]. destruct url as [u|].
    2:{ exists sp, s. split; [reflexivity|]. split; [exact Hon|].
        split; [reflexivity|]. lia. }
    destruct Hurl as [Htruthy [page Hpage]]. rewrite Htruthy, Hpage. cbn [andb].
    replace (pc <? 10) with true by (symmetry; apply Z.ltb_lt; lia).
    destruct (scrape_page_served u page s Hon Hpage)
      as (l & s1 & Hrun & Hon1 & Hl1 & Hp1 & Hhi & Hcase).
    pose proof (sum_rooms_nonneg l) as Hl0.
    pose proof (sum_rooms_nonneg sp) as Hsp0.
    pose proof (station_offer_nonneg fuel (page_next_url self page)) as Hrest.
    unfold station_page.
    unfold bind at 1. unfold bind at 1. unfold attempt at 1. rewrite Hrun.
    unfold bind at 1. unfold get_self at 1. cbn [fst snd]. rewrite Hp1.
    rewrite sum_rooms_app.
    destruct (target_count self
              <=? sum_rooms (properties (fst s)) + (sum_rooms sp + sum_rooms l))
      eqn:Hq.
    + apply Z.leb_le in Hq. unfold ret at 1.
      eexists _, s1. split; [reflexivity|]. split; [exact Hon1|].
      split; [exact Hp1|].
      destruct (_limit_properties_spec (sp ++ l)
                  (target_count self - sum_rooms (properties (fst s))))
        as (Hsum & _); [lia|].
      rewrite Hsum, sum_rooms_app. lia.
    + apply Z.leb_gt in Hq.
      destruct (get_next_page_url_served s1) as (s2 & Hnext & Hst2).
      unfold bind at 1. unfold attempt at 1. rewrite Hnext, Hl1.
      destruct (optional_sleep_still (url_bool (page_next_url self page)) 8 15 s2)
        as (s3 & Hsl & Hst3).
      unfold bind at 1. rewrite Hsl. unfold ret at 1.
      assert (Hon3 : on_site site s3).
      { apply (still_on_site s2); [exact Hst3|].
        apply (still_on_site s1); assumption. }
      assert (Hp3 : properties (fst s3) = properties (fst s)).
      { destruct Hst3 as (-> & _). destruct Hst2 as (-> & _). exact Hp1. }
      destruct (IH (page_next_url self page) (pc + 1) (sp ++ l)%list s3 Hon3)
        as (l' & s' & Hloop & Hon' & Hp' & Hsum).
      { lia. }
      { rewrite Hp3, sum_rooms_app. lia. }
      { apply (next_url_served u). exact Hpage. }
      rewrite Hloop. exists l', s'. split; [reflexivity|]. split; [exact Hon'|].
      split; [congruence|].
      rewrite Hsum, Hp3, sum_rooms_app. lia.
Qed.

Lemma scrape_station_served (station : string) (s : St) :
  on_site site s ->
  sum_rooms (properties (fst s)) < target_count self ->
  stations_served self site [station] = true ->
  exists l s',
    scrape_station self station s = (Return l, s') /\
    on_site site s' /\
    properties (fst s') = properties (fst s) /\
    sum_rooms l
    = Z.min (target_count self - sum_rooms (properties (fst s)))
            (station_total self site station).
Proof.
  intros Hon Hlt Hserved. destruct s as [sc env]. cbn [fst snd] in *.
  unfold scrape_station.
  unfold bind at 1. unfold get_self at 1.
  unfold bind at 1. unfold put_self at 1. cbn [fst snd].
  set (s0 := (set_current_station (Some station) sc, env)).
  assert (Hon0 : on_site site s0) by exact Hon.
  unfold station_total. cbn [stations_served forallb] in Hserved.
  rewrite andb_true_r in Hserved.
  destruct (get_station_url_cases station (prefecture self))
    as [(_ & msg & Hurl)|(code & _ & Hurl)]; rewrite Hurl in *.
  - cbn [is_ValueError]. exists [], s0. split; [reflexivity|].
    split; [exact Hon0|]. split; [reflexivity|]. cbn [sum_rooms fold_right]. lia.
  - unfold bind at 1. unfold get_self at 1. cbn [fst snd].
    match goal with |- context [if ?c then in_env (sleep_uniform 10 20) else ret tt] =>
      destruct (optional_sleep_still c 10 20 s0) as (s1 & Hsl & Hst1) end.
    unfold bind at 1. rewrite Hsl.
    assert (Hon1 : on_site site s1) by (apply (still_on_site s0); assumption).
    assert (Hp1 : properties (fst s1) = properties sc) by apply Hst1.
    destruct (station_loop_served 10
                (Some ("https://suumo.jp/chintai/" ++ prefecture self ++ "/" ++ code ++ "/"))
                0 [] s1 Hon1)
      as (l & s' & Hloop & Hon' & Hp' & Hsum).
    { reflexivity. }
    { rewrite Hp1. cbn [sum_rooms fold_right]. lia. }
    { split; [reflexivity|].
      destruct (site_page _ site) as [page|]; [eauto|discriminate]. }
    unfold bind at 1. rewrite Hloop. unfold ret at 1.
    eexists _, s'. split; [reflexivity|]. split; [exact Hon'|].
    split; [congruence|].
    rewrite sum_rooms_set_station_name, Hsum, Hp1. cbn [sum_rooms fold_right].
    reflexivity.
Qed.

Lemma obtainable_nonneg (todo : list string) : 0 <= obtainable self site todo.
Proof.
  induction todo as [|station rest IH]; cbn [obtainable fold_right]; [lia|].
  fold (obtainable self site rest).
  assert (0 <= station_total self site station).
  { unfold station_total. destruct (get_station_url _ _); try lia.
    apply station_offer_nonneg. }
  lia.
Qed.

Lemma stations_loop_served (todo : list string) :
  forall (i : Z) (s : St),
    on_site site s ->
    sum_rooms (properties (fst s)) <= target_count self ->
    stations_served self site todo = true ->
    exists s',
      stations_loop self i todo s = (Return tt, s') /\
      on_site site s' /\
      sum_rooms (properties (fst s'))
      = Z.min (target_count self)
              (sum_rooms (properties (fst s)) + obtainable self site todo).
Proof.
  induction todo as [|station rest IH]; intros i s Hon Hle Hserved.
  - exists s. split; [reflexivity|]. split; [exact Hon|].
    cbn [obtainable fold_right]. lia.
  - cbn [stations_loop obtainable fold_right]. fold (obtainable self site rest).
    pose proof (obtainable_nonneg rest) as Hrest.
    assert (Htotal : 0 <= station_total self site station).
    { unfold station_total. destruct (get_station_url _ _); try lia.
      apply station_offer_nonneg. }
    unfold bind at 1. unfold get_self at 1. cbn [fst snd].
    destruct (target_count self <=? sum_rooms (properties (fst s))) eqn:Hq.
    + apply Z.leb_le in Hq. exists s. split; [reflexivity|].
      split; [exact Hon|]. lia.
    + apply Z.leb_gt in Hq.
      cbn [stations_served forallb] in Hserved. apply andb_prop in Hserved.
      destruct Hserved as [Hone Hothers].
      destruct (scrape_station_served station s Hon Hq)
        as (l & s1 & Hrun & Hon1 & Hp1 & Hsum).
      { cbn [stations_served forallb]. rewrite Hone. reflexivity. }
      unfold bind at 1. unfold attempt at 1. rewrite Hrun.
      unfold bind at 1. unfold get_self at 1.
      unfold bind at 1. unfold put_self at 1. cbn [fst snd].
      set (s2 := (set_properties (properties (fst s1) ++ l)%list (fst s1), snd s1)).
      assert (Hon2 : on_site site s2) by exact Hon1.
      destruct (optional_sleep_still (i <? len (stations self) - 1) 15 30 s2)
        as (s3 & Hsl & Hst3).
      unfold bind at 1. rewrite Hsl.
      assert (Hon3 : on_site site s3) by (apply (still_on_site s2); assumption).
      assert (Hp3 : sum_rooms (properties (fst s3))
                    = sum_rooms (properties (fst s)) + sum_rooms l).
      { destruct Hst3 as (-> & _). unfold s2. cbn [fst properties set_properties].
        rewrite sum_rooms_app, Hp1. reflexivity. }
      destruct (IH (i + 1) s3 Hon3) as (s' & Hloop & Hon' & Hfinal).
      { rewrite Hp3, Hsum. lia. }
      { exact Hothers. }
      exists s'. split; [exact Hloop|]. split; [exact Hon'|].
      rewrite Hfinal, Hp3, Hsum. lia.
Qed.

Lemma scrape_all_stations_served (s : St) :
  on_site site s ->
  sum_rooms (properties (fst s)) <= target_count self ->
  stations_served self site (stations self) = true ->
  exists o s',
    scrape_all_stations self s = (Return o, s') /\
    result_reflects self o (properties (fst s')) /\
    sum_rooms (properties (fst s'))
    = Z.min (target_count self)
            (sum_rooms (properties (fst s))
             + obtainable self site (stations self)).
Proof.
  intros Hon Hle Hserved. destruct s as [sc [w h]].
  unfold scrape_all_stations.
  unfold bind at 1.
  assert (Hcreate : create_browser (sc, {| world := w; history := h |})
                    = (Return tt, (sc, {| world := w; history := h |})))
    by reflexivity.
  rewrite Hcreate.
  destruct (stations_loop_served (stations self) 0
              (sc, {| world := w; history := h |}) Hon Hle Hserved)
    as ([sc1 [w1 h1]] & Hloop & Hon1 & Hfinal).
  unfold try_finally, scrape_all_stations_body.
  unfold bind at 1. rewrite Hloop.
  unfold bind at 1. unfold get_self at 1.
  unfold bind at 1. unfold in_env at 1, time at 1. cbn [fst snd] in *.
  unfold ScrapingResult_init.
  destruct (properties sc1) as [|p ps] eqn:Hprops.
  - cbn [is_ValidationError]. unfold ret at 1.
    eexists None, _. split; [reflexivity|]. cbn [fst properties].
    split; [exact Hprops|rewrite Hprops; exact Hfinal].
  - rewrite Z.eqb_refl. cbn [negb]. unfold ret at 1.
    eexists (Some _), _. split; [reflexivity|]. cbn [fst].
    split; [|rewrite Hprops; exact Hfinal].
    unfold result_reflects. cbn [sr_properties total_count pages_scraped].
    rewrite Hprops. repeat split. discriminate.
Qed.

End ServedSite.

(** The loop over a station list is the loop over a prefix followed by
    the loop over the rest: the state between two stations is a state
    the session passes through. *)
Lemma stations_loop_app {W : Type} `{Runtime W} `{Browser W} (self : Settings)
    (done : list string) :
  forall (rest : list string) (i : Z) (s : PoliteSuumoScraper * @Env W),
    stations_loop self i (done ++ rest) s
    = (stations_loop self i done ;; stations_loop self (i + len done) rest) s.
Proof.
  induction done as [|station done' IH]; intros rest i s.
  - cbn [app stations_loop]. unfold bind, ret. unfold len. cbn [length].
    rewrite Z.add_0_r. reflexivity.
  - assert (Hlen : i + len (station :: done') = i + 1 + len done').
    { unfold len. cbn [length]. lia. }
    rewrite Hlen. cbn [app stations_loop].
    unfold bind in IH. unfold bind, get_self, put_self, ret. cbn [fst snd].
    destruct (target_count self <=? sum_rooms (properties (fst s))) eqn:Hq.
    + symmetry. apply stations_loop_reached. apply Z.leb_le. exact Hq.
    + destruct (attempt (scrape_station self station) s) as [[[e|l]|e|] s1];
        try reflexivity.
      * apply IH.
      * cbn [fst snd].
        match goal with |- context [(if ?c then ?a else ?b) ?x] =>
          destruct ((if c then a else b) x) as [[[]|e|] s3] end;
          try reflexivity.
        apply IH.
Qed.

(** C1.  The quota, counted in rooms.  In every world, a session started
    with no more than the quota collected ends with at most the quota, a
    returned result carries exactly the collected properties, and the
    bound holds at every point between two stations, each of which the
    loop passes through.  On a site that serves every page within the
    retries of a request, the session returns and the rooms it collects
    are the smaller of the quota and the rooms obtainable from its
    stations (the rooms of the valid elements on the pages the
    pagination leads to, ten pages per station at most): exactly the
    quota when that many are obtainable, and all of them otherwise. *)
Theorem scrape_all_stations_quota (self : Settings) :
  (forall (W : Type) (RT : Runtime W) (BR : Browser W)
          (s : PoliteSuumoScraper * @Env W),
      0 < slots (fst s) ->
      sum_rooms (properties (fst s)) <= target_count self ->
      let run := scrape_all_stations self s in
      let collected := properties (fst (snd run)) in
      sum_rooms collected <= target_count self /\
      (forall res,
          fst run = Return (Some res) ->
          sr_properties res = collected /\
          sum_rooms (sr_properties res) <= target_count self) /\
      (forall (i : Z) (done rest : list string),
          stations_loop self i (done ++ rest) s
          = (stations_loop self i done ;;
             stations_loop self (i + len done) rest) s /\
          sum_rooms (properties (fst (snd (stations_loop self i done s))))
          <= target_count self)) /\
  (forall (site : list (string * (nat * Page)))
          (s : PoliteSuumoScraper * @Env SimWorld),
      String.prefix "http" (base_url self) = true ->
      site_serves self site = true ->
      stations_served self site (stations self) = true ->
      on_site site s ->
      sum_rooms (properties (fst s)) <= target_count self ->
      let run := scrape_all_stations self s in
      let collected := properties (fst (snd run)) in
      (exists o, fst run = Return o /\ result_reflects self o collected) /\
      sum_rooms collected
      = Z.min (target_count self)
              (sum_rooms (properties (fst s))
               + obtainable self site (stations self)) /\
      (target_count self
       <= sum_rooms (properties (fst s)) + obtainable self site (stations self) ->
       sum_rooms collected = target_count self)).
Proof.
  split.
  - intros W RT BR s Hsem Hle run collected.
    destruct (scrape_all_stations_spec self s Hsem Hle)
      as (r & s' & new & evs & Hrun & _ & _ & _ & _ & Hb & _ & Hrefl & _).
    subst collected run. rewrite Hrun. cbn [fst snd].
    split; [exact Hb|]. split.
    + intros res ->. destruct (Hrefl (Some res) eq_refl) as (_ & Hprops & _).
      split; [exact Hprops|]. rewrite Hprops. exact Hb.
    + intros i done rest. split; [apply stations_loop_app|].
      destruct (stations_loop_spec self done i s Hsem Hle)
        as (s1 & new1 & evs1 & Hloop & _ & _ & _ & Hb1 & _).
      rewrite Hloop. exact Hb1.
  - intros site s Hhttp Hserves Hstations Hon Hle run collected.
    destruct (scrape_all_stations_served self site Hhttp Hserves s Hon Hle Hstations)
      as (o & s' & Hrun & Hrefl & Hsum).
    subst collected run. rewrite Hrun. cbn [fst snd].
    split; [exists o; split; [reflexivity|exact Hrefl]|].
    split; [exact Hsum|]. intros Hall. rewrite Hsum. lia.
Qed.

(** Two stations with nine rooms between them, two of the three pages
    served after failed fetches: with quota 5 the session collects five
    rooms, with quota 100 all nine. *)
Lemma scrape_all_stations_quota_witness :
  let site := site_retried in
  let s := (fresh_scraper true 1000, sim_env 1000 site) in
  let self := settings ["渋谷"; "新宿"] 5 "tokyo" in
  let self' := settings ["渋谷"; "新宿"] 100 "tokyo" in
  (String.prefix "http" (base_url self) = true /\
   site_serves self site = true /\
   stations_served self site (stations self) = true /\
   on_site site s /\
   sum_rooms (properties (fst s)) <= target_count self) /\
  obtainable self site (stations self) = 9 /\
  sum_rooms (properties (fst (snd (scrape_all_stations self s)))) = 5 /\
  sum_rooms (properties (fst (snd (scrape_all_stations self' s)))) = 9.
Proof.
  intros site s self self'.
  assert (H1 : String.prefix "http" (base_url self) = true) by reflexivity.
  assert (H2 : site_serves self site = true) by (vm_compute; reflexivity).
  assert (H3 : stations_served self site (stations self) = true)
    by (vm_compute; reflexivity).
  assert (H4 : on_site site s).
  { split; [split; [split; [vm_compute; reflexivity|discriminate]
                   |vm_compute; discriminate]|].
    split; vm_compute; reflexivity. }
  assert (H5 : sum_rooms (properties (fst s)) <= target_count self)
    by (vm_compute; discriminate).
  assert (H5' : sum_rooms (properties (fst s)) <= target_count self')
    by (vm_compute; discriminate).
  assert (H6 : obtainable self site (stations self) = 9) by (vm_compute; reflexivity).
  split; [repeat split; try assumption; apply H4|]. split; [exact H6|]. split.
  - destruct (proj2 (scrape_all_stations_quota self) site s H1 H2 H3 H4 H5)
      as (_ & _ & Hexact).
    apply Hexact. rewrite H6. vm_compute. discriminate.
  - destruct (proj2 (scrape_all_stations_quota self') site s H1 H2 H3 H4 H5')
      as (_ & Hmin & _).
    rewrite Hmin. vm_compute. reflexivity.
Defined.
